(** * Predictive search and header placeholder: a shallow embedding

    The development follows the custom elements of the theme that make
    up its search:

    - [HeaderSearch] ([assets/header-search.js]): the animated placeholder
      of the header search trigger, and in [HeaderKeys] its key listeners;
    - [PredictiveSearch] (the predictive search component): debounced query
      dispatch with cancellation tokens, keyboard navigation of the results,
      the reset / empty-state pipeline and the same placeholder engine bound
      to the search input;
    - [HeaderDrawer] (the menu drawer): the drawer the header search opens,
      with its search mode.

    Private fields become record fields, methods become functions on the
    record, asynchronous continuations become separate functions that take
    the token they captured, and the browser (timers, focus, the parsed
    documents) is part of the state. *)

From Stdlib Require Import ZArith String Ascii List Bool Lia.
From stdpp Require Import base list.
Import ListNotations.
Local Open Scope string_scope.
Local Open Scope Z_scope.

(** ** JavaScript strings

    Strings are sequences of code units; [ascii] stands for the code units
    below 256, which is all the placeholder data of the theme uses. *)

Module JS.

(** White space and line terminators below U+0100, as [trim] sees them. *)
Definition isWhiteSpace (c : ascii) : bool :=
  let n := nat_of_ascii c in
  ((9 <=? n)%nat && (n <=? 13)%nat) || (n =? 32)%nat || (n =? 160)%nat.

Fixpoint trimStart (s : string) : string :=
  match s with
  | EmptyString => EmptyString
  | String c r => if isWhiteSpace c then trimStart r else s
  end.

Fixpoint trimEnd (s : string) : string :=
  match s with
  | EmptyString => EmptyString
  | String c r =>
      match trimEnd r with
      | EmptyString => if isWhiteSpace c then EmptyString else String c EmptyString
      | r' => String c r'
      end
  end.

Definition trim (s : string) : string := trimEnd (trimStart s).

(** [s.endsWith(" ")] *)
Fixpoint endsWithSpace (s : string) : bool :=
  match s with
  | EmptyString => false
  | String c EmptyString => Ascii.eqb c " "%char
  | String _ r => endsWithSpace r
  end.

(** Truthiness of a string: only the empty string is falsy. *)
Definition truthy (s : string) : bool :=
  match s with EmptyString => false | _ => true end.

(** [a || b] on strings. *)
Definition or_else (a b : string) : string := if truthy a then a else b.

(** [s.length] *)
Definition len (s : string) : Z := Z.of_nat (String.length s).

(** [s.slice(0, n)] for an integer [n >= 0]. *)
Definition slice0 (s : string) (n : Z) : string := substring 0 (Z.to_nat n) s.

(** [arr[i] || ''] on an array of strings: [undefined] out of range. *)
Definition at_or_empty (arr : list string) (i : Z) : string :=
  if i <? 0 then "" else nth (Z.to_nat i) arr "".

(** [parsed.map((item) => String(item).trim()).filter(Boolean)] on the
    items already converted by [String]. *)
Definition trimmedNonEmpty (items : list string) : list string :=
  List.filter truthy (List.map trim items).

(** Truthiness of a timer handle: [null] and [0] are falsy. *)
Definition handleTruthy (h : option nat) : bool :=
  match h with
  | Some (S _) => true
  | _ => false
  end.

End JS.

(** What [JSON.parse(dataset.placeholderCategories)] can make of the
    attribute. The items of an array are given as [String(item)]. *)
Inductive CategoriesAttr : Type :=
| AttrMissing                       (* attribute absent or empty *)
| AttrInvalid                       (* JSON.parse throws *)
| AttrNotArray                      (* valid JSON, not an array *)
| AttrArray (items : list string).

(** ** Browser timers

    [setTimeout] hands out handles that are integers greater than zero;
    a timer is pending from [setTimeout] until it fires or is cleared. *)

Record Timers : Type := mkTimers {
  pending : list (nat * Z);          (* handle, delay in ms *)
  nextHandle : nat
}.

Definition noTimers : Timers := {| pending := []; nextHandle := 1 |}.

Definition setTimeout (delay : Z) (t : Timers) : nat * Timers :=
  (nextHandle t,
   {| pending := (pending t ++ [(nextHandle t, delay)])%list;
      nextHandle := S (nextHandle t) |}).

Definition clearTimeout (h : nat) (t : Timers) : Timers :=
  {| pending := List.filter (fun e => negb (Nat.eqb (fst e) h)) (pending t);
     nextHandle := nextHandle t |}.

Definition isPending (h : nat) (t : Timers) : bool :=
  existsb (fun e => Nat.eqb (fst e) h) (pending t).

(** ** The header placeholder component *)

Module HeaderSearch.

Record Dataset : Type := {
  placeholderPrefix : option string;
  placeholderCategories : CategoriesAttr
}.

Record State : Type := mkState {
  (* private fields *)
  timeout : option nat;
  index : Z;
  charIndex : Z;
  isDeleting : bool;
  categories : list string;
  prefix : string;
  (* refs.placeholder.textContent *)
  textContent : string;
  (* the pause / resume listeners have been added *)
  listening : bool;
  (* window timers *)
  timers : Timers
}.

(** The element as constructed, before it is connected. *)
Definition created (initialText : string) : State :=
  {| timeout := None; index := 0; charIndex := 0; isDeleting := false;
     categories := []; prefix := ""; textContent := initialText;
     listening := false; timers := noTimers |}.

(** [#getCategories] *)
Definition getCategories (d : Dataset) : list string :=
  match placeholderCategories d with
  | AttrMissing => JS.trimmedNonEmpty []     (* raw is '[]' *)
  | AttrArray items => JS.trimmedNonEmpty items
  | AttrInvalid => []
  | AttrNotArray => []
  end.

(** [#buildText] *)
Definition buildText (s : State) (typedText : string) : string :=
  if negb (JS.truthy (prefix s)) then typedText
  else
    let spacer :=
      if JS.endsWithSpace (prefix s) || negb (JS.truthy typedText)
      then "" else " " in
    JS.trimEnd (prefix s ++ spacer ++ typedText).

(** [#stop] *)
Definition stop (s : State) : State :=
  if JS.handleTruthy (timeout s) then
    match timeout s with
    | Some h =>
        mkState None (index s) (charIndex s) (isDeleting s) (categories s)
          (prefix s) (textContent s) (listening s) (clearTimeout h (timers s))
    | None => s
    end
  else s.

(** [#pause] *)
Definition pause (s : State) : State := stop s.

(** [#advance]: one animation step. *)
Definition advance (s : State) : State :=
  let category := JS.at_or_empty (categories s) (index s) in
  let '(charIndex', isDeleting', index', delay) :=
    if isDeleting s then
      let c := charIndex s - 1 in
      if c <=? 0
      then (c, false, (index s + 1) mod Z.of_nat (length (categories s)), 300)
      else (c, true, index s, 40)
    else
      let c := charIndex s + 1 in
      if c >=? JS.len category
      then (c, true, index s, 1200)
      else (c, false, index s, 85) in
  let visibleText := JS.slice0 category (Z.max charIndex' 0) in
  let text := buildText s visibleText in
  let '(h, timers') := setTimeout delay (timers s) in
  mkState (Some h) index' charIndex' isDeleting' (categories s) (prefix s)
    text (listening s) timers'.

(** [#resume] *)
Definition resume (s : State) : State :=
  if JS.handleTruthy (timeout s) then s else advance s.

(** [connectedCallback], up to the test on the categories: prefix and
    categories are read from the data attributes. (The key listeners on
    the trigger and on the document do not touch the placeholder.) *)
Definition configure (d : Dataset) (s : State) : State :=
  let prefix' := JS.trim (JS.or_else (default "" (placeholderPrefix d)) "") in
  mkState (timeout s) (index s) (charIndex s) (isDeleting s)
    (getCategories d) prefix' (textContent s) (listening s) (timers s).

(** [connectedCallback] *)
Definition connectedCallback (reducedMotion : bool) (d : Dataset) (s : State) : State :=
  let s1 := configure d s in
  if (length (categories s1) =? 0)%nat then
    mkState (timeout s1) (index s1) (charIndex s1) (isDeleting s1)
      (categories s1) (prefix s1) (prefix s1) (listening s1) (timers s1)
  else if reducedMotion || (length (categories s1) =? 1)%nat then
    mkState (timeout s1) (index s1) (charIndex s1) (isDeleting s1)
      (categories s1) (prefix s1)
      (buildText s1 (JS.or_else (JS.at_or_empty (categories s1) 0) ""))
      (listening s1) (timers s1)
  else
    resume
      (mkState (timeout s1) (index s1) (charIndex s1) (isDeleting s1)
         (categories s1) (prefix s1) (textContent s1) true (timers s1)).

(** [disconnectedCallback]: stops the timer; the four pause / resume
    listeners stay on the element. *)
Definition disconnectedCallback (s : State) : State := stop s.

(** What can happen to a connected element. *)
Inductive Event : Type :=
| MouseEnter | MouseLeave | FocusIn | FocusOut
| TimerFired (h : nat)
| Disconnected.

(** A timer that fires leaves the pending set and runs [#advance]; the
    field [#timeout] still holds its handle while the callback runs. *)
Definition fire (h : nat) (s : State) : State :=
  if isPending h (timers s) then
    advance
      (mkState (timeout s) (index s) (charIndex s) (isDeleting s)
         (categories s) (prefix s) (textContent s) (listening s)
         (clearTimeout h (timers s)))
  else s.

Definition handle (e : Event) (s : State) : State :=
  match e with
  | MouseEnter | FocusIn => if listening s then pause s else s
  | MouseLeave | FocusOut => if listening s then resume s else s
  | TimerFired h => fire h s
  | Disconnected => disconnectedCallback s
  end.

Definition run (es : list Event) (s : State) : State :=
  fold_left (fun acc e => handle e acc) es s.

(** The text currently rendered. *)
Definition rendered (s : State) : string := textContent s.

(** Steps of the animation alone. *)
Fixpoint steps (n : nat) (s : State) : State :=
  match n with
  | O => s
  | S k => steps k (advance s)
  end.

(** The category being typed. *)
Definition currentCategory (s : State) : string :=
  JS.at_or_empty (categories s) (index s).

(** [charIndex] is within the current category. *)
Definition charIndexInRange (s : State) : Prop :=
  0 <= charIndex s <= JS.len (currentCategory s).

(** The state of an engine that animates: categories are non-empty
    strings, the index points at one of them, and the character index is
    past 0 while deleting and short of the end while typing. *)
Definition animating (s : State) : Prop :=
  categories s <> []
  /\ Forall (fun c => JS.truthy c = true) (categories s)
  /\ 0 <= index s < Z.of_nat (length (categories s))
  /\ (if isDeleting s
      then 1 <= charIndex s <= JS.len (currentCategory s)
      else 0 <= charIndex s < JS.len (currentCategory s)).

(** The state of an engine that never started: no category, no listener,
    no timer, counters untouched. *)
Definition idle (s : State) : Prop :=
  categories s = [] /\ listening s = false /\ timeout s = None
  /\ index s = 0 /\ charIndex s = 0 /\ isDeleting s = false.

(** No timer is pending, or the one whose handle [#timeout] holds. *)
Definition oneTimer (s : State) : Prop :=
  (1 <= nextHandle (timers s))%nat
  /\ ((timeout s = None /\ pending (timers s) = [])
      \/ exists h d, timeout s = Some h /\ pending (timers s) = [(h, d)]
                     /\ (1 <= h < nextHandle (timers s))%nat).

(** What holds of the element after [connectedCallback] and after every
    event from then on. *)
Definition reachableInv (s : State) : Prop :=
  oneTimer s /\ (idle s \/ animating s).

(** The prefix is trimmed and the text shown begins with it. *)
Definition prefixShown (s : State) : Prop :=
  JS.trim (prefix s) = prefix s
  /\ exists rest, textContent s = (prefix s ++ rest)%string.

End HeaderSearch.

(** ** The rendered document

    The elements of a rendered fragment in document order, each with its
    nesting depth: a handle is the position of the element, the descendants
    of an element are the elements that follow it for as long as they are
    deeper. Only the attributes the components read or write are kept. *)

Module DOM.

Record Element : Type := mkElement {
  depth : nat;
  id : string;
  classes : list string;
  ref : option string;               (* the [ref] attribute *)
  ariaSelected : option string;      (* the [aria-selected] attribute *)
  singleResultUrl : option string;   (* [data-single-result-url] *)
  localName : string;                (* the tag, as a type selector reads it *)
  isHTMLElement : bool               (* [instanceof HTMLElement] *)
}.

Abbreviation Document := (list Element).
Abbreviation Handle := nat.

Definition hasClass (c : string) (e : Element) : bool :=
  existsb (String.eqb c) (classes e).

Definition hasId (i : string) (e : Element) : bool := String.eqb i (id e).

Definition hasRef (r : string) (e : Element) : bool :=
  match ref e with Some x => String.eqb r x | None => false end.

(** [classList.remove(c)] *)
Definition removeClass (c : string) (e : Element) : Element :=
  mkElement (depth e) (id e)
    (List.filter (fun x => negb (String.eqb c x)) (classes e))
    (ref e) (ariaSelected e) (singleResultUrl e) (localName e)
    (isHTMLElement e).

(** [classList.add(c)] *)
Definition addClass (c : string) (e : Element) : Element :=
  if hasClass c e then e
  else mkElement (depth e) (id e) (classes e ++ [c])%list (ref e)
         (ariaSelected e) (singleResultUrl e) (localName e)
         (isHTMLElement e).

(** [setAttribute('aria-selected', v)] and [removeAttribute('aria-selected')] *)
Definition setAriaSelected (v : option string) (e : Element) : Element :=
  mkElement (depth e) (id e) (classes e) (ref e) v (singleResultUrl e)
    (localName e) (isHTMLElement e).

(** [setAttribute('ref', v)] *)
Definition setRef (v : string) (e : Element) : Element :=
  mkElement (depth e) (id e) (classes e) (Some v) (ariaSelected e)
    (singleResultUrl e) (localName e) (isHTMLElement e).

Definition setDepth (d : nat) (e : Element) : Element :=
  mkElement d (id e) (classes e) (ref e) (ariaSelected e) (singleResultUrl e)
    (localName e) (isHTMLElement e).

(** Handles [k, k+1, ...] of the elements of [l] that satisfy [m]. *)
Fixpoint matching (m : Element -> bool) (k : nat) (l : list Element) : list Handle :=
  match l with
  | [] => []
  | e :: r => if m e then k :: matching m (S k) r else matching m (S k) r
  end.

(** [document.querySelectorAll] / [this.querySelectorAll] *)
Definition querySelectorAll (m : Element -> bool) (doc : Document) : list Handle :=
  matching m 0 doc.

Definition querySelector (m : Element -> bool) (doc : Document) : option Handle :=
  head (querySelectorAll m doc).

(** The leading elements of [l] deeper than [d]. *)
Fixpoint deeper (d : nat) (l : list Element) : list Element :=
  match l with
  | [] => []
  | e :: r => if (d <? depth e)%nat then e :: deeper d r else []
  end.

(** The descendants of the element at [h], as a block of the document. *)
Definition descendants (doc : Document) (h : Handle) : list Element :=
  match doc !! h with
  | Some e => deeper (depth e) (drop (S h) doc)
  | None => []
  end.

(** [element.querySelectorAll]: matches among the descendants of [h]. *)
Definition querySelectorAllIn (m : Element -> bool) (doc : Document) (h : Handle)
  : list Handle :=
  matching m (S h) (descendants doc h).

Definition querySelectorIn (m : Element -> bool) (doc : Document) (h : Handle)
  : option Handle :=
  head (querySelectorAllIn m doc h).

(** The element at [h] with its descendants, depths counted from it. *)
Definition subtree (doc : Document) (h : Handle) : Document :=
  match doc !! h with
  | Some e =>
      List.map (fun x => setDepth (depth x - depth e) x)
        (e :: deeper (depth e) (drop (S h) doc))
  | None => []
  end.

(** [element.children] with their subtrees, depths counted from the
    element: the children themselves are at depth 1. *)
Definition childNodes (doc : Document) (h : Handle) : list Element :=
  match doc !! h with
  | Some e => List.map (fun x => setDepth (depth x - depth e) x) (descendants doc h)
  | None => []
  end.

(** [element.prepend(...nodes)]: [nodes] become the first children of
    the element at [h]. *)
Definition prepend (nodes : list Element) (doc : Document) (h : Handle) : Document :=
  match doc !! h with
  | Some e =>
      (take (S h) doc
         ++ List.map (fun x => setDepth (depth x + depth e) x) nodes
         ++ drop (S h) doc)%list
  | None => doc
  end.

End DOM.

(** ** The predictive search component *)

Module PredictiveSearch.

(** A response of the section renderer: the markup text together with
    the document [DOMParser] (or [morph]) builds from it. *)
Record Markup : Type := mkMarkup {
  text : string;
  parsed : DOM.Document
}.

Inductive Response : Type :=
| Fulfilled (m : Markup)
| Rejected (error : string).

Inductive Request : Type :=
| SearchRequest (searchTerm : string)
| EmptySectionRequest
| RecentlyViewedRequest (ids : list string).

(** The closures that wait for a response, with what they captured. *)
Inductive Continuation : Type :=
| AwaitResults (token : nat)
| AwaitEmptySection (token : nat)
| AwaitRecentlyViewed (token : nat) (parsedEmptySectionMarkup : DOM.Document).

Inductive Navigation : Type :=
| ToSingleResult (url : string)
| ClickLinkOf (link : DOM.Handle)
| ToSearchPage (q : string).

Record State : Type := mkState {
  activeFetch : option nat;               (* #activeFetch: handle of an abort controller *)
  controllers : list bool;                (* the abort controllers made so far: signal.aborted of each *)
  placeholderTimeout : option nat;        (* #placeholderTimeout *)
  placeholderIndex : Z;                   (* #placeholderIndex *)
  placeholderCharIndex : Z;               (* #placeholderCharIndex *)
  placeholderIsDeleting : bool;           (* #placeholderIsDeleting *)
  placeholderCategories : list string;    (* #placeholderCategories *)
  placeholderPrefix : string;             (* #placeholderPrefix *)
  placeholderOriginal : string;           (* #placeholderOriginal *)
  dropdownOpen : bool;                    (* #dropdownOpen *)
  isKeyboardNavigation : bool;            (* #isKeyboardNavigation *)
  inputValue : string;                    (* refs.searchInput.value *)
  inputPlaceholder : string;              (* refs.searchInput.placeholder *)
  inputFocused : bool;                    (* document.activeElement === refs.searchInput *)
  ariaExpanded : bool;                    (* aria-expanded on the dropdown and the input *)
  resetButtonHidden : bool;               (* refs.resetButton.hidden *)
  results : DOM.Document;                 (* what refs.predictiveSearchResults holds *)
  placeholderListeners : bool;            (* focus / blur / input listeners of the placeholder added *)
  listenersActive : bool;                 (* #controller.signal not aborted *)
  timers : Timers;                        (* window timers *)
  reducedMotion : bool;                   (* prefersReducedMotion() *)
  sectionId : option string;              (* dataset.sectionId *)
  viewedProducts : list string;           (* RecentlyViewed.getProducts() *)
  requests : list Request;                (* requests sent to the section renderer *)
  awaiting : list Continuation;           (* continuations waiting for a response *)
  uncaught : list string;                 (* errors thrown and not caught *)
  navigated : list Navigation;            (* navigations requested *)
  inputFocusable : bool                   (* the input can take the focus *)
}.

(** Field updates. *)
Definition set_activeFetch (v : option nat) (s : State) : State :=
  mkState v (controllers s) (placeholderTimeout s) (placeholderIndex s)
    (placeholderCharIndex s) (placeholderIsDeleting s)
    (placeholderCategories s) (placeholderPrefix s)
    (placeholderOriginal s) (dropdownOpen s) (isKeyboardNavigation s)
    (inputValue s) (inputPlaceholder s) (inputFocused s)
    (ariaExpanded s) (resetButtonHidden s) (results s)
    (placeholderListeners s) (listenersActive s) (timers s)
    (reducedMotion s) (sectionId s) (viewedProducts s) (requests s)
    (awaiting s) (uncaught s) (navigated s) (inputFocusable s).
Definition set_controllers (v : list bool) (s : State) : State :=
  mkState (activeFetch s) v (placeholderTimeout s) (placeholderIndex s)
    (placeholderCharIndex s) (placeholderIsDeleting s)
    (placeholderCategories s) (placeholderPrefix s)
    (placeholderOriginal s) (dropdownOpen s) (isKeyboardNavigation s)
    (inputValue s) (inputPlaceholder s) (inputFocused s)
    (ariaExpanded s) (resetButtonHidden s) (results s)
    (placeholderListeners s) (listenersActive s) (timers s)
    (reducedMotion s) (sectionId s) (viewedProducts s) (requests s)
    (awaiting s) (uncaught s) (navigated s) (inputFocusable s).
Definition set_placeholderTimeout (v : option nat) (s : State) : State :=
  mkState (activeFetch s) (controllers s) v (placeholderIndex s)
    (placeholderCharIndex s) (placeholderIsDeleting s)
    (placeholderCategories s) (placeholderPrefix s)
    (placeholderOriginal s) (dropdownOpen s) (isKeyboardNavigation s)
    (inputValue s) (inputPlaceholder s) (inputFocused s)
    (ariaExpanded s) (resetButtonHidden s) (results s)
    (placeholderListeners s) (listenersActive s) (timers s)
    (reducedMotion s) (sectionId s) (viewedProducts s) (requests s)
    (awaiting s) (uncaught s) (navigated s) (inputFocusable s).
Definition set_placeholderIndex (v : Z) (s : State) : State :=
  mkState (activeFetch s) (controllers s) (placeholderTimeout s) v
    (placeholderCharIndex s) (placeholderIsDeleting s)
    (placeholderCategories s) (placeholderPrefix s)
    (placeholderOriginal s) (dropdownOpen s) (isKeyboardNavigation s)
    (inputValue s) (inputPlaceholder s) (inputFocused s)
    (ariaExpanded s) (resetButtonHidden s) (results s)
    (placeholderListeners s) (listenersActive s) (timers s)
    (reducedMotion s) (sectionId s) (viewedProducts s) (requests s)
    (awaiting s) (uncaught s) (navigated s) (inputFocusable s).
Definition set_placeholderCharIndex (v : Z) (s : State) : State :=
  mkState (activeFetch s) (controllers s) (placeholderTimeout s)
    (placeholderIndex s) v (placeholderIsDeleting s)
    (placeholderCategories s) (placeholderPrefix s)
    (placeholderOriginal s) (dropdownOpen s) (isKeyboardNavigation s)
    (inputValue s) (inputPlaceholder s) (inputFocused s)
    (ariaExpanded s) (resetButtonHidden s) (results s)
    (placeholderListeners s) (listenersActive s) (timers s)
    (reducedMotion s) (sectionId s) (viewedProducts s) (requests s)
    (awaiting s) (uncaught s) (navigated s) (inputFocusable s).
Definition set_placeholderIsDeleting (v : bool) (s : State) : State :=
  mkState (activeFetch s) (controllers s) (placeholderTimeout s)
    (placeholderIndex s) (placeholderCharIndex s) v
    (placeholderCategories s) (placeholderPrefix s)
    (placeholderOriginal s) (dropdownOpen s) (isKeyboardNavigation s)
    (inputValue s) (inputPlaceholder s) (inputFocused s)
    (ariaExpanded s) (resetButtonHidden s) (results s)
    (placeholderListeners s) (listenersActive s) (timers s)
    (reducedMotion s) (sectionId s) (viewedProducts s) (requests s)
    (awaiting s) (uncaught s) (navigated s) (inputFocusable s).
Definition set_placeholderCategories (v : list string) (s : State) : State :=
  mkState (activeFetch s) (controllers s) (placeholderTimeout s)
    (placeholderIndex s) (placeholderCharIndex s)
    (placeholderIsDeleting s) v (placeholderPrefix s)
    (placeholderOriginal s) (dropdownOpen s) (isKeyboardNavigation s)
    (inputValue s) (inputPlaceholder s) (inputFocused s)
    (ariaExpanded s) (resetButtonHidden s) (results s)
    (placeholderListeners s) (listenersActive s) (timers s)
    (reducedMotion s) (sectionId s) (viewedProducts s) (requests s)
    (awaiting s) (uncaught s) (navigated s) (inputFocusable s).
Definition set_placeholderPrefix (v : string) (s : State) : State :=
  mkState (activeFetch s) (controllers s) (placeholderTimeout s)
    (placeholderIndex s) (placeholderCharIndex s)
    (placeholderIsDeleting s) (placeholderCategories s) v
    (placeholderOriginal s) (dropdownOpen s) (isKeyboardNavigation s)
    (inputValue s) (inputPlaceholder s) (inputFocused s)
    (ariaExpanded s) (resetButtonHidden s) (results s)
    (placeholderListeners s) (listenersActive s) (timers s)
    (reducedMotion s) (sectionId s) (viewedProducts s) (requests s)
    (awaiting s) (uncaught s) (navigated s) (inputFocusable s).
Definition set_placeholderOriginal (v : string) (s : State) : State :=
  mkState (activeFetch s) (controllers s) (placeholderTimeout s)
    (placeholderIndex s) (placeholderCharIndex s)
    (placeholderIsDeleting s) (placeholderCategories s)
    (placeholderPrefix s) v (dropdownOpen s) (isKeyboardNavigation s)
    (inputValue s) (inputPlaceholder s) (inputFocused s)
    (ariaExpanded s) (resetButtonHidden s) (results s)
    (placeholderListeners s) (listenersActive s) (timers s)
    (reducedMotion s) (sectionId s) (viewedProducts s) (requests s)
    (awaiting s) (uncaught s) (navigated s) (inputFocusable s).
Definition set_dropdownOpen (v : bool) (s : State) : State :=
  mkState (activeFetch s) (controllers s) (placeholderTimeout s)
    (placeholderIndex s) (placeholderCharIndex s)
    (placeholderIsDeleting s) (placeholderCategories s)
    (placeholderPrefix s) (placeholderOriginal s) v
    (isKeyboardNavigation s) (inputValue s) (inputPlaceholder s)
    (inputFocused s) (ariaExpanded s) (resetButtonHidden s) (results s)
    (placeholderListeners s) (listenersActive s) (timers s)
    (reducedMotion s) (sectionId s) (viewedProducts s) (requests s)
    (awaiting s) (uncaught s) (navigated s) (inputFocusable s).
Definition set_isKeyboardNavigation (v : bool) (s : State) : State :=
  mkState (activeFetch s) (controllers s) (placeholderTimeout s)
    (placeholderIndex s) (placeholderCharIndex s)
    (placeholderIsDeleting s) (placeholderCategories s)
    (placeholderPrefix s) (placeholderOriginal s) (dropdownOpen s) v
    (inputValue s) (inputPlaceholder s) (inputFocused s)
    (ariaExpanded s) (resetButtonHidden s) (results s)
    (placeholderListeners s) (listenersActive s) (timers s)
    (reducedMotion s) (sectionId s) (viewedProducts s) (requests s)
    (awaiting s) (uncaught s) (navigated s) (inputFocusable s).
Definition set_inputValue (v : string) (s : State) : State :=
  mkState (activeFetch s) (controllers s) (placeholderTimeout s)
    (placeholderIndex s) (placeholderCharIndex s)
    (placeholderIsDeleting s) (placeholderCategories s)
    (placeholderPrefix s) (placeholderOriginal s) (dropdownOpen s)
    (isKeyboardNavigation s) v (inputPlaceholder s) (inputFocused s)
    (ariaExpanded s) (resetButtonHidden s) (results s)
    (placeholderListeners s) (listenersActive s) (timers s)
    (reducedMotion s) (sectionId s) (viewedProducts s) (requests s)
    (awaiting s) (uncaught s) (navigated s) (inputFocusable s).
Definition set_inputPlaceholder (v : string) (s : State) : State :=
  mkState (activeFetch s) (controllers s) (placeholderTimeout s)
    (placeholderIndex s) (placeholderCharIndex s)
    (placeholderIsDeleting s) (placeholderCategories s)
    (placeholderPrefix s) (placeholderOriginal s) (dropdownOpen s)
    (isKeyboardNavigation s) (inputValue s) v (inputFocused s)
    (ariaExpanded s) (resetButtonHidden s) (results s)
    (placeholderListeners s) (listenersActive s) (timers s)
    (reducedMotion s) (sectionId s) (viewedProducts s) (requests s)
    (awaiting s) (uncaught s) (navigated s) (inputFocusable s).
Definition set_inputFocused (v : bool) (s : State) : State :=
  mkState (activeFetch s) (controllers s) (placeholderTimeout s)
    (placeholderIndex s) (placeholderCharIndex s)
    (placeholderIsDeleting s) (placeholderCategories s)
    (placeholderPrefix s) (placeholderOriginal s) (dropdownOpen s)
    (isKeyboardNavigation s) (inputValue s) (inputPlaceholder s) v
    (ariaExpanded s) (resetButtonHidden s) (results s)
    (placeholderListeners s) (listenersActive s) (timers s)
    (reducedMotion s) (sectionId s) (viewedProducts s) (requests s)
    (awaiting s) (uncaught s) (navigated s) (inputFocusable s).
Definition set_ariaExpanded (v : bool) (s : State) : State :=
  mkState (activeFetch s) (controllers s) (placeholderTimeout s)
    (placeholderIndex s) (placeholderCharIndex s)
    (placeholderIsDeleting s) (placeholderCategories s)
    (placeholderPrefix s) (placeholderOriginal s) (dropdownOpen s)
    (isKeyboardNavigation s) (inputValue s) (inputPlaceholder s)
    (inputFocused s) v (resetButtonHidden s) (results s)
    (placeholderListeners s) (listenersActive s) (timers s)
    (reducedMotion s) (sectionId s) (viewedProducts s) (requests s)
    (awaiting s) (uncaught s) (navigated s) (inputFocusable s).
Definition set_resetButtonHidden (v : bool) (s : State) : State :=
  mkState (activeFetch s) (controllers s) (placeholderTimeout s)
    (placeholderIndex s) (placeholderCharIndex s)
    (placeholderIsDeleting s) (placeholderCategories s)
    (placeholderPrefix s) (placeholderOriginal s) (dropdownOpen s)
    (isKeyboardNavigation s) (inputValue s) (inputPlaceholder s)
    (inputFocused s) (ariaExpanded s) v (results s)
    (placeholderListeners s) (listenersActive s) (timers s)
    (reducedMotion s) (sectionId s) (viewedProducts s) (requests s)
    (awaiting s) (uncaught s) (navigated s) (inputFocusable s).
Definition set_results (v : DOM.Document) (s : State) : State :=
  mkState (activeFetch s) (controllers s) (placeholderTimeout s)
    (placeholderIndex s) (placeholderCharIndex s)
    (placeholderIsDeleting s) (placeholderCategories s)
    (placeholderPrefix s) (placeholderOriginal s) (dropdownOpen s)
    (isKeyboardNavigation s) (inputValue s) (inputPlaceholder s)
    (inputFocused s) (ariaExpanded s) (resetButtonHidden s) v
    (placeholderListeners s) (listenersActive s) (timers s)
    (reducedMotion s) (sectionId s) (viewedProducts s) (requests s)
    (awaiting s) (uncaught s) (navigated s) (inputFocusable s).
Definition set_placeholderListeners (v : bool) (s : State) : State :=
  mkState (activeFetch s) (controllers s) (placeholderTimeout s)
    (placeholderIndex s) (placeholderCharIndex s)
    (placeholderIsDeleting s) (placeholderCategories s)
    (placeholderPrefix s) (placeholderOriginal s) (dropdownOpen s)
    (isKeyboardNavigation s) (inputValue s) (inputPlaceholder s)
    (inputFocused s) (ariaExpanded s) (resetButtonHidden s) (results s)
    v (listenersActive s) (timers s) (reducedMotion s) (sectionId s)
    (viewedProducts s) (requests s) (awaiting s) (uncaught s)
    (navigated s) (inputFocusable s).
Definition set_listenersActive (v : bool) (s : State) : State :=
  mkState (activeFetch s) (controllers s) (placeholderTimeout s)
    (placeholderIndex s) (placeholderCharIndex s)
    (placeholderIsDeleting s) (placeholderCategories s)
    (placeholderPrefix s) (placeholderOriginal s) (dropdownOpen s)
    (isKeyboardNavigation s) (inputValue s) (inputPlaceholder s)
    (inputFocused s) (ariaExpanded s) (resetButtonHidden s) (results s)
    (placeholderListeners s) v (timers s) (reducedMotion s)
    (sectionId s) (viewedProducts s) (requests s) (awaiting s)
    (uncaught s) (navigated s) (inputFocusable s).
Definition set_timers (v : Timers) (s : State) : State :=
  mkState (activeFetch s) (controllers s) (placeholderTimeout s)
    (placeholderIndex s) (placeholderCharIndex s)
    (placeholderIsDeleting s) (placeholderCategories s)
    (placeholderPrefix s) (placeholderOriginal s) (dropdownOpen s)
    (isKeyboardNavigation s) (inputValue s) (inputPlaceholder s)
    (inputFocused s) (ariaExpanded s) (resetButtonHidden s) (results s)
    (placeholderListeners s) (listenersActive s) v (reducedMotion s)
    (sectionId s) (viewedProducts s) (requests s) (awaiting s)
    (uncaught s) (navigated s) (inputFocusable s).
Definition set_reducedMotion (v : bool) (s : State) : State :=
  mkState (activeFetch s) (controllers s) (placeholderTimeout s)
    (placeholderIndex s) (placeholderCharIndex s)
    (placeholderIsDeleting s) (placeholderCategories s)
    (placeholderPrefix s) (placeholderOriginal s) (dropdownOpen s)
    (isKeyboardNavigation s) (inputValue s) (inputPlaceholder s)
    (inputFocused s) (ariaExpanded s) (resetButtonHidden s) (results s)
    (placeholderListeners s) (listenersActive s) (timers s) v
    (sectionId s) (viewedProducts s) (requests s) (awaiting s)
    (uncaught s) (navigated s) (inputFocusable s).
Definition set_sectionId (v : option string) (s : State) : State :=
  mkState (activeFetch s) (controllers s) (placeholderTimeout s)
    (placeholderIndex s) (placeholderCharIndex s)
    (placeholderIsDeleting s) (placeholderCategories s)
    (placeholderPrefix s) (placeholderOriginal s) (dropdownOpen s)
    (isKeyboardNavigation s) (inputValue s) (inputPlaceholder s)
    (inputFocused s) (ariaExpanded s) (resetButtonHidden s) (results s)
    (placeholderListeners s) (listenersActive s) (timers s)
    (reducedMotion s) v (viewedProducts s) (requests s) (awaiting s)
    (uncaught s) (navigated s) (inputFocusable s).
Definition set_viewedProducts (v : list string) (s : State) : State :=
  mkState (activeFetch s) (controllers s) (placeholderTimeout s)
    (placeholderIndex s) (placeholderCharIndex s)
    (placeholderIsDeleting s) (placeholderCategories s)
    (placeholderPrefix s) (placeholderOriginal s) (dropdownOpen s)
    (isKeyboardNavigation s) (inputValue s) (inputPlaceholder s)
    (inputFocused s) (ariaExpanded s) (resetButtonHidden s) (results s)
    (placeholderListeners s) (listenersActive s) (timers s)
    (reducedMotion s) (sectionId s) v (requests s) (awaiting s)
    (uncaught s) (navigated s) (inputFocusable s).
Definition set_requests (v : list Request) (s : State) : State :=
  mkState (activeFetch s) (controllers s) (placeholderTimeout s)
    (placeholderIndex s) (placeholderCharIndex s)
    (placeholderIsDeleting s) (placeholderCategories s)
    (placeholderPrefix s) (placeholderOriginal s) (dropdownOpen s)
    (isKeyboardNavigation s) (inputValue s) (inputPlaceholder s)
    (inputFocused s) (ariaExpanded s) (resetButtonHidden s) (results s)
    (placeholderListeners s) (listenersActive s) (timers s)
    (reducedMotion s) (sectionId s) (viewedProducts s) v (awaiting s)
    (uncaught s) (navigated s) (inputFocusable s).
Definition set_awaiting (v : list Continuation) (s : State) : State :=
  mkState (activeFetch s) (controllers s) (placeholderTimeout s)
    (placeholderIndex s) (placeholderCharIndex s)
    (placeholderIsDeleting s) (placeholderCategories s)
    (placeholderPrefix s) (placeholderOriginal s) (dropdownOpen s)
    (isKeyboardNavigation s) (inputValue s) (inputPlaceholder s)
    (inputFocused s) (ariaExpanded s) (resetButtonHidden s) (results s)
    (placeholderListeners s) (listenersActive s) (timers s)
    (reducedMotion s) (sectionId s) (viewedProducts s) (requests s) v
    (uncaught s) (navigated s) (inputFocusable s).
Definition set_uncaught (v : list string) (s : State) : State :=
  mkState (activeFetch s) (controllers s) (placeholderTimeout s)
    (placeholderIndex s) (placeholderCharIndex s)
    (placeholderIsDeleting s) (placeholderCategories s)
    (placeholderPrefix s) (placeholderOriginal s) (dropdownOpen s)
    (isKeyboardNavigation s) (inputValue s) (inputPlaceholder s)
    (inputFocused s) (ariaExpanded s) (resetButtonHidden s) (results s)
    (placeholderListeners s) (listenersActive s) (timers s)
    (reducedMotion s) (sectionId s) (viewedProducts s) (requests s)
    (awaiting s) v (navigated s) (inputFocusable s).
Definition set_navigated (v : list Navigation) (s : State) : State :=
  mkState (activeFetch s) (controllers s) (placeholderTimeout s)
    (placeholderIndex s) (placeholderCharIndex s)
    (placeholderIsDeleting s) (placeholderCategories s)
    (placeholderPrefix s) (placeholderOriginal s) (dropdownOpen s)
    (isKeyboardNavigation s) (inputValue s) (inputPlaceholder s)
    (inputFocused s) (ariaExpanded s) (resetButtonHidden s) (results s)
    (placeholderListeners s) (listenersActive s) (timers s)
    (reducedMotion s) (sectionId s) (viewedProducts s) (requests s)
    (awaiting s) (uncaught s) v (inputFocusable s).
Definition set_inputFocusable (v : bool) (s : State) : State :=
  mkState (activeFetch s) (controllers s) (placeholderTimeout s)
    (placeholderIndex s) (placeholderCharIndex s)
    (placeholderIsDeleting s) (placeholderCategories s)
    (placeholderPrefix s) (placeholderOriginal s) (dropdownOpen s)
    (isKeyboardNavigation s) (inputValue s) (inputPlaceholder s)
    (inputFocused s) (ariaExpanded s) (resetButtonHidden s) (results s)
    (placeholderListeners s) (listenersActive s) (timers s)
    (reducedMotion s) (sectionId s) (viewedProducts s) (requests s)
    (awaiting s) (uncaught s) (navigated s) v.

(** *** Cancellation tokens *)

(** [signal.aborted] of the controller [h]. *)
Definition aborted (h : nat) (s : State) : bool :=
  default false (controllers s !! h).

(** [controller.abort()] *)
Definition abort (h : nat) (s : State) : State :=
  set_controllers (<[h := true]> (controllers s)) s.

(** [#createAbortController]: the new handle and the state. *)
Definition createAbortController (s : State) : nat * State :=
  let abortController := length (controllers s) in
  let s1 := set_controllers (controllers s ++ [false])%list s in
  let s2 := match activeFetch s1 with
            | Some prev => abort prev s1
            | None => s1
            end in
  (abortController, set_activeFetch (Some abortController) s2).

(** *** Dropdown *)

(** [#setDropdownState] *)
Definition setDropdownState (open : bool) (s : State) : State :=
  set_ariaExpanded open (set_dropdownOpen open s).

Definition openDropdown (s : State) : State := setDropdownState true s.
Definition closeDropdown (s : State) : State := setDropdownState false s.
Definition syncDropdownState (s : State) : State :=
  setDropdownState (dropdownOpen s) s.

(** [#hideResetButton], [#showResetButton] *)
Definition hideResetButton (s : State) : State := set_resetButtonHidden true s.
Definition showResetButton (s : State) : State := set_resetButtonHidden false s.

(** *** Placeholder engine *)

(** [#buildPlaceholder] *)
Definition buildPlaceholder (s : State) (typedText : string) : string :=
  let prefix := placeholderPrefix s in
  let spacer :=
    if JS.truthy prefix && negb (JS.endsWithSpace prefix) then " " else "" in
  JS.trimEnd (prefix ++ spacer ++ typedText).

(** [#shouldAnimatePlaceholder] *)
Definition shouldAnimatePlaceholder (s : State) : bool :=
  (JS.len (inputValue s) =? 0)
  && negb (inputFocused s)
  && (0 <? length (placeholderCategories s))%nat.

(** [#stopPlaceholderAnimation] *)
Definition stopPlaceholderAnimation (s : State) : State :=
  if JS.handleTruthy (placeholderTimeout s) then
    match placeholderTimeout s with
    | Some h => set_placeholderTimeout None (set_timers (clearTimeout h (timers s)) s)
    | None => s
    end
  else s.

(** [#pausePlaceholderAnimation] *)
Definition pausePlaceholderAnimation (s : State) : State :=
  let s1 := stopPlaceholderAnimation s in
  if JS.len (inputValue s1) =? 0
  then set_inputPlaceholder (placeholderOriginal s1) s1
  else s1.

(** [#resetPlaceholderAnimation] *)
Definition resetPlaceholderAnimation (s : State) : State :=
  set_placeholderIsDeleting false
    (set_placeholderCharIndex 0 (set_placeholderIndex 0 s)).

(** [#advancePlaceholder]: one animation step, or a pause when the
    animation is not wanted. *)
Definition advancePlaceholder (s : State) : State :=
  if negb (shouldAnimatePlaceholder s) then pausePlaceholderAnimation s
  else
    let category := JS.at_or_empty (placeholderCategories s) (placeholderIndex s) in
    let '(charIndex', isDeleting', index', delay) :=
      if placeholderIsDeleting s then
        let c := placeholderCharIndex s - 1 in
        if c <=? 0
        then (c, false,
              (placeholderIndex s + 1) mod Z.of_nat (length (placeholderCategories s)),
              300)
        else (c, true, placeholderIndex s, 40)
      else
        let c := placeholderCharIndex s + 1 in
        if c >=? JS.len category
        then (c, true, placeholderIndex s, 1200)
        else (c, false, placeholderIndex s, 85) in
    let visibleText := JS.slice0 category (Z.max charIndex' 0) in
    let s1 := set_placeholderIsDeleting isDeleting'
                (set_placeholderIndex index'
                   (set_placeholderCharIndex charIndex' s)) in
    let s2 := set_inputPlaceholder (buildPlaceholder s1 visibleText) s1 in
    let '(h, timers') := setTimeout delay (timers s2) in
    set_placeholderTimeout (Some h) (set_timers timers' s2).

(** [#resumePlaceholderAnimation] *)
Definition resumePlaceholderAnimation (s : State) : State :=
  if reducedMotion s then s
  else if negb (shouldAnimatePlaceholder s) then pausePlaceholderAnimation s
  else if JS.handleTruthy (placeholderTimeout s) then s
  else advancePlaceholder s.

(** [#handlePlaceholderInput] *)
Definition handlePlaceholderInput (s : State) : State :=
  if 0 <? JS.len (inputValue s) then pausePlaceholderAnimation s
  else resumePlaceholderAnimation s.

(** *** Focus

    [focus()] and [blur()] on the search input dispatch the events
    synchronously. The listeners were added with the signal of
    [#controller]: [#openDropdown] first, the placeholder listeners after
    it; [focusout] bubbles to [#handleFocusOut]. [focus()] moves the focus
    only to an input that can take it: one that is rendered, enabled and
    not inside a closed dialog ([inputFocusable]); on any other input, and
    on the input that has the focus already, it does nothing. *)

(** The [focus] event on the search input. *)
Definition onFocus (s : State) : State :=
  if listenersActive s then
    let s1 := openDropdown s in
    if placeholderListeners s1 then pausePlaceholderAnimation s1 else s1
  else s.

(** [#handleFocusOut]; [inside] tells whether [relatedTarget] is an
    element of the component. *)
Definition handleFocusOut (inside : bool) (s : State) : State :=
  if inside then s else closeDropdown s.

(** The [blur] event on the search input followed by [focusout]. *)
Definition onBlur (relatedInside : bool) (s : State) : State :=
  if listenersActive s then
    let s1 := if placeholderListeners s then resumePlaceholderAnimation s else s in
    handleFocusOut relatedInside s1
  else s.

(** [refs.searchInput.focus()] *)
Definition focusInput (s : State) : State :=
  if inputFocused s then s
  else if inputFocusable s then onFocus (set_inputFocused true s)
  else s.

(** [refs.searchInput.blur()] *)
Definition blurInput (s : State) : State :=
  if inputFocused s then onBlur false (set_inputFocused false s) else s.

(** *** Result items and the selection index *)

Definition isContainer (e : DOM.Element) : bool :=
  DOM.hasClass "predictive-search-results__wrapper-queries" e
  || DOM.hasClass "predictive-search-results__wrapper-products" e
  || DOM.hasClass "predictive-search-results__list" e.

Definition isCard (e : DOM.Element) : bool :=
  DOM.hasClass "predictive-search-results__card" e.

Definition isItemOrCard (e : DOM.Element) : bool :=
  DOM.hasRef "resultsItems[]" e || isCard e.

(** [item instanceof HTMLElement] *)
Definition instanceOfHTMLElement (doc : DOM.Document) (item : DOM.Handle) : bool :=
  match doc !! item with
  | Some e => DOM.isHTMLElement e
  | None => false
  end.

(** The getter [#allResultsItems], on a document. *)
Definition allResultsItemsOf (doc : DOM.Document) : list DOM.Handle :=
  let containers := DOM.querySelectorAll isContainer doc in
  let allItems :=
    List.filter (instanceOfHTMLElement doc)
      (flat_map
         (fun container =>
            match doc !! container with
            | Some c =>
                if DOM.hasClass "predictive-search-results__wrapper-products" c
                then DOM.querySelectorAllIn isCard doc container
                else DOM.querySelectorAllIn isItemOrCard doc container
            | None => []
            end)
         containers) in
  allItems.

Definition allResultsItems (s : State) : list DOM.Handle :=
  allResultsItemsOf (results s).

Definition isSelected (doc : DOM.Document) (item : DOM.Handle) : bool :=
  match doc !! item with
  | Some e => match DOM.ariaSelected e with
              | Some v => String.eqb v "true"
              | None => false
              end
  | None => false
  end.

(** [array.findIndex(p)] *)
Fixpoint findIndex {A : Type} (p : A -> bool) (l : list A) : Z :=
  match l with
  | [] => -1
  | x :: r => if p x then 0 else
                let i := findIndex p r in if i <? 0 then -1 else i + 1
  end.

(** The getter [#currentIndex]. *)
Definition currentIndex (s : State) : Z :=
  findIndex (isSelected (results s)) (allResultsItems s).

(** The first loop of the setter: [classList.remove('keyboard-focus')]
    on every item. *)
Definition clearKeyboardFocus (doc : DOM.Document) : DOM.Document :=
  fold_left
    (fun d item => alter (DOM.removeClass "keyboard-focus") item d)
    (allResultsItemsOf doc) doc.

(** The body of the second loop for one entry. *)
Definition markItem (keyboard : bool) (index : Z) (itemIndex : nat)
    (e : DOM.Element) : DOM.Element :=
  if Z.of_nat itemIndex =? index then
    let e1 := DOM.setAriaSelected (Some "true") e in
    if keyboard then DOM.addClass "keyboard-focus" e1 else e1
  else DOM.setAriaSelected None e.

(** The second loop, over [entries()]. *)
Fixpoint markItems (keyboard : bool) (index : Z) (itemIndex : nat)
    (items : list DOM.Handle) (doc : DOM.Document) : DOM.Document :=
  match items with
  | [] => doc
  | item :: rest =>
      markItems keyboard index (S itemIndex) rest
        (alter (markItem keyboard index itemIndex) item doc)
  end.

(** The setter [#currentIndex]. *)
Definition set_currentIndex (index : Z) (s : State) : State :=
  match allResultsItems s with
  | [] => s
  | _ =>
      let doc1 := clearKeyboardFocus (results s) in
      let doc2 :=
        markItems (isKeyboardNavigation s) index 0 (allResultsItemsOf doc1) doc1 in
      focusInput (set_results doc2 s)
  end.

(** The getter [#currentItem]. *)
Definition currentItem (s : State) : option DOM.Handle :=
  let i := currentIndex s in
  if i <? 0 then None else allResultsItems s !! Z.to_nat i.

(** *** Query dispatch *)

Definition sectionIdTruthy (s : State) : bool :=
  match sectionId s with Some x => JS.truthy x | None => false end.

Definition send (r : Request) (k : Continuation) (s : State) : State :=
  set_awaiting (awaiting s ++ [k])%list (set_requests (requests s ++ [r])%list s).

(** Modelled from the spec: the reconciliation primitive [morph] of the
    theme, which is not among the sources: [apply(targetSubtree,
    newFragment)] updates the target in place so that it holds the new
    fragment. The target is always [refs.predictiveSearchResults]. *)
Definition morph (newFragment : DOM.Document) (s : State) : State :=
  set_results newFragment s.

(** [#getSearchResults], up to the request. *)
Definition getSearchResults (searchTerm : string) (s : State) : State :=
  if negb (sectionIdTruthy s) then s
  else
    let '(abortController, s1) := createAbortController s in
    send (SearchRequest searchTerm) (AwaitResults abortController) s1.

(** The [then] callback of [#getSearchResults]. Scroll offsets are not
    part of the state, so [#resetScrollPositions] leaves no trace. *)
Definition resultsArrived (abortController : nat) (resultsMarkup : Markup)
    (s : State) : State :=
  if negb (JS.truthy (text resultsMarkup)) then s
  else if aborted abortController s then s
  else syncDropdownState (morph (parsed resultsMarkup) s).

(** Where a callback can throw, it returns the state it reached and
    the error, if any. *)
Inductive Outcome : Type :=
| Returned (s : State)
| Threw (error : string) (s : State).

Definition stateOf (o : Outcome) : State :=
  match o with Returned s => s | Threw _ s => s end.

Definition errorOf (o : Outcome) : option string :=
  match o with Returned _ => None | Threw e _ => Some e end.

(** An error that nothing catches is reported, and the state stays as
    it was when the error was thrown. *)
Definition settle (o : Outcome) : State :=
  match o with
  | Returned s => s
  | Threw error s => set_uncaught (uncaught s ++ [error])%list s
  end.

(** The [catch] callback of [#getSearchResults]. *)
Definition resultsFailed (abortController : nat) (error : string) (s : State)
  : Outcome :=
  if aborted abortController s then Returned s else Threw error s.

(** *** Reset *)

(** [#resetSearch] up to its first [await]. *)
Definition resetSearchBegin (s : State) : State :=
  let s1 := set_currentIndex (-1) s in
  let s2 := hideResetButton (set_inputValue "" s1) in
  let '(abortController, s3) := createAbortController s2 in
  send EmptySectionRequest (AwaitEmptySection abortController) s3.

(** The end of [#resetSearch], from the check of the token on. *)
Definition resetSearchApply (abortController : nat)
    (parsedEmptySectionMarkup : DOM.Document) (s : State) : State :=
  if aborted abortController s then s
  else
    resumePlaceholderAnimation
      (resetPlaceholderAnimation
         (syncDropdownState (morph parsedEmptySectionMarkup s))).

(** [#resetSearch] from its first [await] to the second one, or to the
    end when nothing was viewed. *)
Definition emptySectionArrived (abortController : nat)
    (emptySectionMarkup : Markup) (s : State) : Outcome :=
  match DOM.querySelector (DOM.hasClass "predictive-search-empty-section")
          (parsed emptySectionMarkup) with
  | None => Threw "No empty section markup found" s
  | Some h =>
      let parsedEmptySectionMarkup := DOM.subtree (parsed emptySectionMarkup) h in
      match viewedProducts s with
      | [] => Returned (resetSearchApply abortController parsedEmptySectionMarkup s)
      | _ :: _ =>
          (* #getRecentlyViewedProductsMarkup *)
          if negb (sectionIdTruthy s) then Returned s
          else
            Returned
              (send (RecentlyViewedRequest (viewedProducts s))
                 (AwaitRecentlyViewed abortController parsedEmptySectionMarkup) s)
      end
  end.

(** The children of [#predictive-search-products] in the recently viewed
    markup, each marked [ref="recentlyViewedWrapper"]. *)
Definition recentlyViewedChildren (doc : DOM.Document) (h : DOM.Handle)
  : list DOM.Element :=
  List.map
    (fun child =>
       if (DOM.depth child =? 1)%nat
       then DOM.setRef "recentlyViewedWrapper" child else child)
    (DOM.childNodes doc h).

(** The merge of the recently viewed products into the empty section:
    the children of [#predictive-search-products] of the one go in
    front of the children of [#predictive-search-products] of the other. *)
Definition mergeRecentlyViewed (parsedEmptySectionMarkup : DOM.Document)
    (recentlyViewedMarkup : Markup) : DOM.Document :=
  match DOM.querySelector (DOM.hasId "predictive-search-products")
          (parsed recentlyViewedMarkup) with
  | Some recentlyViewedProductsHtml =>
      let children :=
        recentlyViewedChildren (parsed recentlyViewedMarkup)
          recentlyViewedProductsHtml in
      match DOM.querySelectorIn (DOM.hasId "predictive-search-products")
              parsedEmptySectionMarkup 0%nat with
      | Some collectionElement =>
          DOM.prepend children parsedEmptySectionMarkup collectionElement
      | None => parsedEmptySectionMarkup
      end
  | None => parsedEmptySectionMarkup
  end.

(** [#resetSearch] from its second [await] on. *)
Definition recentlyViewedArrived (abortController : nat)
    (parsedEmptySectionMarkup : DOM.Document) (recentlyViewedMarkup : Markup)
    (s : State) : State :=
  if negb (JS.truthy (text recentlyViewedMarkup)) then s
  else
    resetSearchApply abortController
      (mergeRecentlyViewed parsedEmptySectionMarkup recentlyViewedMarkup) s.

(** The body of the debounced [resetSearch]. *)
Definition resetSearch (keepFocus : bool) (s : State) : State :=
  resetSearchBegin (if keepFocus then focusInput s else s).

(** The body of the debounced [search]; [inputType] is the field of the
    event, [None] when the event has none. *)
Definition search (inputType : option string) (s : State) : State :=
  if negb (JS.truthy (default "" inputType)) then s
  else
    let searchTerm := JS.trim (inputValue s) in
    let s1 := set_currentIndex (-1) s in
    if JS.len searchTerm =? 0 then resetSearchBegin s1
    else getSearchResults searchTerm (showResetButton s1).

(** *** Keyboard *)

Definition navigate (n : Navigation) (s : State) : State :=
  set_navigated (navigated s ++ [n])%list s.

(** The selector [[data-single-result-url]]. *)
Definition hasSingleResultUrl (e : DOM.Element) : bool :=
  match DOM.singleResultUrl e with Some _ => true | None => false end.

(** The selector [a]. *)
Definition isLink (e : DOM.Element) : bool := String.eqb (DOM.localName e) "a".

(** What the call of a method that the object does not have throws. *)
Definition notAFunction : string := "TypeError: click is not a function".

(** [link.click()]: only an [HTMLElement] has the method. The call is
    recorded; what the click sets off in the page is not followed, like
    the navigations. *)
Definition click (link : DOM.Handle) (s : State) : Outcome :=
  if instanceOfHTMLElement (results s) link
  then Returned (navigate (ClickLinkOf link) s)
  else Threw notAFunction s.

(** The [Enter] case of [onSearchKeyDown]. *)
Definition onEnter (s : State) : Outcome :=
  let singleResultContainer :=
    match DOM.querySelector hasSingleResultUrl (results s) with
    | Some h => results s !! h
    | None => None
    end in
  let singleResultUrl :=
    match singleResultContainer with
    | Some e =>
        if DOM.isHTMLElement e then default "" (DOM.singleResultUrl e) else ""
    | None => ""
    end in
  if JS.truthy singleResultUrl
  then Returned (navigate (ToSingleResult singleResultUrl) s)
  else if currentIndex s >=? 0 then
    match currentItem s with
    | Some item =>
        match DOM.querySelectorIn isLink (results s) item with
        | Some link => click link s
        | None => Returned s
        end
    | None => Returned s
    end
  else Returned (navigate (ToSearchPage (inputValue s)) s).

(** [onSearchKeyDown], on [event.key] and [event.shiftKey]. *)
Definition onSearchKeyDown (key : string) (shiftKey : bool) (s : State) : State :=
  if String.eqb key "Escape" then
    blurInput (resetSearchBegin (closeDropdown s))
  else if (length (allResultsItems s) =? 0)%nat
          || String.eqb key "ArrowLeft" || String.eqb key "ArrowRight" then s
  else
    let currentIndex := currentIndex s in
    let totalItems := Z.of_nat (length (allResultsItems s)) in
    if String.eqb key "ArrowDown" then
      set_currentIndex
        (if currentIndex <? totalItems - 1 then currentIndex + 1 else 0)
        (set_isKeyboardNavigation true s)
    else if String.eqb key "Tab" then
      if shiftKey then
        set_currentIndex
          (if currentIndex >? 0 then currentIndex - 1 else totalItems - 1)
          (set_isKeyboardNavigation true s)
      else
        set_currentIndex
          (if currentIndex <? totalItems - 1 then currentIndex + 1 else 0)
          (set_isKeyboardNavigation true s)
    else if String.eqb key "ArrowUp" then
      set_currentIndex
        (if currentIndex >? 0 then currentIndex - 1 else totalItems - 1)
        (set_isKeyboardNavigation true s)
    else if String.eqb key "Enter" then settle (onEnter s)
    else s.

(** The keys that move the selection, and which way. *)
Inductive Direction : Type := Forward | Backward.

Definition navigation (key : string) (shiftKey : bool) : option Direction :=
  if String.eqb key "ArrowDown" then Some Forward
  else if String.eqb key "Tab" then Some (if shiftKey then Backward else Forward)
  else if String.eqb key "ArrowUp" then Some Backward
  else None.

(** *** Other listeners *)

(** [#handleOutsideClick] for a click outside the component. *)
Definition handleOutsideClick (s : State) : State :=
  if negb (dropdownOpen s) then s else blurInput (closeDropdown s).

(** [#handleDialogClose] *)
Definition handleDialogClose (s : State) : State :=
  resetSearchBegin (closeDropdown s).

(** [disconnectedCallback] *)
Definition disconnectedCallback (s : State) : State :=
  stopPlaceholderAnimation (set_listenersActive false s).

(** *** Set-up *)

Record Config : Type := mkConfig {
  cfgValue : string;                       (* value of the input *)
  cfgFocused : bool;                       (* the input has focus *)
  cfgFocusable : bool;                     (* the input can take the focus *)
  cfgPlaceholder : option string;          (* its [placeholder] attribute *)
  cfgResetHidden : bool;                   (* [hidden] of the reset button *)
  cfgResults : DOM.Document;               (* the results as rendered *)
  cfgPlaceholderPrefix : option string;    (* dataset.placeholderPrefix *)
  cfgPlaceholderCategories : CategoriesAttr;
  cfgCategoryLinks : list string;          (* textContent of the category links *)
  cfgSectionId : option string;
  cfgReducedMotion : bool;
  cfgViewedProducts : list string
}.

(** The element as constructed, in its page. *)
Definition created (c : Config) : State :=
  {| activeFetch := None; controllers := [];
     placeholderTimeout := None; placeholderIndex := 0;
     placeholderCharIndex := 0; placeholderIsDeleting := false;
     placeholderCategories := []; placeholderPrefix := "";
     placeholderOriginal := ""; dropdownOpen := false;
     isKeyboardNavigation := false;
     inputValue := cfgValue c;
     inputPlaceholder := default "" (cfgPlaceholder c);
     inputFocused := cfgFocused c;
     ariaExpanded := false;
     resetButtonHidden := cfgResetHidden c;
     results := cfgResults c;
     placeholderListeners := false; listenersActive := false;
     timers := noTimers;
     reducedMotion := cfgReducedMotion c;
     sectionId := cfgSectionId c;
     viewedProducts := cfgViewedProducts c;
     requests := []; awaiting := []; uncaught := []; navigated := [];
     inputFocusable := cfgFocusable c |}.

(** [#getPlaceholderCategories] *)
Definition getPlaceholderCategories (c : Config) : list string :=
  match cfgPlaceholderCategories c with
  | AttrArray items => JS.trimmedNonEmpty items
  | AttrMissing | AttrInvalid | AttrNotArray =>
      JS.trimmedNonEmpty (cfgCategoryLinks c)
  end.

(** [#setupPlaceholderAnimation] *)
Definition setupPlaceholderAnimation (c : Config) (s : State) : State :=
  let original := default "" (cfgPlaceholder c) in
  let s1 := set_placeholderOriginal original s in
  let s2 :=
    set_placeholderPrefix
      (JS.trim
         (JS.or_else (default "" (cfgPlaceholderPrefix c))
            (JS.or_else (placeholderOriginal s1) ""))) s1 in
  let s3 := set_placeholderCategories (getPlaceholderCategories c) s2 in
  if (length (placeholderCategories s3) =? 0)%nat then s3
  else if reducedMotion s3 || (length (placeholderCategories s3) =? 1)%nat then
    set_inputPlaceholder
      (buildPlaceholder s3
         (JS.or_else (JS.at_or_empty (placeholderCategories s3) 0) "")) s3
  else resumePlaceholderAnimation (set_placeholderListeners true s3).

(** [connectedCallback]; the reset it asks for once the document is
    loaded comes later, as an event. *)
Definition connectedCallback (c : Config) : State :=
  let s0 := created c in
  let s1 := if 0 <? JS.len (inputValue s0) then showResetButton s0 else s0 in
  let s2 := set_listenersActive true (setDropdownState false s1) in
  let s3 := if inputFocused s2 then openDropdown s2 else s2 in
  setupPlaceholderAnimation c s3.

(** *** Events *)

Inductive Event : Type :=
| Focus                                   (* the focus is moved to the input *)
| Blur (relatedInside : bool)             (* the input loses focus *)
| Input (value : string)                  (* [input] event on the input *)
| Search (inputType : option string)      (* the debounced [search] runs *)
| ResetSearch (keepFocus : bool)          (* the debounced [resetSearch] runs *)
| KeyDown (key : string) (shiftKey : bool)
| Respond (k : nat) (r : Response)        (* the k-th waiting closure resumes *)
| PlaceholderTimer (h : nat)              (* a timer fires *)
| OutsideClick
| DialogClose
| CategoryClick
| ModalClick
| MotionPreference (reduced : bool)
| ViewedProducts (ids : list string)
| Disconnected
| Focusable (can : bool).                 (* the page shows, hides, enables or
                                             disables the input, or opens or
                                             closes the dialog around it *)

(** A waiting closure resumes with the response. *)
Definition resume (k : Continuation) (r : Response) (s : State) : Outcome :=
  match k, r with
  | AwaitResults token, Fulfilled m => Returned (resultsArrived token m s)
  | AwaitResults token, Rejected e => resultsFailed token e s
  | AwaitEmptySection token, Fulfilled m => emptySectionArrived token m s
  | AwaitEmptySection _, Rejected e => Threw e s
  | AwaitRecentlyViewed token pe, Fulfilled m =>
      Returned (recentlyViewedArrived token pe m s)
  | AwaitRecentlyViewed _ _, Rejected e => Threw e s
  end.

Definition handle (e : Event) (s : State) : State :=
  match e with
  | Focus => focusInput s
  | Blur relatedInside =>
      if inputFocused s then onBlur relatedInside (set_inputFocused false s) else s
  | Input value =>
      let s1 := set_inputValue value s in
      if listenersActive s1 then
        let s2 := openDropdown s1 in
        if placeholderListeners s2 then handlePlaceholderInput s2 else s2
      else s1
  | Search inputType => search inputType s
  | ResetSearch keepFocus => resetSearch keepFocus s
  | KeyDown key shiftKey => onSearchKeyDown key shiftKey s
  | Respond k r =>
      match awaiting s !! k with
      | Some c => settle (resume c r (set_awaiting (delete k (awaiting s)) s))
      | None => s
      end
  | PlaceholderTimer h =>
      if isPending h (timers s)
      then advancePlaceholder (set_timers (clearTimeout h (timers s)) s)
      else s
  | OutsideClick => if listenersActive s then handleOutsideClick s else s
  | DialogClose => if listenersActive s then handleDialogClose s else s
  | CategoryClick => if listenersActive s then closeDropdown s else s
  | ModalClick => if listenersActive s then focusInput s else s
  | MotionPreference reduced => set_reducedMotion reduced s
  | ViewedProducts ids => set_viewedProducts ids s
  | Disconnected => disconnectedCallback s
  | Focusable can => set_inputFocusable can s
  end.

Definition run (es : list Event) (s : State) : State :=
  fold_left (fun acc e => handle e acc) es s.

(** One whole run of the debounced [resetSearch]: the call, the response
    to the request for the empty section and, when the function waits a
    second time, the response to the request for the recently viewed
    products, with nothing else in between. *)
Definition resetSearchRun (keepFocus : bool) (r1 r2 : Response) (s : State)
  : State :=
  let k := length (awaiting s) in
  let s1 := handle (ResetSearch keepFocus) s in
  let s2 := handle (Respond k r1) s1 in
  match awaiting s2 !! k with
  | Some (AwaitRecentlyViewed _ _) => handle (Respond k r2) s2
  | _ => s2
  end.

(** The same run read straight through the [async] function, for a
    token that is not superseded on the way: first what runs before the
    first [await], with the request sent ... *)
Definition resetSearchStart (keepFocus : bool) (s : State) : State :=
  let s0 := if keepFocus then focusInput s else s in
  let s1 := hideResetButton (set_inputValue "" (set_currentIndex (-1) s0)) in
  let s' := snd (createAbortController s1) in
  set_requests (requests s' ++ [EmptySectionRequest])%list s'.

(** ... the end of [#resetSearch] past the check of the token ... *)
Definition resetSearchFinish (parsedEmpty : DOM.Document) (s : State) : State :=
  resumePlaceholderAnimation
    (resetPlaceholderAnimation (syncDropdownState (morph parsedEmpty s))).

(** ... and what runs once the responses are there. *)
Definition resetSearchRest (r1 r2 : Response) (s2 : State) : State :=
  match r1 with
  | Rejected e => set_uncaught (uncaught s2 ++ [e])%list s2
  | Fulfilled m1 =>
      match DOM.querySelector (DOM.hasClass "predictive-search-empty-section")
              (parsed m1) with
      | None =>
          set_uncaught (uncaught s2 ++ ["No empty section markup found"])%list s2
      | Some h =>
          let parsedEmpty := DOM.subtree (parsed m1) h in
          match viewedProducts s2 with
          | [] => resetSearchFinish parsedEmpty s2
          | _ :: _ =>
              if negb (sectionIdTruthy s2) then s2
              else
                let s3 :=
                  set_requests
                    (requests s2 ++ [RecentlyViewedRequest (viewedProducts s2)])%list
                    s2 in
                match r2 with
                | Rejected e => set_uncaught (uncaught s3 ++ [e])%list s3
                | Fulfilled m2 =>
                    if negb (JS.truthy (text m2)) then s3
                    else resetSearchFinish (mergeRecentlyViewed parsedEmpty m2) s3
                end
          end
      end
  end.

Definition resetSearchStraight (keepFocus : bool) (r1 r2 : Response)
    (s : State) : State :=
  resetSearchRest r1 r2 (resetSearchStart keepFocus s).

(** The fragment such a run applies to the results, when it gets to. *)
Definition emptyState (r1 r2 : Response) (viewed : list string)
    (sectionOk : bool) : option DOM.Document :=
  match r1 with
  | Rejected _ => None
  | Fulfilled m1 =>
      match DOM.querySelector (DOM.hasClass "predictive-search-empty-section")
              (parsed m1) with
      | None => None
      | Some h =>
          let parsedEmpty := DOM.subtree (parsed m1) h in
          match viewed with
          | [] => Some parsedEmpty
          | _ :: _ =>
              if negb sectionOk then None
              else
                match r2 with
                | Rejected _ => None
                | Fulfilled m2 =>
                    if negb (JS.truthy (text m2)) then None
                    else Some (mergeRecentlyViewed parsedEmpty m2)
                end
          end
      end
  end.

(** The fields a run of [resetSearch] reads besides the results and the
    engine. *)
Definition settingsOf (s : State) :=
  (inputValue s, resetButtonHidden s, viewedProducts s, sectionId s,
   reducedMotion s, inputFocused s, placeholderPrefix s).

(** The fields set once by [#setupPlaceholderAnimation]. *)
Definition staticOf (s : State) :=
  (placeholderCategories s, placeholderOriginal s, placeholderPrefix s).

Definition staticIs (v : list string * string * string) (s : State) : Prop :=
  staticOf s = v.

(** What [this.#currentIndex = -1] makes of an item. *)
Definition cleared (e : DOM.Element) : DOM.Element :=
  DOM.setAriaSelected None (DOM.removeClass "keyboard-focus" e).

(** What the item query reads of an element. *)
Definition shape (e : DOM.Element)
  : nat * bool * bool * bool * bool * bool :=
  (DOM.depth e, isContainer e,
   DOM.hasClass "predictive-search-results__wrapper-products" e,
   isCard e, isItemOrCard e, DOM.isHTMLElement e).

(** Two documents that the item query cannot tell apart. *)
Definition sameShape (doc doc' : DOM.Document) : Prop :=
  Forall2 (fun e e' => shape e = shape e') doc doc'.

(** *** Invariants *)

(** The token a waiting closure captured. *)
Definition tokenOf (k : Continuation) : nat :=
  match k with
  | AwaitResults token => token
  | AwaitEmptySection token => token
  | AwaitRecentlyViewed token _ => token
  end.

(** The fields [#createAbortController] works on. *)
Definition tokensOf (s : State) : list bool * option nat :=
  (controllers s, activeFetch s).

(** No controller was made yet, or [#activeFetch] is the last one made
    and every controller before it is aborted. *)
Definition tokenInv (s : State) : Prop :=
  (controllers s = [] /\ activeFetch s = None)
  \/ exists older last,
       controllers s = (older ++ [last])%list
       /\ activeFetch s = Some (length older)
       /\ Forall (fun b => b = true) older.

(** The fields of the placeholder engine. *)
Definition engineOf (s : State) :=
  (placeholderTimeout s, placeholderIndex s, placeholderCharIndex s,
   placeholderIsDeleting s, placeholderCategories s, timers s,
   inputPlaceholder s, placeholderOriginal s).

(** What the engine shows and waits for: its fields but the counters. *)
Definition shownOf (s : State) :=
  (placeholderTimeout s, placeholderCategories s, timers s,
   inputPlaceholder s, placeholderOriginal s).

Definition currentCategory (s : State) : string :=
  JS.at_or_empty (placeholderCategories s) (placeholderIndex s).

Definition charIndexInRange (s : State) : Prop :=
  0 <= placeholderCharIndex s <= JS.len (currentCategory s).

(** The state of an engine that animates (see the header component). *)
Definition animating (s : State) : Prop :=
  placeholderCategories s <> []
  /\ Forall (fun c => JS.truthy c = true) (placeholderCategories s)
  /\ 0 <= placeholderIndex s < Z.of_nat (length (placeholderCategories s))
  /\ (if placeholderIsDeleting s
      then 1 <= placeholderCharIndex s <= JS.len (currentCategory s)
      else 0 <= placeholderCharIndex s < JS.len (currentCategory s)).

(** The state of an engine without categories: counters at rest, no
    timer, and the placeholder the input came with. *)
Definition idle (s : State) : Prop :=
  placeholderCategories s = [] /\ placeholderTimeout s = None
  /\ placeholderIndex s = 0 /\ placeholderCharIndex s = 0
  /\ placeholderIsDeleting s = false
  /\ inputPlaceholder s = placeholderOriginal s.

(** No timer is pending, or the one whose handle [#placeholderTimeout]
    holds. *)
Definition oneTimer (s : State) : Prop :=
  (1 <= nextHandle (timers s))%nat
  /\ ((placeholderTimeout s = None /\ pending (timers s) = [])
      \/ exists h d, placeholderTimeout s = Some h
                     /\ pending (timers s) = [(h, d)]
                     /\ (1 <= h < nextHandle (timers s))%nat).

Definition engineInv (s : State) : Prop :=
  oneTimer s /\ (idle s \/ animating s).

(** The active controller is not aborted. *)
Definition activeLive (s : State) : Prop :=
  forall a, activeFetch s = Some a -> aborted a s = false.

Definition liveInv (s : State) : Prop := tokenInv s /\ activeLive s.

(** What the dropdown shows and what [#dropdownOpen] holds. *)
Definition dropdownOf (s : State) := (dropdownOpen s, ariaExpanded s).

(** The events that leave a preference for reduced motion in place. *)
Definition keepsReducedMotion (e : Event) : bool :=
  match e with
  | MotionPreference reduced => reduced
  | _ => true
  end.

(** What an engine under reduced motion reads and writes. *)
Definition stillOf (s : State) :=
  (reducedMotion s, placeholderListeners s, placeholderTimeout s, timers s,
   inputPlaceholder s).

(** An engine that shows [text] and has never asked for a timer, under
    reduced motion. *)
Definition stillShows (text : string) (s : State) : Prop :=
  stillOf s = (true, false, None, noTimers, text).

Definition dropdownSynced (s : State) : Prop := ariaExpanded s = dropdownOpen s.

(** The fields that decide whether the animation may run, with the
    handle of its timer. *)
Definition animationOf (s : State) :=
  (listenersActive s, placeholderListeners s, placeholderTimeout s,
   inputValue s, inputFocused s, placeholderCategories s).

(** While the listeners of the placeholder are bound, a timer is pending
    only when the animation is wanted. *)
Definition pausedWhileBusy (s : State) : Prop :=
  listenersActive s = true -> placeholderListeners s = true ->
  JS.handleTruthy (placeholderTimeout s) = true ->
  shouldAnimatePlaceholder s = true.

(** The fields that tell whether the engine ever asked for a timer. *)
Definition timersOf (s : State) :=
  (placeholderCategories s, placeholderTimeout s, timers s).

(** An engine without categories that never asked for a timer. *)
Definition neverStarted (s : State) : Prop :=
  timersOf s = ([], None, noTimers).

(** Steps of the animation alone. *)
Fixpoint steps (n : nat) (s : State) : State :=
  match n with
  | O => s
  | S k => steps k (advancePlaceholder s)
  end.

End PredictiveSearch.

(** ** The menu drawer

    [HeaderDrawer], the element [#HeaderDrawer] that the header search
    opens. The state holds what the drawer reads and writes on its main
    [details] (refs.details), on the other [details] inside it, on the
    search input and the suggestions, on the menu sections and on the
    [.header__drawer] around it. The elements are those in the page when
    the drawer is connected. [open], [close] and the [keyup] listener are
    followed for the main [details]: with no event, or with an event whose
    target has the main [details] as its closest one. Each [details] has
    its own summary, if any, as the first summary inside it. Callbacks
    handed to [requestAnimationFrame], [setTimeout] and [onAnimationEnd]
    wait in [tasks] until they run; [trapFocus] and [removeTrapFocus] are
    recorded as calls. The listeners that unset [will-change] on the
    animated elements touch nothing of this state. *)

Module HeaderDrawer.

Record Details : Type := mkDetails {
  hasSummary : bool;                  (* a summary inside *)
  openAttr : bool;                    (* the [open] attribute *)
  menuOpen : bool;                    (* the class [menu-open] *)
  summaryExpanded : option string;    (* [aria-expanded] of the summary *)
  inAccordion : bool                  (* a child of [accordion-custom] *)
}.

Inductive FocusCall : Type := TrapFocus | RemoveTrapFocus.

Inductive Task : Type :=
| AddMenuOpen          (* the animation frame asked for by [open] *)
| TrapFocusLater       (* the [setTimeout(..., 0)] inside that frame *)
| AllowAnimations      (* the [setTimeout(..., 100)] of [preventInitialAccordionAnimations] *)
| Closed               (* the [onAnimationEnd] callback of [#close] *)
| FocusSearchInput.    (* the animation frame asked for by the header search *)

Record State : Type := mkState {
  details : Details;                  (* refs.details *)
  nested : list Details;              (* the other [details] of the drawer *)
  drawerMode : option string;         (* dataset.drawerMode *)
  searchClass : bool;                 (* the class [header-drawer--search] *)
  searchInput : option string;        (* value of [data-drawer-search-input] *)
  inputFocused : bool;
  selection : option (Z * Z);         (* selection range of the input *)
  suggestionsHidden : option bool;    (* [hidden] of [data-drawer-search-suggestions] *)
  sectionsHidden : list bool;         (* [hidden] of each menu section *)
  container : option (list string);   (* classes of the closest [.header__drawer] *)
  forcedDrawerContainer : bool;       (* #forcedDrawerContainer is set *)
  noAnimation : list bool;            (* [details-content--no-animation] on each accordion content *)
  focusCalls : list FocusCall;
  tasks : list Task
}.

Definition set_details (v : Details) (s : State) : State :=
  mkState v (nested s) (drawerMode s) (searchClass s) (searchInput s)
    (inputFocused s) (selection s) (suggestionsHidden s) (sectionsHidden s)
    (container s) (forcedDrawerContainer s) (noAnimation s) (focusCalls s)
    (tasks s).

Definition set_nested (v : list Details) (s : State) : State :=
  mkState (details s) v (drawerMode s) (searchClass s) (searchInput s)
    (inputFocused s) (selection s) (suggestionsHidden s) (sectionsHidden s)
    (container s) (forcedDrawerContainer s) (noAnimation s) (focusCalls s)
    (tasks s).

Definition set_drawerMode (v : option string) (s : State) : State :=
  mkState (details s) (nested s) v (searchClass s) (searchInput s)
    (inputFocused s) (selection s) (suggestionsHidden s) (sectionsHidden s)
    (container s) (forcedDrawerContainer s) (noAnimation s) (focusCalls s)
    (tasks s).

Definition set_searchClass (v : bool) (s : State) : State :=
  mkState (details s) (nested s) (drawerMode s) v (searchInput s)
    (inputFocused s) (selection s) (suggestionsHidden s) (sectionsHidden s)
    (container s) (forcedDrawerContainer s) (noAnimation s) (focusCalls s)
    (tasks s).

Definition set_searchInput (v : option string) (s : State) : State :=
  mkState (details s) (nested s) (drawerMode s) (searchClass s) v
    (inputFocused s) (selection s) (suggestionsHidden s) (sectionsHidden s)
    (container s) (forcedDrawerContainer s) (noAnimation s) (focusCalls s)
    (tasks s).

Definition set_inputFocused (v : bool) (s : State) : State :=
  mkState (details s) (nested s) (drawerMode s) (searchClass s) (searchInput s)
    v (selection s) (suggestionsHidden s) (sectionsHidden s)
    (container s) (forcedDrawerContainer s) (noAnimation s) (focusCalls s)
    (tasks s).

Definition set_selection (v : option (Z * Z)) (s : State) : State :=
  mkState (details s) (nested s) (drawerMode s) (searchClass s) (searchInput s)
    (inputFocused s) v (suggestionsHidden s) (sectionsHidden s)
    (container s) (forcedDrawerContainer s) (noAnimation s) (focusCalls s)
    (tasks s).

Definition set_suggestionsHidden (v : option bool) (s : State) : State :=
  mkState (details s) (nested s) (drawerMode s) (searchClass s) (searchInput s)
    (inputFocused s) (selection s) v (sectionsHidden s)
    (container s) (forcedDrawerContainer s) (noAnimation s) (focusCalls s)
    (tasks s).

Definition set_sectionsHidden (v : list bool) (s : State) : State :=
  mkState (details s) (nested s) (drawerMode s) (searchClass s) (searchInput s)
    (inputFocused s) (selection s) (suggestionsHidden s) v
    (container s) (forcedDrawerContainer s) (noAnimation s) (focusCalls s)
    (tasks s).

Definition set_container (v : option (list string)) (s : State) : State :=
  mkState (details s) (nested s) (drawerMode s) (searchClass s) (searchInput s)
    (inputFocused s) (selection s) (suggestionsHidden s) (sectionsHidden s)
    v (forcedDrawerContainer s) (noAnimation s) (focusCalls s) (tasks s).

Definition set_forcedDrawerContainer (v : bool) (s : State) : State :=
  mkState (details s) (nested s) (drawerMode s) (searchClass s) (searchInput s)
    (inputFocused s) (selection s) (suggestionsHidden s) (sectionsHidden s)
    (container s) v (noAnimation s) (focusCalls s) (tasks s).

Definition set_noAnimation (v : list bool) (s : State) : State :=
  mkState (details s) (nested s) (drawerMode s) (searchClass s) (searchInput s)
    (inputFocused s) (selection s) (suggestionsHidden s) (sectionsHidden s)
    (container s) (forcedDrawerContainer s) v (focusCalls s) (tasks s).

Definition set_focusCalls (v : list FocusCall) (s : State) : State :=
  mkState (details s) (nested s) (drawerMode s) (searchClass s) (searchInput s)
    (inputFocused s) (selection s) (suggestionsHidden s) (sectionsHidden s)
    (container s) (forcedDrawerContainer s) (noAnimation s) v (tasks s).

Definition set_tasks (v : list Task) (s : State) : State :=
  mkState (details s) (nested s) (drawerMode s) (searchClass s) (searchInput s)
    (inputFocused s) (selection s) (suggestionsHidden s) (sectionsHidden s)
    (container s) (forcedDrawerContainer s) (noAnimation s) (focusCalls s) v.

Definition later (t : Task) (s : State) : State :=
  set_tasks (tasks s ++ [t])%list s.

(** [classList] on a list of classes. *)
Definition contains (c : string) (classes : list string) : bool :=
  existsb (String.eqb c) classes.

Definition remove (c : string) (classes : list string) : list string :=
  List.filter (fun x => negb (String.eqb c x)) classes.

Definition add (c : string) (classes : list string) : list string :=
  if contains c classes then classes else (classes ++ [c])%list.

(** The getter [isOpen]. *)
Definition isOpen (s : State) : bool := openAttr (details s).

(** [#showDrawerSuggestions] *)
Definition showDrawerSuggestions (s : State) : State :=
  let s1 := set_searchClass true (set_drawerMode (Some "search") s) in
  match suggestionsHidden s1 with
  | Some _ => set_suggestionsHidden (Some false) s1
  | None => s1
  end.

(** [#activateSearchMode] *)
Definition activateSearchMode (s : State) : State :=
  let s1 := set_drawerMode (Some "search") s in
  let s2 := set_sectionsHidden (List.map (fun _ => true) (sectionsHidden s1)) s1 in
  showDrawerSuggestions s2.

(** [#resetDrawerSearch] *)
Definition resetDrawerSearch (s : State) : State :=
  let s1 := match suggestionsHidden s with
            | Some _ => set_suggestionsHidden (Some true) s
            | None => s
            end in
  let s2 := match searchInput s1 with
            | Some _ => set_searchInput (Some "") s1
            | None => s1
            end in
  let s3 := set_searchClass false (set_drawerMode (Some "menu") s2) in
  set_sectionsHidden (List.map (fun _ => false) (sectionsHidden s3)) s3.

(** The listeners [#setupDrawerSearch] adds are there when the drawer
    has both the input and the suggestions. *)
Definition searchListeners (s : State) : bool :=
  match searchInput s, suggestionsHidden s with
  | Some _, Some _ => true
  | _, _ => false
  end.

(** [#setupDrawerSearch] *)
Definition setupDrawerSearch (s : State) : State :=
  if searchListeners s
  then set_searchClass false (set_suggestionsHidden (Some true) s)
  else s.

(** [connectedCallback], on the page as it is. *)
Definition connectedCallback (page : State) : State := setupDrawerSearch page.

(** [#ensureDrawerVisibleForSearch] *)
Definition ensureDrawerVisibleForSearch (s : State) : State :=
  if forcedDrawerContainer s then s
  else
    match container s with
    | None => s
    | Some classes =>
        if negb (contains "desktop:hidden" classes) then s
        else
          set_forcedDrawerContainer true
            (set_container
               (Some (add "header__drawer--forced"
                        (remove "desktop:hidden" classes))) s)
    end.

(** [#restoreDrawerVisibility] *)
Definition restoreDrawerVisibility (s : State) : State :=
  if negb (forcedDrawerContainer s) then s
  else
    set_forcedDrawerContainer false
      (set_container
         (option_map
            (fun classes =>
               add "desktop:hidden" (remove "header__drawer--forced" classes))
            (container s)) s).

(** What [#setDrawerMode] reads of an event whose target is an element:
    [dataset.drawerMode] of the closest [data-drawer-mode] element, looked
    for from the target up; the drawer itself carries the attribute once
    its mode has been set, so it is found when the target is inside it and
    nothing closer is. *)
Record Trigger : Type := mkTrigger {
  insideDrawer : bool;            (* the target is inside the drawer *)
  closerMode : option string;     (* found before the drawer, or at all when outside it *)
  outerMode : option string;      (* found above the drawer *)
  iconSummary : bool              (* the target is inside [.header__icon--summary] *)
}.

Definition modeTrigger (target : Trigger) (s : State) : option string :=
  match closerMode target with
  | Some mode => Some mode
  | None =>
      if insideDrawer target then
        match drawerMode s with
        | Some mode => Some mode
        | None => outerMode target
        end
      else None
  end.

(** [#setDrawerMode] for the main [details]; [None] is a call without
    event, or with a target that is not an element. *)
Definition setDrawerMode (event : option Trigger) (s : State) : State :=
  match event with
  | None => s
  | Some target =>
      let fallback :=
        if iconSummary target then set_drawerMode (Some "menu") s else s in
      match modeTrigger target s with
      | Some mode =>
          if JS.truthy mode then set_drawerMode (Some mode) s else fallback
      | None => fallback
      end
  end.

(** [preventInitialAccordionAnimations] *)
Definition preventInitialAccordionAnimations (s : State) : State :=
  later AllowAnimations
    (set_noAnimation (List.map (fun _ => true) (noAnimation s)) s).

Definition setExpanded (v : string) (d : Details) : Details :=
  mkDetails (hasSummary d) (openAttr d) (menuOpen d) (Some v) (inAccordion d).

Definition setMenuOpen (v : bool) (d : Details) : Details :=
  mkDetails (hasSummary d) (openAttr d) v (summaryExpanded d) (inAccordion d).

(** [open] *)
Definition open (event : option Trigger) (s : State) : State :=
  if negb (hasSummary (details s)) then s
  else
    let s1 := setDrawerMode event s in
    let s2 := if searchListeners s1 then activateSearchMode s1 else s1 in
    let s3 := set_details (setExpanded "true" (details s2)) s2 in
    later AddMenuOpen (preventInitialAccordionAnimations s3).

(** [openSearch] *)
Definition openSearch (event : option Trigger) (s : State) : State :=
  open event (activateSearchMode (ensureDrawerVisibleForSearch s)).

(** [#close] for the main [details]; [close] and [back]. *)
Definition close (s : State) : State :=
  if negb (hasSummary (details s)) then s
  else
    let d := setMenuOpen false (setExpanded "false" (details s)) in
    later Closed (resetDrawerSearch (set_details d s)).

(** [toggle] *)
Definition toggle (event : option Trigger) (s : State) : State :=
  if isOpen s then close s else open event s.

(** The function [reset] at the end of the file. *)
Definition reset (d : Details) : Details :=
  mkDetails (hasSummary d) false false
    (if hasSummary d then Some "false" else summaryExpanded d)
    (inAccordion d).

(** The [focus] and [input] listeners of the search input. *)
Definition onSearchInputEvent (s : State) : State :=
  if searchListeners s then activateSearchMode s else s.

(** A task that runs. *)
Definition runTask (t : Task) (s : State) : State :=
  match t with
  | AddMenuOpen =>
      later TrapFocusLater (set_details (setMenuOpen true (details s)) s)
  | TrapFocusLater =>
      let s1 := set_focusCalls (focusCalls s ++ [TrapFocus])%list s in
      match drawerMode s1 with
      | Some mode => if String.eqb mode "search" then showDrawerSuggestions s1 else s1
      | None => s1
      end
  | AllowAnimations =>
      set_noAnimation (List.map (fun _ => false) (noAnimation s)) s
  | Closed =>
      let s1 := set_details (reset (details s)) s in
      let s2 := set_focusCalls (focusCalls s1 ++ [RemoveTrapFocus])%list s1 in
      let s3 :=
        set_nested
          (List.map
             (fun d => if openAttr d && negb (inAccordion d) then reset d else d)
             (nested s2)) s2 in
      restoreDrawerVisibility s3
  | FocusSearchInput =>
      match searchInput s with
      | Some value =>
          let s1 := if inputFocused s then s
                    else onSearchInputEvent (set_inputFocused true s) in
          set_selection (Some (JS.len value, JS.len value)) s1
      | None => s
      end
  end.

(** What can happen to the connected drawer. *)
Inductive Event : Type :=
| Open (event : option Trigger)
| OpenSearch (event : option Trigger)
| Close
| Toggle (event : option Trigger)
| KeyUp (key : string)
| SummaryClick                 (* the browser toggles the main [details] *)
| Typed (value : string)       (* the visitor edits the search input *)
| Run (k : nat).               (* the k-th waiting task runs *)

Definition handle (e : Event) (s : State) : State :=
  match e with
  | Open event => open event s
  | OpenSearch event => openSearch event s
  | Close => close s
  | Toggle event => toggle event s
  | KeyUp key => if String.eqb key "Escape" then close s else s
  | SummaryClick =>
      set_details
        (mkDetails (hasSummary (details s)) (negb (openAttr (details s)))
           (menuOpen (details s)) (summaryExpanded (details s))
           (inAccordion (details s))) s
  | Typed value =>
      match searchInput s with
      | Some _ => onSearchInputEvent (set_searchInput (Some value) s)
      | None => s
      end
  | Run k =>
      match tasks s !! k with
      | Some t => runTask t (set_tasks (delete k (tasks s)) s)
      | None => s
      end
  end.

Definition run (es : list Event) (s : State) : State :=
  fold_left (fun acc e => handle e acc) es s.

End HeaderDrawer.

(** ** The keys of the header search

    The [keydown] listeners of [HeaderSearch]: one on the trigger, one on
    the document. [#openDrawerSearch] finds the drawer in the page, or
    none, or an element that is not upgraded and has no [openSearch]. The
    [input] event it dispatches reaches the listener of the drawer;
    [focus()] is taken to succeed. *)

Module HeaderKeys.

Inductive Target : Type :=
| NotHTMLElement
| HTMLElement (tagName : string) (isContentEditable : bool).

Record KeyboardEvent : Type := mkKeyboardEvent {
  defaultPrevented : bool;
  metaKey : bool;
  ctrlKey : bool;
  altKey : bool;
  key : string;                       (* empty when the event has none *)
  target : Target
}.

(** [document.querySelector('#HeaderDrawer')] *)
Inductive DrawerSlot : Type :=
| NoDrawer
| NotUpgraded
| Drawer (s : HeaderDrawer.State).

(** [toLowerCase] below U+0100. *)
Definition lowerChar (c : ascii) : ascii :=
  let n := nat_of_ascii c in
  if ((65 <=? n)%nat && (n <=? 90)%nat)
     || ((192 <=? n)%nat && (n <=? 222)%nat && negb (n =? 215)%nat)
  then ascii_of_nat (n + 32) else c.

Fixpoint toLowerCase (s : string) : string :=
  match s with
  | EmptyString => EmptyString
  | String c r => String (lowerChar c) (toLowerCase r)
  end.

(** [#isTextKey] *)
Definition isTextKey (event : KeyboardEvent) : bool :=
  if metaKey event || ctrlKey event || altKey event then false
  else if negb (JS.truthy (key event)) || negb (JS.len (key event) =? 1) then false
  else 0 <? JS.len (JS.trim (key event)).

(** [#isTypingInField] *)
Definition isTypingInField (event : KeyboardEvent) : bool :=
  match target event with
  | NotHTMLElement => false
  | HTMLElement tagName isContentEditable =>
      if isContentEditable then true
      else
        let tagName := toLowerCase tagName in
        String.eqb tagName "input" || String.eqb tagName "textarea"
        || String.eqb tagName "select"
  end.

(** [#openDrawerSearch] *)
Definition openDrawerSearch (typedKey : string) (page : DrawerSlot) : DrawerSlot :=
  match page with
  | Drawer drawer =>
      let d1 := HeaderDrawer.openSearch None drawer in
      match HeaderDrawer.searchInput d1 with
      | None => Drawer d1
      | Some value =>
          let d2 := HeaderDrawer.set_searchInput (Some (value ++ typedKey)) d1 in
          let d3 := HeaderDrawer.onSearchInputEvent d2 in
          Drawer (HeaderDrawer.later HeaderDrawer.FocusSearchInput d3)
      end
  | NoDrawer | NotUpgraded => page
  end.

Definition preventDefault (event : KeyboardEvent) : KeyboardEvent :=
  mkKeyboardEvent true (metaKey event) (ctrlKey event) (altKey event)
    (key event) (target event).

(** [#handleKeydown], the listener on the trigger. *)
Definition handleKeydown (x : KeyboardEvent * DrawerSlot)
  : KeyboardEvent * DrawerSlot :=
  let '(event, page) := x in
  if defaultPrevented event then x
  else if negb (isTextKey event) then x
  else (preventDefault event, openDrawerSearch (key event) page).

(** [#handleGlobalKeydown], the listener on the document. *)
Definition handleGlobalKeydown (x : KeyboardEvent * DrawerSlot)
  : KeyboardEvent * DrawerSlot :=
  let '(event, page) := x in
  if defaultPrevented event then x
  else if isTypingInField event then x
  else if negb (isTextKey event) then x
  else (preventDefault event, openDrawerSearch (key event) page).

(** A [keydown] on the trigger reaches its listener, then bubbles to
    the document; any other reaches the document only. *)
Definition keydown (onTrigger : bool) (x : KeyboardEvent * DrawerSlot)
  : KeyboardEvent * DrawerSlot :=
  handleGlobalKeydown (if onTrigger then handleKeydown x else x).

End HeaderKeys.

(** ** Scenarios *)

Module Scenario.

(** The header of the specification's scenario. *)
Definition shoesAndBags : HeaderSearch.Dataset :=
  {| HeaderSearch.placeholderPrefix := Some "Search for ";
     HeaderSearch.placeholderCategories := AttrArray ["shoes"; "bags"] |}.

Definition element (depth : nat) (class : string) (ref : option string)
  : DOM.Element :=
  DOM.mkElement depth "" [class] ref None None "div" true.

(** A link. *)
Definition link (depth : nat) : DOM.Element :=
  DOM.mkElement depth "" [] None None None "a" true.

(** A list of two results. *)
Definition twoResults : DOM.Document :=
  [ element 0 "predictive-search-results__list" None;
    element 1 "predictive-search-results__list-item" (Some "resultsItems[]");
    element 1 "predictive-search-results__list-item" (Some "resultsItems[]") ].


(** Two results in a list inside the wrapper of the queries: both the
    wrapper and the list are containers of the item query. *)
Definition nestedResults : DOM.Document :=
  [ element 0 "predictive-search-results__wrapper-queries" None;
    element 1 "predictive-search-results__list" None;
    element 2 "predictive-search-results__list-item" (Some "resultsItems[]");
    element 2 "predictive-search-results__list-item" (Some "resultsItems[]") ].


(** An [svg] element with a class. *)
Definition svg (depth : nat) (class : string) : DOM.Element :=
  DOM.mkElement depth "" [class] None None None "svg" false.

(** Two products, with an icon that carries the class of the cards. *)
Definition productsWithIcon : DOM.Document :=
  [ element 0 "predictive-search-results__wrapper-products" None;
    svg 1 "predictive-search-results__card";
    element 1 "predictive-search-results__card" None;
    element 1 "predictive-search-results__card" None ].

Definition resultsMarkup : PredictiveSearch.Markup :=
  {| PredictiveSearch.text := "<ul class=predictive-search-results__list>...</ul>";
     PredictiveSearch.parsed := twoResults |}.

Definition emptyMarkup : PredictiveSearch.Markup :=
  {| PredictiveSearch.text := ""; PredictiveSearch.parsed := [] |}.

Definition emptySectionMarkup : PredictiveSearch.Markup :=
  {| PredictiveSearch.text := "<div class=predictive-search-empty-section></div>";
     PredictiveSearch.parsed := [ element 0 "predictive-search-empty-section" None ] |}.

(** A page whose search component animates two categories. *)
Definition page : PredictiveSearch.Config :=
  {| PredictiveSearch.cfgValue := "";
     PredictiveSearch.cfgFocused := false;
     PredictiveSearch.cfgFocusable := true;
     PredictiveSearch.cfgPlaceholder := Some "Search";
     PredictiveSearch.cfgResetHidden := true;
     PredictiveSearch.cfgResults := [];
     PredictiveSearch.cfgPlaceholderPrefix := Some "Search for";
     PredictiveSearch.cfgPlaceholderCategories := AttrArray ["shoes"; "bags"];
     PredictiveSearch.cfgCategoryLinks := [];
     PredictiveSearch.cfgSectionId := Some "predictive-search";
     PredictiveSearch.cfgReducedMotion := false;
     PredictiveSearch.cfgViewedProducts := [] |}.

Definition withCategories (a : CategoriesAttr) (c : PredictiveSearch.Config)
  : PredictiveSearch.Config :=
  {| PredictiveSearch.cfgValue := PredictiveSearch.cfgValue c;
     PredictiveSearch.cfgFocused := PredictiveSearch.cfgFocused c;
     PredictiveSearch.cfgFocusable := PredictiveSearch.cfgFocusable c;
     PredictiveSearch.cfgPlaceholder := PredictiveSearch.cfgPlaceholder c;
     PredictiveSearch.cfgResetHidden := PredictiveSearch.cfgResetHidden c;
     PredictiveSearch.cfgResults := PredictiveSearch.cfgResults c;
     PredictiveSearch.cfgPlaceholderPrefix := PredictiveSearch.cfgPlaceholderPrefix c;
     PredictiveSearch.cfgPlaceholderCategories := a;
     PredictiveSearch.cfgCategoryLinks := PredictiveSearch.cfgCategoryLinks c;
     PredictiveSearch.cfgSectionId := PredictiveSearch.cfgSectionId c;
     PredictiveSearch.cfgReducedMotion := PredictiveSearch.cfgReducedMotion c;
     PredictiveSearch.cfgViewedProducts := PredictiveSearch.cfgViewedProducts c |}.

Definition withResults (doc : DOM.Document) (c : PredictiveSearch.Config)
  : PredictiveSearch.Config :=
  {| PredictiveSearch.cfgValue := PredictiveSearch.cfgValue c;
     PredictiveSearch.cfgFocused := PredictiveSearch.cfgFocused c;
     PredictiveSearch.cfgFocusable := PredictiveSearch.cfgFocusable c;
     PredictiveSearch.cfgPlaceholder := PredictiveSearch.cfgPlaceholder c;
     PredictiveSearch.cfgResetHidden := PredictiveSearch.cfgResetHidden c;
     PredictiveSearch.cfgResults := doc;
     PredictiveSearch.cfgPlaceholderPrefix := PredictiveSearch.cfgPlaceholderPrefix c;
     PredictiveSearch.cfgPlaceholderCategories :=
       PredictiveSearch.cfgPlaceholderCategories c;
     PredictiveSearch.cfgCategoryLinks := PredictiveSearch.cfgCategoryLinks c;
     PredictiveSearch.cfgSectionId := PredictiveSearch.cfgSectionId c;
     PredictiveSearch.cfgReducedMotion := PredictiveSearch.cfgReducedMotion c;
     PredictiveSearch.cfgViewedProducts := PredictiveSearch.cfgViewedProducts c |}.

(** The visitor types "b", then "bl": two queries are sent, "b" first. *)
Definition twoQueries : list PredictiveSearch.Event :=
  [ PredictiveSearch.Input "b"; PredictiveSearch.Search (Some "insertText");
    PredictiveSearch.Input "bl"; PredictiveSearch.Search (Some "insertText") ].

(** One category only: the page loads, the reset asked for at load time
    runs and is answered, which starts the animation; then the visitor
    puts the focus in the input, where no listener pauses it. *)
Definition oneCategoryFocused : list PredictiveSearch.Event :=
  [ PredictiveSearch.ResetSearch false;
    PredictiveSearch.Respond 0 (PredictiveSearch.Fulfilled emptySectionMarkup);
    PredictiveSearch.Focus ].

End Scenario.

(** * Facts *)

(** ** Strings *)

Module JSFacts.
Import JS.

Lemma truthy_len (s : string) : truthy s = true -> 0 < len s.
Proof. destruct s; simpl; [discriminate | intros _; unfold len; simpl; lia]. Qed.

Lemma trimmedNonEmpty_truthy (items : list string) :
  Forall (fun c => truthy c = true) (trimmedNonEmpty items).
Proof.
  unfold trimmedNonEmpty. apply List.Forall_forall. intros c Hc.
  apply List.filter_In in Hc. tauto.
Qed.

Lemma at_or_empty_truthy (arr : list string) (i : Z) :
  Forall (fun c => truthy c = true) arr ->
  0 <= i < Z.of_nat (length arr) ->
  truthy (at_or_empty arr i) = true.
Proof.
  intros Hall Hi. unfold at_or_empty.
  destruct (Z.ltb_spec i 0); [lia |].
  rewrite List.Forall_forall in Hall. apply Hall. apply List.nth_In. lia.
Qed.

Lemma len_nonneg (s : string) : 0 <= len s.
Proof. unfold len. lia. Qed.

End JSFacts.

(** ** Timers *)

Lemma setTimeout_pending (d : Z) (t : Timers) :
  pending (snd (setTimeout d t)) = (pending t ++ [(nextHandle t, d)])%list.
Proof. reflexivity. Qed.

Lemma clearTimeout_single (h : nat) (d : Z) (n : nat) :
  clearTimeout h {| pending := [(h, d)]; nextHandle := n |}
  = {| pending := []; nextHandle := n |}.
Proof. unfold clearTimeout. simpl. rewrite Nat.eqb_refl. reflexivity. Qed.

Lemma isPending_single (h k : nat) (d : Z) (n : nat) :
  isPending k {| pending := [(h, d)]; nextHandle := n |} = true -> k = h.
Proof.
  unfold isPending. simpl. rewrite orb_false_r. intros H.
  apply Nat.eqb_eq in H. congruence.
Qed.

(** ** The header placeholder *)

Module HeaderSearchFacts.
Import HeaderSearch.

Lemma header_advance_fields (s : State) :
  categories (advance s) = categories s
  /\ prefix (advance s) = prefix s
  /\ listening (advance s) = listening s.
Proof.
  unfold advance.
  destruct (isDeleting s);
    [destruct (charIndex s - 1 <=? 0) | destruct (charIndex s + 1 >=? _)];
    simpl; auto.
Qed.

(** One step while typing. *)
Lemma header_advance_typing (s : State) :
  isDeleting s = false ->
  charIndex (advance s) = charIndex s + 1
  /\ index (advance s) = index s
  /\ isDeleting (advance s) = (charIndex s + 1 >=? JS.len (currentCategory s)).
Proof.
  intros Hd. unfold advance, currentCategory. rewrite Hd.
  destruct (charIndex s + 1 >=? _); simpl; auto.
Qed.

(** One step while deleting. *)
Lemma header_advance_deleting (s : State) :
  isDeleting s = true ->
  charIndex (advance s) = charIndex s - 1
  /\ index (advance s)
     = (if charIndex s - 1 <=? 0
        then (index s + 1) mod Z.of_nat (length (categories s))
        else index s)
  /\ isDeleting (advance s) = negb (charIndex s - 1 <=? 0).
Proof.
  intros Hd. unfold advance. rewrite Hd.
  destruct (charIndex s - 1 <=? 0); simpl; auto.
Qed.

Lemma header_animating_advance (s : State) : animating s -> animating (advance s).
Proof.
  intros (Hne & Hall & Hidx & Hc).
  destruct (header_advance_fields s) as (Hcat & _ & _).
  unfold animating, currentCategory in *. rewrite Hcat.
  destruct (isDeleting s) eqn:Hd.
  - destruct (header_advance_deleting s Hd) as (Hc' & Hi' & Hd').
    rewrite Hc', Hi', Hd'.
    destruct (Z.leb_spec (charIndex s - 1) 0); simpl.
    + assert (Hm := Z.mod_pos_bound (index s + 1)
                      (Z.of_nat (length (categories s))) ltac:(lia)).
      assert (Hl : 0 < JS.len (JS.at_or_empty (categories s)
                          ((index s + 1) mod Z.of_nat (length (categories s)))))
        by (apply JSFacts.truthy_len, JSFacts.at_or_empty_truthy; auto).
      repeat split; auto; lia.
    + repeat split; auto; lia.
  - destruct (header_advance_typing s Hd) as (Hc' & Hi' & Hd').
    unfold currentCategory in Hd'. rewrite Hc', Hi', Hd'.
    destruct (Z.geb_spec (charIndex s + 1)
                (JS.len (JS.at_or_empty (categories s) (index s))));
      repeat split; auto; lia.
Qed.

Lemma header_animating_inRange (s : State) : animating s -> charIndexInRange s.
Proof.
  intros (_ & _ & _ & Hc). unfold charIndexInRange.
  destruct (isDeleting s); lia.
Qed.

Lemma header_animating_steps (n : nat) (s : State) : animating s -> animating (steps n s).
Proof.
  revert s. induction n as [| n IH]; simpl; intros s H; auto.
  apply IH, header_animating_advance, H.
Qed.

Lemma header_steps_add (n m : nat) (s : State) :
  steps (n + m) s = steps m (steps n s).
Proof. revert s. induction n as [| n IH]; simpl; intros; auto. Qed.

(** Typing: from [charIndex = c] the engine reaches the end of the
    category in [len - c] steps and then deletes. *)
Lemma header_typing_phase (k : nat) (s : State) :
  animating s ->
  isDeleting s = false ->
  JS.len (currentCategory s) - charIndex s = Z.of_nat (S k) ->
  let s' := steps (S k) s in
  isDeleting s' = true
  /\ charIndex s' = JS.len (currentCategory s)
  /\ index s' = index s /\ categories s' = categories s.
Proof.
  revert s. induction k as [| k IH]; intros s Ha Hd Hk.
  - simpl. destruct (header_advance_typing s Hd) as (Hc' & Hi' & Hd').
    destruct (header_advance_fields s) as (Hcat & _).
    rewrite Hd', Hc', Hi', Hcat.
    split; [apply Z.geb_le; lia |]. repeat split; auto; lia.
  - assert (Ha' := header_animating_advance s Ha).
    destruct (header_advance_typing s Hd) as (Hc' & Hi' & Hd').
    destruct (header_advance_fields s) as (Hcat & _).
    assert (Hcur : currentCategory (advance s) = currentCategory s)
      by (unfold currentCategory; rewrite Hcat, Hi'; reflexivity).
    assert (Hd'' : isDeleting (advance s) = false).
    { rewrite Hd'. destruct (Z.geb_spec (charIndex s + 1) (JS.len (currentCategory s))); auto; lia. }
    specialize (IH (advance s) Ha' Hd'' ltac:(rewrite Hcur, Hc'; lia)).
    change (steps (S (S k)) s) with (steps (S k) (advance s)).
    simpl in IH |- *. rewrite Hcur, Hi', Hcat in IH. exact IH.
Qed.

(** Deleting: from [charIndex = c >= 1] the engine reaches 0 in [c]
    steps and moves to the next category. *)
Lemma header_deleting_phase (k : nat) (s : State) :
  animating s ->
  isDeleting s = true ->
  charIndex s = Z.of_nat (S k) ->
  let s' := steps (S k) s in
  isDeleting s' = false
  /\ charIndex s' = 0
  /\ index s' = (index s + 1) mod Z.of_nat (length (categories s))
  /\ categories s' = categories s.
Proof.
  revert s. induction k as [| k IH]; intros s Ha Hd Hk.
  - simpl. destruct (header_advance_deleting s Hd) as (Hc' & Hi' & Hd').
    destruct (header_advance_fields s) as (Hcat & _).
    rewrite Hd', Hc', Hi', Hcat, Hk. simpl. auto.
  - assert (Ha' := header_animating_advance s Ha).
    destruct (header_advance_deleting s Hd) as (Hc' & Hi' & Hd').
    destruct (header_advance_fields s) as (Hcat & _).
    destruct (Z.leb_spec (charIndex s - 1) 0) as [Hle | Hgt]; [lia |].
    simpl in Hd'.
    specialize (IH (advance s) Ha' Hd' ltac:(lia)).
    change (steps (S (S k)) s) with (steps (S k) (advance s)).
    simpl in IH |- *. rewrite Hi', Hcat in IH. exact IH.
Qed.

(** A full cycle from the start of a category. *)
Lemma header_full_cycle (s : State) :
  animating s ->
  charIndex s = 0 -> isDeleting s = false ->
  let n := Z.to_nat (JS.len (currentCategory s)) in
  let s' := steps (n + n) s in
  charIndex (steps n s) = JS.len (currentCategory s)
  /\ isDeleting (steps n s) = true
  /\ charIndex s' = 0
  /\ isDeleting s' = false
  /\ index s' = (index s + 1) mod Z.of_nat (length (categories s)).
Proof.
  intros Ha Hc Hd n s'.
  assert (Hlen : 0 < JS.len (currentCategory s)).
  { destruct Ha as (_ & _ & _ & H). rewrite Hd in H. lia. }
  destruct n as [| k] eqn:Hn; [subst n; lia |].
  destruct (header_typing_phase k s Ha Hd ltac:(lia)) as (Hd1 & Hc1 & Hi1 & Hcat1).
  destruct (header_deleting_phase k (steps (S k) s) (header_animating_steps _ _ Ha) Hd1
              ltac:(lia)) as (Hd2 & Hc2 & Hi2 & Hcat2).
  subst s'. rewrite header_steps_add.
  rewrite Hi1, Hcat1 in Hi2. auto.
Qed.

(** *** Timers *)

Lemma oneTimer_stop (s : State) :
  oneTimer s -> oneTimer (stop s) /\ timeout (stop s) = None
                /\ pending (timers (stop s)) = [].
Proof.
  intros (Hn & [(Ht & Hp) | (h & d & Ht & Hp & Hh)]); unfold stop, oneTimer.
  - rewrite Ht. simpl. rewrite Ht. auto.
  - rewrite Ht. destruct h as [| h']; [lia |]. simpl.
    destruct (timers s) as [pend next]. simpl in *. subst pend.
    unfold clearTimeout. simpl. rewrite Nat.eqb_refl. simpl. auto.
Qed.

Lemma header_oneTimer_advance (s : State) :
  (1 <= nextHandle (timers s))%nat ->
  pending (timers s) = [] ->
  oneTimer (advance s).
Proof.
  intros Hn Hp. unfold oneTimer, advance.
  destruct (isDeleting s);
    [destruct (charIndex s - 1 <=? 0) | destruct (charIndex s + 1 >=? _)];
    simpl; rewrite Hp; simpl; (split; [lia |]); right; eauto 6 with lia.
Qed.

Lemma oneTimer_resume (s : State) : oneTimer s -> oneTimer (resume s).
Proof.
  intros H. unfold resume.
  destruct (JS.handleTruthy (timeout s)) eqn:Ht; auto.
  destruct H as (Hn & [(_ & Hp) | (h & d & Hs & _ & Hh)]).
  - apply header_oneTimer_advance; auto.
  - rewrite Hs in Ht. destruct h; [lia | discriminate].
Qed.

Lemma oneTimer_fire (h : nat) (s : State) : oneTimer s -> oneTimer (fire h s).
Proof.
  intros H. unfold fire. destruct (isPending h (timers s)) eqn:Hp; auto.
  destruct H as (Hn & [(_ & He) | (h' & d & Hs & He & Hh)]).
  - unfold isPending in Hp. rewrite He in Hp. discriminate.
  - destruct (timers s) as [pend next] eqn:Et. simpl in *. subst pend.
    apply isPending_single in Hp. subst h'.
    apply header_oneTimer_advance; simpl; rewrite ?Nat.eqb_refl; simpl; auto.
Qed.

(** *** What every reachable state satisfies *)

Lemma stop_fields (s : State) :
  index (stop s) = index s /\ charIndex (stop s) = charIndex s
  /\ isDeleting (stop s) = isDeleting s /\ categories (stop s) = categories s
  /\ listening (stop s) = listening s /\ prefix (stop s) = prefix s
  /\ textContent (stop s) = textContent s.
Proof.
  unfold stop. destruct (JS.handleTruthy (timeout s)); [| repeat split].
  destruct (timeout s); simpl; repeat split.
Qed.

Lemma modes_stop (s : State) :
  idle s \/ animating s -> idle (stop s) \/ animating (stop s).
Proof.
  destruct (stop_fields s) as (Hi & Hc & Hd & Hcat & Hl & _).
  intros [(H1 & H2 & H3 & H4 & H5 & H6) | H].
  - left. unfold idle. rewrite Hi, Hc, Hd, Hcat, Hl.
    repeat split; auto. unfold stop. rewrite H3. simpl. exact H3.
  - right. unfold animating, currentCategory in *. rewrite Hi, Hc, Hd, Hcat. exact H.
Qed.

Lemma reachableInv_stop (s : State) : reachableInv s -> reachableInv (stop s).
Proof.
  intros (Ht & Hm). split; [apply oneTimer_stop, Ht | apply modes_stop, Hm].
Qed.

Lemma idle_not_listening (s : State) : idle s -> listening s = false.
Proof. intros H. apply H. Qed.

Lemma reachableInv_handle (e : Event) (s : State) :
  reachableInv s -> reachableInv (handle e s).
Proof.
  intros (Ht & Hm). destruct e; simpl.
  1-4: destruct (listening s) eqn:Hl; [| split; auto];
    assert (Ha : animating s)
      by (destruct Hm as [Hi | Ha]; auto;
          apply idle_not_listening in Hi; congruence).
  - apply reachableInv_stop. split; auto.
  - split; [apply oneTimer_resume, Ht |]. right. unfold resume.
    destruct (JS.handleTruthy (timeout s)); auto using header_animating_advance.
  - apply reachableInv_stop. split; auto.
  - split; [apply oneTimer_resume, Ht |]. right. unfold resume.
    destruct (JS.handleTruthy (timeout s)); auto using header_animating_advance.
  - split; [apply oneTimer_fire, Ht |].
    unfold fire. destruct (isPending h (timers s)) eqn:Hp; auto.
    destruct Hm as [Hi | Ha].
    + exfalso. destruct Hi as (_ & _ & Hnone & _).
      destruct Ht as (_ & [(_ & He) | (h' & d & Hs & _)]); [| congruence].
      unfold isPending in Hp. rewrite He in Hp. discriminate.
    + right. apply header_animating_advance. exact Ha.
  - apply reachableInv_stop. split; auto.
Qed.

Lemma reachableInv_run (es : list Event) (s : State) :
  reachableInv s -> reachableInv (run es s).
Proof.
  revert s. induction es as [| e es IH]; simpl; intros s H; auto.
  apply IH, reachableInv_handle, H.
Qed.

Lemma configure_animating (d : Dataset) (t0 : string) :
  getCategories d <> [] ->
  animating (configure d (created t0)).
Proof.
  intros Hne. unfold animating, currentCategory, configure. simpl.
  assert (Hall : Forall (fun c => JS.truthy c = true) (getCategories d)).
  { unfold getCategories. destruct (placeholderCategories d);
      auto using JSFacts.trimmedNonEmpty_truthy. }
  assert (Hlen : (0 < length (getCategories d))%nat)
    by (destruct (getCategories d); simpl; [congruence | lia]).
  repeat split; auto; try lia.
  apply JSFacts.truthy_len, JSFacts.at_or_empty_truthy; auto. lia.
Qed.

Lemma reachableInv_connected (reducedMotion : bool) (d : Dataset) (t0 : string) :
  reachableInv (connectedCallback reducedMotion d (created t0)).
Proof.
  unfold connectedCallback.
  destruct (length (categories (configure d (created t0))) =? 0)%nat eqn:Hlen.
  - apply Nat.eqb_eq in Hlen. apply length_zero_iff_nil in Hlen.
    split; [split; simpl; auto | left].
    unfold idle. simpl in *. auto 10.
  - apply Nat.eqb_neq in Hlen.
    assert (Hne : getCategories d <> [])
      by (intros E; apply Hlen; simpl; rewrite E; reflexivity).
    assert (Ha := configure_animating d t0 Hne).
    destruct (reducedMotion || _)%bool.
    + split; [split; simpl; auto | right]. exact Ha.
    + unfold resume. simpl.
      split; [apply header_oneTimer_advance; simpl; auto |].
      right. apply header_animating_advance. exact Ha.
Qed.

Lemma header_idle_inRange (s : State) : idle s -> charIndexInRange s.
Proof.
  intros (Hc & _ & _ & Hi & Hch & _).
  unfold charIndexInRange, currentCategory. rewrite Hc, Hi, Hch. simpl.
  unfold JS.len. simpl. lia.
Qed.

(** Nothing happens to an engine that never started. *)
Lemma idle_handle (e : Event) (s : State) :
  idle s -> pending (timers s) = [] -> handle e s = s.
Proof.
  intros (Hc & Hl & Ht & _) Hp. destruct e; simpl; rewrite ?Hl; auto.
  - unfold fire, isPending. rewrite Hp. reflexivity.
  - unfold disconnectedCallback, stop. rewrite Ht. reflexivity.
Qed.

Lemma idle_run (es : list Event) (s : State) :
  idle s -> pending (timers s) = [] -> run es s = s.
Proof.
  intros Hi Hp. induction es as [| e es IH]; simpl; auto.
  rewrite idle_handle; auto.
Qed.

End HeaderSearchFacts.

(** ** The predictive search component *)

Module PredictiveSearchFacts.
Import PredictiveSearch.

Create HintDb tokens.
Create HintDb engine.

(** Case analysis on the conditionals of the goal. *)
Ltac is_plain x :=
  lazymatch x with
  | context [if _ then _ else _] => fail
  | context [match _ with _ => _ end] => fail
  | _ => idtac
  end.

Ltac split_ifs :=
  repeat (simpl;
          match goal with
          | |- context [if ?b then _ else _] => is_plain b; destruct b eqn:?
          | |- context [match ?x with _ => _ end] => is_plain x; destruct x eqn:?
          end).

(** *** Cancellation tokens *)

Lemma tokenInv_ext (s s' : State) :
  tokensOf s' = tokensOf s -> tokenInv s -> tokenInv s'.
Proof.
  unfold tokensOf, tokenInv. intros E H. injection E as E1 E2.
  rewrite E1, E2. exact H.
Qed.

Lemma tokenInv_create (s : State) :
  tokenInv s -> tokenInv (snd (createAbortController s)).
Proof.
  intros [(Hc & Ha) | (older & last & Hc & Ha & Hall)];
    unfold createAbortController, tokenInv, abort; simpl; rewrite Ha, Hc; simpl.
  - right. exists [], false. simpl. auto.
  - right. exists (older ++ [true])%list, false.
    rewrite length_app. simpl. repeat split.
    + rewrite <- app_assoc. simpl.
      rewrite insert_app_r_alt by lia. rewrite Nat.sub_diag. simpl.
      rewrite <- app_assoc. reflexivity.
    + f_equal. rewrite length_app. simpl. lia.
    + apply Forall_app. split; auto.
Qed.

Lemma create_handle (s : State) :
  fst (createAbortController s) = length (controllers s)
  /\ length (controllers (snd (createAbortController s)))
     = S (length (controllers s)).
Proof.
  unfold createAbortController, abort. simpl.
  destruct (activeFetch s); simpl;
    rewrite ?length_insert, length_app; simpl; split; auto; lia.
Qed.

(** Of two controllers the older one is aborted. *)
Lemma tokenInv_older_aborted (s : State) (a b : nat) :
  tokenInv s -> (a < b < length (controllers s))%nat -> aborted a s = true.
Proof.
  intros [(Hc & _) | (older & last & Hc & _ & Hall)] Hab; unfold aborted;
    rewrite Hc in *; simpl in *; [lia |].
  rewrite length_app in Hab. simpl in Hab.
  rewrite lookup_app_l by lia.
  destruct (older !! a) as [x |] eqn:E.
  - simpl. rewrite List.Forall_forall in Hall. apply Hall.
    apply list_elem_of_In. eapply list_elem_of_lookup_2; eauto.
  - apply lookup_ge_None in E. lia.
Qed.

(** At most one controller is not aborted. *)
Lemma tokenInv_unique (s : State) (a b : nat) :
  tokenInv s ->
  controllers s !! a = Some false -> controllers s !! b = Some false -> a = b.
Proof.
  intros [(Hc & _) | (older & last & Hc & _ & Hall)] Ea Eb;
    rewrite Hc in *; [rewrite lookup_nil in Ea; discriminate |].
  assert (Hlast : forall h, (older ++ [last])%list !! h = Some false -> h = length older).
  { intros h E. destruct (Nat.lt_ge_cases h (length older)) as [Hlt | Hge].
    - rewrite lookup_app_l in E by lia.
      rewrite List.Forall_forall in Hall.
      assert (false = true); [| discriminate].
      apply Hall, list_elem_of_In. eapply list_elem_of_lookup_2; eauto.
    - apply lookup_lt_Some in E. rewrite length_app in E. simpl in E. lia. }
  rewrite (Hlast a Ea), (Hlast b Eb). reflexivity.
Qed.

(** Everything but [#createAbortController] leaves the tokens alone. *)

Create HintDb model.

#[local] Hint Unfold setDropdownState openDropdown closeDropdown
  syncDropdownState hideResetButton showResetButton
  stopPlaceholderAnimation pausePlaceholderAnimation
  resetPlaceholderAnimation advancePlaceholder resumePlaceholderAnimation
  handlePlaceholderInput onFocus handleFocusOut onBlur focusInput blurInput
  set_currentIndex send morph resultsArrived resultsFailed resetSearchApply
  emptySectionArrived recentlyViewedArrived navigate click onEnter
  disconnectedCallback settle resume stateOf : model.

Ltac frame :=
  intros; repeat autounfold with model; split_ifs; simpl;
  first [reflexivity | congruence].

Lemma tokens_focusInput s : tokensOf (focusInput s) = tokensOf s.
Proof. unfold tokensOf. frame. Qed.

Lemma tokens_blurInput s : tokensOf (blurInput s) = tokensOf s.
Proof. unfold tokensOf. frame. Qed.

Lemma tokens_onBlur b s : tokensOf (onBlur b s) = tokensOf s.
Proof. unfold tokensOf. frame. Qed.

Lemma tokens_set_currentIndex i s : tokensOf (set_currentIndex i s) = tokensOf s.
Proof. unfold tokensOf. frame. Qed.

Lemma tokens_handlePlaceholderInput s :
  tokensOf (handlePlaceholderInput s) = tokensOf s.
Proof. unfold tokensOf. frame. Qed.

Lemma tokens_advancePlaceholder s : tokensOf (advancePlaceholder s) = tokensOf s.
Proof. unfold tokensOf. frame. Qed.

Lemma tokens_onEnter s : tokensOf (settle (onEnter s)) = tokensOf s.
Proof. unfold tokensOf. frame. Qed.

Lemma tokens_disconnectedCallback s :
  tokensOf (disconnectedCallback s) = tokensOf s.
Proof. unfold tokensOf. frame. Qed.

Lemma tokens_resume k r s : tokensOf (settle (resume k r s)) = tokensOf s.
Proof. unfold tokensOf. destruct k, r; simpl; frame. Qed.

Lemma tokenInv_send r k s : tokenInv s -> tokenInv (send r k s).
Proof. apply tokenInv_ext. reflexivity. Qed.

Lemma tokenInv_getSearchResults t s :
  tokenInv s -> tokenInv (getSearchResults t s).
Proof.
  intros H. unfold getSearchResults. destruct (negb (sectionIdTruthy s)); auto.
  pose proof (tokenInv_create s H) as Hc.
  destruct (createAbortController s) as [a s1]. apply tokenInv_send, Hc.
Qed.

Lemma tokenInv_resetSearchBegin s : tokenInv s -> tokenInv (resetSearchBegin s).
Proof.
  intros H. unfold resetSearchBegin.
  match goal with
  | |- context [createAbortController ?x] =>
      assert (Hx : tokenInv x)
        by (apply (tokenInv_ext s); [apply tokens_set_currentIndex | exact H]);
      pose proof (tokenInv_create x Hx) as Hc;
      destruct (createAbortController x) as [a s1]
  end.
  apply tokenInv_send, Hc.
Qed.

Lemma tokenInv_search i s : tokenInv s -> tokenInv (search i s).
Proof.
  intros H. unfold search. destruct (negb _); auto.
  assert (H1 : tokenInv (set_currentIndex (-1) s))
    by (apply (tokenInv_ext s); [apply tokens_set_currentIndex | exact H]).
  destruct (JS.len _ =? 0).
  - apply tokenInv_resetSearchBegin, H1.
  - apply tokenInv_getSearchResults. revert H1. apply tokenInv_ext. reflexivity.
Qed.

Lemma tokenInv_onSearchKeyDown key shift s :
  tokenInv s -> tokenInv (onSearchKeyDown key shift s).
Proof.
  intros H. unfold onSearchKeyDown.
  destruct (String.eqb key "Escape").
  { apply (tokenInv_ext (resetSearchBegin (closeDropdown s)));
      [apply tokens_blurInput |].
    apply tokenInv_resetSearchBegin. revert H. apply tokenInv_ext. reflexivity. }
  destruct (_ || _ || _)%bool; auto.
  repeat match goal with
         | |- tokenInv (if ?b then _ else _) => destruct b
         end; auto;
    try (apply (tokenInv_ext s); [| exact H];
         first [ apply tokens_onEnter
               | etransitivity; [apply tokens_set_currentIndex | reflexivity] ]).
Qed.

Lemma tokenInv_handle e s : tokenInv s -> tokenInv (handle e s).
Proof.
  intros H.
  assert (Hext : forall s', tokensOf s' = tokensOf s -> tokenInv s')
    by (intros s' E; apply (tokenInv_ext s); auto).
  destruct e; simpl.
  - apply Hext, tokens_focusInput.
  - destruct (inputFocused s); auto. apply Hext.
    etransitivity; [apply tokens_onBlur | reflexivity].
  - destruct (listenersActive s); simpl; [| exact H].
    destruct (placeholderListeners s); simpl; [| exact H].
    apply Hext. etransitivity; [apply tokens_handlePlaceholderInput | reflexivity].
  - apply tokenInv_search, H.
  - unfold resetSearch. apply tokenInv_resetSearchBegin.
    destruct keepFocus; auto. apply Hext, tokens_focusInput.
  - apply tokenInv_onSearchKeyDown, H.
  - destruct (awaiting s !! k); auto. apply Hext.
    etransitivity; [apply tokens_resume | reflexivity].
  - destruct (isPending h (timers s)); auto. apply Hext.
    etransitivity; [apply tokens_advancePlaceholder | reflexivity].
  - destruct (listenersActive s); auto. unfold handleOutsideClick.
    destruct (negb (dropdownOpen s)); auto. apply Hext.
    etransitivity; [apply tokens_blurInput | reflexivity].
  - destruct (listenersActive s); auto. unfold handleDialogClose.
    apply tokenInv_resetSearchBegin. exact H.
  - destruct (listenersActive s); exact H.
  - destruct (listenersActive s); auto. apply Hext, tokens_focusInput.
  - exact H.
  - exact H.
  - apply Hext, tokens_disconnectedCallback.
  - exact H.
Qed.

Lemma tokenInv_run es s : tokenInv s -> tokenInv (run es s).
Proof.
  revert s. induction es as [| e es IH]; simpl; intros s H; auto.
  apply IH, tokenInv_handle, H.
Qed.

Lemma tokenInv_connected c : tokenInv (connectedCallback c).
Proof.
  apply (tokenInv_ext (created c)); [| left; split; reflexivity].
  unfold tokensOf, connectedCallback, setupPlaceholderAnimation. frame.
Qed.

(** A closure whose token is aborted leaves the results as they are. *)
Lemma resume_aborted_results k r s :
  aborted (tokenOf k) s = true ->
  results (settle (resume k r s)) = results s.
Proof.
  intros H. destruct k, r; simpl in *;
    unfold resultsArrived, resultsFailed, emptySectionArrived,
      recentlyViewedArrived, resetSearchApply, send;
    rewrite ?H; split_ifs; reflexivity.
Qed.

(** *** The placeholder engine *)

Lemma engineInv_ext (s s' : State) :
  engineOf s' = engineOf s -> engineInv s -> engineInv s'.
Proof.
  unfold engineOf. intros E. injection E as E1 E2 E3 E4 E5 E6 E7 E8.
  unfold engineInv, oneTimer, idle, animating, currentCategory.
  rewrite E1, E2, E3, E4, E5, E6, E7, E8. auto.
Qed.

Lemma stop_cleared (s : State) :
  oneTimer s ->
  oneTimer (stopPlaceholderAnimation s)
  /\ placeholderTimeout (stopPlaceholderAnimation s) = None
  /\ pending (timers (stopPlaceholderAnimation s)) = [].
Proof.
  intros (Hn & [(Ht & Hp) | (h & d & Ht & Hp & Hh)]);
    unfold stopPlaceholderAnimation, oneTimer.
  - rewrite Ht. simpl. rewrite Ht. auto.
  - rewrite Ht. destruct h as [| h']; [lia |]. simpl.
    rewrite Hp. unfold clearTimeout. simpl. rewrite Nat.eqb_refl. simpl. auto.
Qed.

Lemma stop_counters (s : State) :
  placeholderIndex (stopPlaceholderAnimation s) = placeholderIndex s
  /\ placeholderCharIndex (stopPlaceholderAnimation s) = placeholderCharIndex s
  /\ placeholderIsDeleting (stopPlaceholderAnimation s) = placeholderIsDeleting s
  /\ placeholderCategories (stopPlaceholderAnimation s) = placeholderCategories s
  /\ inputPlaceholder (stopPlaceholderAnimation s) = inputPlaceholder s
  /\ placeholderOriginal (stopPlaceholderAnimation s) = placeholderOriginal s
  /\ inputValue (stopPlaceholderAnimation s) = inputValue s.
Proof.
  unfold stopPlaceholderAnimation.
  destruct (JS.handleTruthy _); [| repeat split].
  destruct (placeholderTimeout s); repeat split.
Qed.

Lemma engineInv_stop (s : State) :
  engineInv s -> engineInv (stopPlaceholderAnimation s).
Proof.
  intros (Ht & Hm). destruct (stop_cleared s Ht) as (Ht' & Hnone & _).
  destruct (stop_counters s) as (Hi & Hc & Hd & Hcat & Hp & Ho & _).
  split; auto. unfold idle, animating, currentCategory in *.
  rewrite Hi, Hc, Hd, Hcat, Hp, Ho, Hnone.
  destruct Hm as [H | H]; [left | right]; tauto.
Qed.

Lemma pause_cleared (s : State) :
  oneTimer s ->
  placeholderTimeout (pausePlaceholderAnimation s) = None
  /\ pending (timers (pausePlaceholderAnimation s)) = [].
Proof.
  intros Ht. destruct (stop_cleared s Ht) as (_ & H1 & H2).
  unfold pausePlaceholderAnimation. destruct (JS.len _ =? 0); simpl; auto.
Qed.

Lemma engineInv_pause (s : State) :
  engineInv s -> engineInv (pausePlaceholderAnimation s).
Proof.
  intros H. apply engineInv_stop in H. unfold pausePlaceholderAnimation.
  destruct (JS.len _ =? 0); auto.
  destruct H as (Ht & Hm). split; [exact Ht |].
  destruct Hm as [(H1 & H2 & H3 & H4 & H5 & H6) | Ha]; [left | right; exact Ha].
  unfold idle. simpl. auto 10.
Qed.

Lemma truthy_first_category (s : State) :
  placeholderCategories s <> [] ->
  Forall (fun c => JS.truthy c = true) (placeholderCategories s) ->
  0 < JS.len (JS.at_or_empty (placeholderCategories s) 0).
Proof.
  intros Hne Hall. apply JSFacts.truthy_len, JSFacts.at_or_empty_truthy; auto.
  destruct (placeholderCategories s); simpl; [congruence | lia].
Qed.

Lemma engineInv_reset (s : State) :
  engineInv s -> engineInv (resetPlaceholderAnimation s).
Proof.
  intros (Ht & Hm). split; [exact Ht |].
  destruct Hm as [(H1 & H2 & H3 & H4 & H5 & H6) | (Hne & Hall & Hi & Hc)].
  - left. unfold idle. simpl. auto 10.
  - right. unfold animating, currentCategory. simpl.
    assert (Hl := truthy_first_category s Hne Hall).
    repeat split; auto; lia.
Qed.

(** One step, when the animation is wanted. *)
Lemma advance_typing (s : State) :
  shouldAnimatePlaceholder s = true -> placeholderIsDeleting s = false ->
  placeholderCharIndex (advancePlaceholder s) = placeholderCharIndex s + 1
  /\ placeholderIndex (advancePlaceholder s) = placeholderIndex s
  /\ placeholderIsDeleting (advancePlaceholder s)
     = (placeholderCharIndex s + 1 >=? JS.len (currentCategory s)).
Proof.
  intros He Hd. unfold advancePlaceholder, currentCategory. rewrite He, Hd.
  simpl. destruct (placeholderCharIndex s + 1 >=? _); simpl; auto.
Qed.

Lemma advance_deleting (s : State) :
  shouldAnimatePlaceholder s = true -> placeholderIsDeleting s = true ->
  placeholderCharIndex (advancePlaceholder s) = placeholderCharIndex s - 1
  /\ placeholderIndex (advancePlaceholder s)
     = (if placeholderCharIndex s - 1 <=? 0
        then (placeholderIndex s + 1)
               mod Z.of_nat (length (placeholderCategories s))
        else placeholderIndex s)
  /\ placeholderIsDeleting (advancePlaceholder s)
     = negb (placeholderCharIndex s - 1 <=? 0).
Proof.
  intros He Hd. unfold advancePlaceholder. rewrite He, Hd. simpl.
  destruct (placeholderCharIndex s - 1 <=? 0); simpl; auto.
Qed.

Lemma advance_fields (s : State) :
  placeholderCategories (advancePlaceholder s) = placeholderCategories s
  /\ inputValue (advancePlaceholder s) = inputValue s
  /\ inputFocused (advancePlaceholder s) = inputFocused s
  /\ reducedMotion (advancePlaceholder s) = reducedMotion s.
Proof. repeat split; frame. Qed.

Lemma advance_eligible (s : State) :
  shouldAnimatePlaceholder (advancePlaceholder s) = shouldAnimatePlaceholder s.
Proof.
  destruct (advance_fields s) as (H1 & H2 & H3 & _).
  unfold shouldAnimatePlaceholder. rewrite H1, H2, H3. reflexivity.
Qed.

Lemma animating_advance (s : State) :
  animating s -> animating (advancePlaceholder s).
Proof.
  intros Ha.
  destruct (shouldAnimatePlaceholder s) eqn:He.
  2:{ unfold advancePlaceholder. rewrite He. simpl.
      destruct (stop_counters s) as (Hi & Hc & Hd & Hcat & _).
      unfold pausePlaceholderAnimation.
      destruct (JS.len _ =? 0); unfold animating, currentCategory in *; simpl;
        rewrite Hi, Hc, Hd, Hcat; exact Ha. }
  destruct Ha as (Hne & Hall & Hidx & Hc).
  destruct (advance_fields s) as (Hcat & _).
  unfold animating, currentCategory in *. rewrite Hcat.
  destruct (placeholderIsDeleting s) eqn:Hd.
  - destruct (advance_deleting s He Hd) as (Hc' & Hi' & Hd').
    rewrite Hc', Hi', Hd'.
    destruct (Z.leb_spec (placeholderCharIndex s - 1) 0); simpl.
    + assert (Hm := Z.mod_pos_bound (placeholderIndex s + 1)
                      (Z.of_nat (length (placeholderCategories s))) ltac:(lia)).
      assert (Hl : 0 < JS.len (JS.at_or_empty (placeholderCategories s)
                          ((placeholderIndex s + 1)
                             mod Z.of_nat (length (placeholderCategories s)))))
        by (apply JSFacts.truthy_len, JSFacts.at_or_empty_truthy; auto).
      repeat split; auto; lia.
    + repeat split; auto; lia.
  - destruct (advance_typing s He Hd) as (Hc' & Hi' & Hd').
    unfold currentCategory in Hd'. rewrite Hc', Hi', Hd'.
    destruct (Z.geb_spec (placeholderCharIndex s + 1)
                (JS.len (JS.at_or_empty (placeholderCategories s)
                           (placeholderIndex s))));
      repeat split; auto; lia.
Qed.

(** A step taken while no timer is pending leaves one timer, or none. *)
Lemma oneTimer_advance (s : State) :
  (1 <= nextHandle (timers s))%nat ->
  pending (timers s) = [] ->
  placeholderTimeout s <> Some 0%nat ->
  oneTimer (advancePlaceholder s).
Proof.
  intros Hn Hp Hz.
  destruct (shouldAnimatePlaceholder s) eqn:He.
  - unfold oneTimer, advancePlaceholder. rewrite He. simpl.
    destruct (placeholderIsDeleting s);
      [destruct (placeholderCharIndex s - 1 <=? 0)
      | destruct (placeholderCharIndex s + 1 >=? _)];
      simpl; rewrite Hp; simpl; (split; [lia |]); right; eauto 6 with lia.
  - unfold advancePlaceholder. rewrite He. simpl.
    unfold pausePlaceholderAnimation, stopPlaceholderAnimation, oneTimer.
    destruct (placeholderTimeout s) as [[| h] |] eqn:Eh; [congruence | |];
      simpl; destruct (JS.len _ =? 0); simpl; unfold clearTimeout;
      rewrite ?Hp, ?Eh; simpl; auto.
Qed.

Lemma engineInv_advance (s : State) :
  (1 <= nextHandle (timers s))%nat ->
  pending (timers s) = [] ->
  placeholderTimeout s <> Some 0%nat ->
  idle s \/ animating s ->
  engineInv (advancePlaceholder s).
Proof.
  intros Hn Hp Hz Hm. split; [apply oneTimer_advance; auto |].
  destruct Hm as [Hi | Ha]; [left | right; apply animating_advance, Ha].
  assert (He : shouldAnimatePlaceholder s = false).
  { unfold shouldAnimatePlaceholder. destruct Hi as (Hc & _). rewrite Hc.
    simpl. rewrite !andb_false_r. reflexivity. }
  unfold advancePlaceholder. rewrite He. simpl.
  assert (Hinv : engineInv s).
  { split; [split; [auto | left; split; [apply Hi | auto]] | left; exact Hi]. }
  destruct (engineInv_pause s Hinv) as (_ & [Hi' | Ha']); auto.
  exfalso. destruct Ha' as (Hne & _). apply Hne.
  unfold pausePlaceholderAnimation.
  destruct (stop_counters s) as (_ & _ & _ & Hcat & _).
  destruct (JS.len _ =? 0); simpl; rewrite Hcat; apply Hi.
Qed.

Lemma engineInv_resume (s : State) :
  engineInv s -> engineInv (resumePlaceholderAnimation s).
Proof.
  intros H. unfold resumePlaceholderAnimation.
  destruct (reducedMotion s); auto.
  destruct (negb (shouldAnimatePlaceholder s)); [apply engineInv_pause, H |].
  destruct (JS.handleTruthy (placeholderTimeout s)) eqn:Ht; auto.
  destruct H as ((Hn & [(Hnone & Hp) | (h & d & Hs & _ & Hh)]) & Hm).
  - apply engineInv_advance; auto. congruence.
  - rewrite Hs in Ht. destruct h; [lia | discriminate].
Qed.

Lemma engineInv_handlePlaceholderInput (s : State) :
  engineInv s -> engineInv (handlePlaceholderInput s).
Proof.
  intros H. unfold handlePlaceholderInput.
  destruct (0 <? _); auto using engineInv_pause, engineInv_resume.
Qed.

(** A timer that fires. *)
Lemma engineInv_fire (h : nat) (s : State) :
  engineInv s ->
  isPending h (timers s) = true ->
  engineInv (advancePlaceholder (set_timers (clearTimeout h (timers s)) s)).
Proof.
  intros ((Hn & [(Hnone & Hp) | (h' & d & Hs & Hp & Hh)]) & Hm) Hpend.
  - unfold isPending in Hpend. rewrite Hp in Hpend. discriminate.
  - assert (h = h').
    { unfold isPending in Hpend. rewrite Hp in Hpend. simpl in Hpend.
      rewrite orb_false_r in Hpend. apply Nat.eqb_eq in Hpend. auto. }
    subst h'.
    apply engineInv_advance; simpl.
    + exact Hn.
    + rewrite Hp. simpl. rewrite Nat.eqb_refl. reflexivity.
    + rewrite Hs. intros E. injection E as E. lia.
    + destruct Hm as [Hi | Ha]; [left | right]; auto.
Qed.

(** [Enter] does nothing, asks for one navigation or throws. *)
Lemma onEnter_cases (s : State) :
  settle (onEnter s) = s
  \/ (exists n, settle (onEnter s) = navigate n s)
  \/ settle (onEnter s) = set_uncaught (uncaught s ++ [notAFunction])%list s.
Proof.
  unfold onEnter, click.
  repeat match goal with
         | |- context [if ?b then _ else _] => is_plain b; destruct b
         | |- context [match ?x with _ => _ end] => is_plain x; destruct x
         end; simpl; eauto.
Qed.

Ltac head_of t := lazymatch t with ?g _ => head_of g | _ => t end.

(** Functions that only write fields. *)
Ltac is_writer f :=
  lazymatch f with
  | set_activeFetch => idtac
    | set_controllers => idtac
    | set_placeholderTimeout => idtac
    | set_placeholderIndex => idtac
    | set_placeholderCharIndex => idtac
    | set_placeholderIsDeleting => idtac
    | set_placeholderCategories => idtac
    | set_placeholderPrefix => idtac
    | set_placeholderOriginal => idtac
    | set_dropdownOpen => idtac
    | set_isKeyboardNavigation => idtac
    | set_inputValue => idtac
    | set_inputPlaceholder => idtac
    | set_inputFocused => idtac
    | set_ariaExpanded => idtac
    | set_resetButtonHidden => idtac
    | set_results => idtac
    | set_placeholderListeners => idtac
    | set_listenersActive => idtac
    | set_timers => idtac
    | set_reducedMotion => idtac
    | set_sectionId => idtac
    | set_viewedProducts => idtac
    | set_requests => idtac
    | set_awaiting => idtac
    | set_uncaught => idtac
    | set_navigated => idtac
    | set_inputFocusable => idtac
    | setDropdownState => idtac
    | openDropdown => idtac
    | closeDropdown => idtac
    | syncDropdownState => idtac
    | hideResetButton => idtac
    | showResetButton => idtac
    | send => idtac
    | morph => idtac
    | navigate => idtac
    | abort => idtac
  end.

(** One step of a proof that a property of the state survives a
    function: [ext] says that the property reads only some fields,
    [known] applies what is proved of the functions called. *)
Ltac preserve_step ext known :=
  match goal with
  | H : ?P ?s |- ?P ?s => exact H
  | |- ?P (if ?b then _ else _) => destruct b eqn:?
  | |- ?P (match createAbortController ?x with _ => _ end) =>
      unfold createAbortController; cbv beta iota zeta
  | |- ?P (match ?x with _ => _ end) => is_plain x; destruct x eqn:?
  | |- ?P (settle (onEnter ?s0)) =>
      destruct (onEnter_cases s0) as [-> | [(? & ->) | ->]]
  | |- ?P (?f ?s0) =>
      let h := head_of f in
      first
        [ is_writer h; apply (ext s0 (f s0) eq_refl)
        | known h
        | progress (unfold h; cbv beta iota zeta) ]
  end.

Ltac engine_known h := fail.

Ltac engine_step := preserve_step engineInv_ext engine_known.

Ltac engine := intros; repeat engine_step.

Ltac engine_known h ::=
  lazymatch h with
  | stopPlaceholderAnimation => apply engineInv_stop
  | pausePlaceholderAnimation => apply engineInv_pause
  | resetPlaceholderAnimation => apply engineInv_reset
  | resumePlaceholderAnimation => apply engineInv_resume
  | handlePlaceholderInput => apply engineInv_handlePlaceholderInput
  end.

Lemma engineInv_focusInput s : engineInv s -> engineInv (focusInput s).
Proof. engine. Qed.

Lemma engineInv_blurInput s : engineInv s -> engineInv (blurInput s).
Proof. engine. Qed.

Lemma engineInv_set_currentIndex i s : engineInv s -> engineInv (set_currentIndex i s).
Proof. engine. Qed.

Ltac engine_known h ::=
  lazymatch h with
  | stopPlaceholderAnimation => apply engineInv_stop
  | pausePlaceholderAnimation => apply engineInv_pause
  | resetPlaceholderAnimation => apply engineInv_reset
  | resumePlaceholderAnimation => apply engineInv_resume
  | handlePlaceholderInput => apply engineInv_handlePlaceholderInput
  | focusInput => apply engineInv_focusInput
  | blurInput => apply engineInv_blurInput
  | set_currentIndex => apply engineInv_set_currentIndex
  end.

Lemma engineInv_resetSearchBegin s : engineInv s -> engineInv (resetSearchBegin s).
Proof. engine. Qed.

Lemma engineInv_getSearchResults t s : engineInv s -> engineInv (getSearchResults t s).
Proof. engine. Qed.

Ltac engine_known h ::=
  lazymatch h with
  | stopPlaceholderAnimation => apply engineInv_stop
  | pausePlaceholderAnimation => apply engineInv_pause
  | resetPlaceholderAnimation => apply engineInv_reset
  | resumePlaceholderAnimation => apply engineInv_resume
  | handlePlaceholderInput => apply engineInv_handlePlaceholderInput
  | focusInput => apply engineInv_focusInput
  | blurInput => apply engineInv_blurInput
  | set_currentIndex => apply engineInv_set_currentIndex
  | resetSearchBegin => apply engineInv_resetSearchBegin
  | getSearchResults => apply engineInv_getSearchResults
  end.

Lemma engineInv_search i s : engineInv s -> engineInv (search i s).
Proof. engine. Qed.

Lemma engineInv_onSearchKeyDown k b s : engineInv s -> engineInv (onSearchKeyDown k b s).
Proof. engine. Qed.

Lemma engineInv_settle o : engineInv (stateOf o) -> engineInv (settle o).
Proof. destruct o; simpl; auto. Qed.

Lemma engineInv_resume_k k r s : engineInv s -> engineInv (settle (resume k r s)).
Proof.
  intros. apply engineInv_settle. destruct k, r; simpl; auto.
  - engine.
  - unfold resultsFailed. destruct (aborted token s); auto.
  - unfold emptySectionArrived. split_ifs; auto; engine.
  - engine.
Qed.

Lemma engineInv_handle e s : engineInv s -> engineInv (handle e s).
Proof.
  intros H. destruct e; try (solve [engine]); simpl.
  - destruct (awaiting s !! k); auto. apply engineInv_resume_k. exact H.
  - destruct (isPending h (timers s)) eqn:Hp; auto.
    apply engineInv_fire; auto.
Qed.

Lemma engineInv_run es s : engineInv s -> engineInv (run es s).
Proof.
  revert s. induction es as [| e es IH]; simpl; intros s H; auto.
  apply IH, engineInv_handle, H.
Qed.

Lemma getPlaceholderCategories_truthy c :
  Forall (fun x => JS.truthy x = true) (getPlaceholderCategories c).
Proof.
  unfold getPlaceholderCategories.
  destruct (cfgPlaceholderCategories c); apply JSFacts.trimmedNonEmpty_truthy.
Qed.

Lemma engineInv_connected c : engineInv (connectedCallback c).
Proof.
  unfold connectedCallback, setupPlaceholderAnimation. cbv zeta.
  match goal with
  | |- engineInv (if (length (placeholderCategories ?y) =? 0)%nat then _ else _) =>
      set (x := y)
  end.
  assert (Hcat : placeholderCategories x = getPlaceholderCategories c)
    by reflexivity.
  assert (Ht : oneTimer x)
    by (subst x; unfold oneTimer; split_ifs; simpl; auto).
  assert (Hz : placeholderIndex x = 0 /\ placeholderCharIndex x = 0
               /\ placeholderIsDeleting x = false
               /\ placeholderTimeout x = None
               /\ inputPlaceholder x = placeholderOriginal x)
    by (subst x; split_ifs; repeat split).
  clearbody x. revert Hz.
  intros (Hi & Hc & Hd & Hn & Hp).
  assert (Hall := getPlaceholderCategories_truthy c). rewrite <- Hcat in Hall.
  destruct (length (placeholderCategories x) =? 0)%nat eqn:Hlen.
  - apply Nat.eqb_eq, length_zero_iff_nil in Hlen.
    split; auto. left. unfold idle. auto 10.
  - apply Nat.eqb_neq in Hlen.
    assert (Hne : placeholderCategories x <> [])
      by (intros E; rewrite E in Hlen; auto).
    assert (Ha : animating x).
    { unfold animating, currentCategory. rewrite Hi, Hc, Hd.
      assert (Hl := truthy_first_category x Hne Hall).
      repeat split; auto; lia. }
    destruct (reducedMotion x || _)%bool.
    + split; [exact Ht | right; exact Ha].
    + apply engineInv_resume. split; [exact Ht | right; exact Ha].
Qed.

(** *** The item query *)

Lemma matching_sameOn (m : DOM.Element -> bool) (k : nat) (l l' : list DOM.Element) :
  Forall2 (fun e e' => m e = m e') l l' ->
  DOM.matching m k l = DOM.matching m k l'.
Proof.
  intros H. revert k. induction H as [| e e' l l' He Hl IH]; intros k; simpl; auto.
  rewrite He, IH. reflexivity.
Qed.

Lemma matching_bounds (m : DOM.Element -> bool) (l : list DOM.Element) (k h : nat) :
  In h (DOM.matching m k l) -> (k <= h < k + length l)%nat.
Proof.
  revert k. induction l as [| e l IH]; intros k; simpl; [tauto |].
  destruct (m e); simpl; intros H.
  - destruct H as [<- | H]; [lia | apply IH in H; lia].
  - apply IH in H. lia.
Qed.

Lemma deeper_prefix (d : nat) (l : list DOM.Element) :
  (length (DOM.deeper d l) <= length l)%nat.
Proof.
  induction l as [| e l IH]; simpl; auto.
  destruct (d <? DOM.depth e)%nat; simpl; lia.
Qed.

Lemma deeper_sameShape (d : nat) (l l' : list DOM.Element) :
  sameShape l l' -> sameShape (DOM.deeper d l) (DOM.deeper d l').
Proof.
  unfold sameShape. induction 1 as [| e e' l l' He Hl IH]; simpl; [constructor |].
  assert (Hd : DOM.depth e = DOM.depth e') by (unfold shape in He; congruence).
  rewrite Hd. destruct (d <? DOM.depth e')%nat; constructor; auto.
Qed.

Lemma descendants_sameShape (doc doc' : DOM.Document) (h : nat) :
  sameShape doc doc' ->
  sameShape (DOM.descendants doc h) (DOM.descendants doc' h).
Proof.
  intros H. unfold DOM.descendants.
  destruct (doc !! h) as [e |] eqn:E.
  - destruct (Forall2_lookup_l _ _ _ _ _ H E) as (e' & E' & He). rewrite E'.
    assert (Hd : DOM.depth e = DOM.depth e') by (unfold shape in He; congruence).
    rewrite Hd. apply deeper_sameShape, Forall2_drop, H.
  - assert (E' : doc' !! h = None).
    { apply lookup_ge_None. apply lookup_ge_None in E.
      rewrite <- (Forall2_length _ _ _ H). exact E. }
    rewrite E'. constructor.
Qed.

Lemma sameShape_on (f : nat * bool * bool * bool * bool * bool -> bool)
    (l l' : list DOM.Element) :
  sameShape l l' ->
  Forall2 (fun e e' => f (shape e) = f (shape e')) l l'.
Proof.
  intros H. eapply Forall2_impl; [exact H |]. intros e e' ->. reflexivity.
Qed.

Lemma sameShape_None (doc doc' : DOM.Document) (h : nat) :
  sameShape doc doc' -> doc !! h = None -> doc' !! h = None.
Proof.
  intros H E. apply lookup_ge_None. apply lookup_ge_None in E.
  rewrite <- (Forall2_length _ _ _ H). exact E.
Qed.

Lemma instanceOfHTMLElement_sameShape (doc doc' : DOM.Document) (h : nat) :
  sameShape doc doc' ->
  instanceOfHTMLElement doc h = instanceOfHTMLElement doc' h.
Proof.
  intros H. unfold instanceOfHTMLElement.
  destruct (doc !! h) as [e |] eqn:E.
  - destruct (Forall2_lookup_l _ _ _ _ _ H E) as (e' & E' & He). rewrite E'.
    unfold shape in He. congruence.
  - rewrite (sameShape_None _ _ _ H E). reflexivity.
Qed.

Lemma allResultsItemsOf_sameShape (doc doc' : DOM.Document) :
  sameShape doc doc' -> allResultsItemsOf doc = allResultsItemsOf doc'.
Proof.
  intros H. unfold allResultsItemsOf, DOM.querySelectorAll. cbv zeta.
  rewrite (matching_sameOn isContainer 0 doc doc')
    by (apply (sameShape_on (fun x => snd (fst (fst (fst (fst x)))))), H).
  rewrite (List.filter_ext _ _ (fun h => instanceOfHTMLElement_sameShape _ _ h H)).
  f_equal. apply flat_map_ext. intros h.
  destruct (doc !! h) as [e |] eqn:E.
  - destruct (Forall2_lookup_l _ _ _ _ _ H E) as (e' & E' & He). rewrite E'.
    assert (Hp : DOM.hasClass "predictive-search-results__wrapper-products" e
                 = DOM.hasClass "predictive-search-results__wrapper-products" e')
      by (unfold shape in He; congruence).
    rewrite Hp. unfold DOM.querySelectorAllIn.
    destruct (DOM.hasClass _ e'); apply matching_sameOn.
    + apply (sameShape_on (fun x => snd (fst (fst x)))), descendants_sameShape, H.
    + apply (sameShape_on (fun x => snd (fst x))), descendants_sameShape, H.
  - rewrite (sameShape_None _ _ _ H E). reflexivity.
Qed.

(** Every item is an element of the document. *)
Lemma allResultsItemsOf_bounds (doc : DOM.Document) (h : nat) :
  In h (allResultsItemsOf doc) -> (h < length doc)%nat.
Proof.
  unfold allResultsItemsOf. cbv zeta. rewrite List.filter_In, in_flat_map.
  intros ((c & _ & Hc) & _).
  destruct (doc !! c) as [e |] eqn:E; [| destruct Hc].
  assert (Hb : forall m, In h (DOM.querySelectorAllIn m doc c) -> (h < length doc)%nat).
  { intros m Hin. unfold DOM.querySelectorAllIn in Hin.
    apply matching_bounds in Hin. unfold DOM.descendants in Hin. rewrite E in Hin.
    pose proof (deeper_prefix (DOM.depth e) (drop (S c) doc)) as Hp.
    rewrite length_drop in Hp. apply lookup_lt_Some in E. lia. }
  destruct (DOM.hasClass _ e); eapply Hb; eauto.
Qed.

(** *** The setter keeps the shape of the document *)

Lemma sameShape_refl (doc : DOM.Document) : sameShape doc doc.
Proof. unfold sameShape. induction doc; constructor; auto. Qed.

Lemma sameShape_trans (a b c : DOM.Document) :
  sameShape a b -> sameShape b c -> sameShape a c.
Proof.
  unfold sameShape. intros H1 H2.
  eapply Forall2_trans; [| exact H1 | exact H2]. intros x y z. congruence.
Qed.

Lemma sameShape_alter (f : DOM.Element -> DOM.Element) (h : nat) (doc : DOM.Document) :
  (forall e, shape (f e) = shape e) -> sameShape (alter f h doc) doc.
Proof.
  intros Hf. apply Forall2_alter_l; [apply sameShape_refl |].
  intros x y _ _ <-. apply Hf.
Qed.

Lemma hasClass_removeClass (c k : string) (e : DOM.Element) :
  String.eqb c k = false ->
  DOM.hasClass c (DOM.removeClass k e) = DOM.hasClass c e.
Proof.
  intros Hck. unfold DOM.hasClass, DOM.removeClass. simpl.
  induction (DOM.classes e) as [| x cls IH]; simpl; auto.
  destruct (String.eqb_spec k x) as [-> | Hkx]; simpl.
  - rewrite Hck. simpl. exact IH.
  - rewrite IH. reflexivity.
Qed.

Lemma hasClass_addClass (c k : string) (e : DOM.Element) :
  String.eqb c k = false ->
  DOM.hasClass c (DOM.addClass k e) = DOM.hasClass c e.
Proof.
  intros Hck. unfold DOM.addClass. destruct (DOM.hasClass k e); auto.
  unfold DOM.hasClass. simpl. rewrite existsb_app. simpl. rewrite Hck.
  rewrite !orb_false_r. reflexivity.
Qed.

Lemma shape_removeClass (e : DOM.Element) :
  shape (DOM.removeClass "keyboard-focus" e) = shape e.
Proof.
  unfold shape, isContainer, isItemOrCard, isCard.
  rewrite !hasClass_removeClass by reflexivity. reflexivity.
Qed.

Lemma shape_addClass (e : DOM.Element) :
  shape (DOM.addClass "keyboard-focus" e) = shape e.
Proof.
  unfold shape, isContainer, isItemOrCard, isCard.
  rewrite !hasClass_addClass by reflexivity.
  unfold DOM.addClass. destruct (DOM.hasClass "keyboard-focus" e); reflexivity.
Qed.

Lemma shape_markItem (keyboard : bool) (index : Z) (j : nat) (e : DOM.Element) :
  shape (markItem keyboard index j e) = shape e.
Proof.
  unfold markItem. destruct (Z.of_nat j =? index); [| reflexivity].
  destruct keyboard; [rewrite shape_addClass |]; reflexivity.
Qed.

Lemma clearKeyboardFocus_sameShape (doc : DOM.Document) :
  sameShape (clearKeyboardFocus doc) doc.
Proof.
  unfold clearKeyboardFocus.
  generalize (allResultsItemsOf doc) as items. intros items.
  assert (H : forall d, sameShape d doc ->
            sameShape
              (fold_left (fun d item => alter (DOM.removeClass "keyboard-focus") item d)
                 items d) doc).
  { induction items as [| h items IH]; simpl; auto.
    intros d Hd. apply IH. eapply sameShape_trans; [| exact Hd].
    apply sameShape_alter, shape_removeClass. }
  apply H, sameShape_refl.
Qed.

Lemma markItems_sameShape (keyboard : bool) (index : Z) (items : list nat)
    (k : nat) (doc : DOM.Document) :
  sameShape (markItems keyboard index k items doc) doc.
Proof.
  revert k doc. induction items as [| h items IH]; intros k doc; simpl.
  - apply sameShape_refl.
  - eapply sameShape_trans; [apply IH |].
    apply sameShape_alter. intros e. apply shape_markItem.
Qed.

(** *** What the setter writes *)

Lemma markItems_outside (keyboard : bool) (index : Z) (items : list nat)
    (k : nat) (doc : DOM.Document) (h : nat) :
  ~ In h items ->
  markItems keyboard index k items doc !! h = doc !! h.
Proof.
  revert k doc. induction items as [| x items IH]; intros k doc Hn; simpl; auto.
  rewrite IH by (intros Hin; apply Hn; right; exact Hin).
  apply list_lookup_alter_ne. intros ->. apply Hn. left. reflexivity.
Qed.

(** With every item listed once, the entry [j] of the loop is the only
    one that writes the item [j]. *)
Lemma markItems_at (keyboard : bool) (index : Z) (items : list nat)
    (k : nat) (doc : DOM.Document) (j h : nat) :
  List.NoDup items ->
  items !! j = Some h ->
  markItems keyboard index k items doc !! h
  = markItem keyboard index (k + j) <$> doc !! h.
Proof.
  revert k doc j. induction items as [| x items IH]; intros k doc j Hnd Hj;
    [rewrite lookup_nil in Hj; discriminate |].
  inversion Hnd as [| ? ? Hx Hnd']; subst. simpl.
  destruct j as [| j]; simpl in Hj.
  - injection Hj as ->. rewrite markItems_outside by exact Hx.
    rewrite list_lookup_alter_eq. rewrite Nat.add_0_r. reflexivity.
  - rewrite (IH (S k) _ j Hnd' Hj).
    rewrite list_lookup_alter_ne.
    + f_equal. f_equal. lia.
    + intros ->. apply Hx. apply list_elem_of_In.
      eapply list_elem_of_lookup_2; eauto.
Qed.

Lemma isSelected_markItem (keyboard : bool) (index : Z) (j : nat)
    (doc : DOM.Document) (h : nat) (e : DOM.Element) :
  doc !! h = Some (markItem keyboard index j e) ->
  isSelected doc h = (Z.of_nat j =? index).
Proof.
  intros E. unfold isSelected. rewrite E. unfold markItem.
  destruct (Z.of_nat j =? index); [| reflexivity].
  destruct keyboard; [| reflexivity].
  unfold DOM.addClass. destruct (DOM.hasClass _ _); reflexivity.
Qed.

(** *** [findIndex] *)

Lemma findIndex_range {A : Type} (p : A -> bool) (l : list A) :
  -1 <= findIndex p l <= Z.of_nat (length l) - 1.
Proof.
  induction l as [| x l IH]; simpl; [lia |].
  destruct (p x); [lia |].
  destruct (Z.ltb_spec (findIndex p l) 0); lia.
Qed.

Lemma findIndex_none {A : Type} (p : A -> bool) (l : list A) :
  (forall x, In x l -> p x = false) -> findIndex p l = -1.
Proof.
  induction l as [| x l IH]; simpl; intros H; auto.
  rewrite (H x) by auto. rewrite IH by auto. reflexivity.
Qed.

(** When the item at position [j] satisfies [p] exactly if [k + j = i],
    [findIndex] finds [i - k], or nothing when [i] is out of range. *)
Lemma findIndex_unique {A : Type} (p : A -> bool) (l : list A) (k : nat) (i : Z) :
  (forall j x, l !! j = Some x -> p x = (Z.of_nat (k + j) =? i)) ->
  findIndex p l
  = if (Z.of_nat k <=? i) && (i <? Z.of_nat (k + length l))
    then i - Z.of_nat k else -1.
Proof.
  revert k. induction l as [| x l IH]; intros k H; simpl.
  - destruct (Z.leb_spec (Z.of_nat k) i), (Z.ltb_spec i (Z.of_nat (k + 0)));
      simpl; auto; lia.
  - rewrite (H 0%nat x) by reflexivity. rewrite Nat.add_0_r.
    destruct (Z.eqb_spec (Z.of_nat k) i) as [<- | Hne].
    + destruct (Z.leb_spec (Z.of_nat k) (Z.of_nat k)),
        (Z.ltb_spec (Z.of_nat k) (Z.of_nat (k + S (length l))));
        simpl; lia.
    + rewrite (IH (S k)).
      2:{ intros j y Hj. rewrite (H (S j) y) by exact Hj.
          f_equal. f_equal. lia. }
      destruct (Z.leb_spec (Z.of_nat (S k)) i),
        (Z.ltb_spec i (Z.of_nat (S k + length l)));
        destruct (Z.leb_spec (Z.of_nat k) i),
          (Z.ltb_spec i (Z.of_nat (k + S (length l))));
        simpl; try lia;
        destruct (Z.ltb_spec (i - Z.of_nat (S k)) 0); lia.
Qed.

(** *** Reading the index back *)

Lemma results_focusInput s : results (focusInput s) = results s.
Proof. frame. Qed.

Lemma results_set_currentIndex (i : Z) (s : State) :
  results (set_currentIndex i s)
  = match allResultsItems s with
    | [] => results s
    | _ :: _ =>
        markItems (isKeyboardNavigation s) i 0 (allResultsItems s)
          (clearKeyboardFocus (results s))
    end.
Proof.
  unfold set_currentIndex.
  destruct (allResultsItems s) as [| h l] eqn:E; [reflexivity |].
  rewrite results_focusInput. simpl.
  rewrite (allResultsItemsOf_sameShape _ _ (clearKeyboardFocus_sameShape (results s))).
  unfold allResultsItems in E. rewrite E. reflexivity.
Qed.

Lemma allResultsItems_set_currentIndex (i : Z) (s : State) :
  allResultsItems (set_currentIndex i s) = allResultsItems s.
Proof.
  unfold allResultsItems at 1. rewrite results_set_currentIndex.
  destruct (allResultsItems s) eqn:E; [exact E |].
  rewrite <- E. apply allResultsItemsOf_sameShape.
  eapply sameShape_trans; [apply markItems_sameShape |].
  apply clearKeyboardFocus_sameShape.
Qed.

(** With every item listed once, the getter reads back what the setter
    was given, or -1 for an index that is no position. *)
Lemma currentIndex_set_currentIndex (i : Z) (s : State) :
  List.NoDup (allResultsItems s) ->
  allResultsItems s <> [] ->
  currentIndex (set_currentIndex i s)
  = if (0 <=? i) && (i <? Z.of_nat (length (allResultsItems s))) then i else -1.
Proof.
  intros Hnd Hne. unfold currentIndex.
  rewrite allResultsItems_set_currentIndex, results_set_currentIndex.
  destruct (allResultsItems s) as [| h0 l0] eqn:E; [congruence |].
  rewrite <- E in *.
  rewrite (findIndex_unique _ _ 0%nat i).
  - simpl. rewrite Z.sub_0_r. reflexivity.
  - intros j x Hj.
    assert (Hx : (x < length (clearKeyboardFocus (results s)))%nat).
    { rewrite (Forall2_length _ _ _ (clearKeyboardFocus_sameShape (results s))).
      apply allResultsItemsOf_bounds. apply list_elem_of_In.
      eapply list_elem_of_lookup_2. exact Hj. }
    apply lookup_lt_is_Some_2 in Hx. destruct Hx as (e & He).
    eapply isSelected_markItem.
    rewrite (markItems_at _ _ _ 0%nat _ j x Hnd Hj), He. reflexivity.
Qed.

Lemma currentIndex_range (s : State) :
  -1 <= currentIndex s <= Z.of_nat (length (allResultsItems s)) - 1.
Proof. apply findIndex_range. Qed.

(** The keys that move the selection. *)
Lemma onSearchKeyDown_forward (key : string) (shiftKey : bool) (s : State) :
  (key = "ArrowDown" \/ (key = "Tab" /\ shiftKey = false)) ->
  allResultsItems s <> [] ->
  onSearchKeyDown key shiftKey s
  = set_currentIndex
      (if currentIndex s <? Z.of_nat (length (allResultsItems s)) - 1
       then currentIndex s + 1 else 0)
      (set_isKeyboardNavigation true s).
Proof.
  intros Hk Hne. unfold onSearchKeyDown.
  destruct (allResultsItems s) as [| h l] eqn:E; [congruence |].
  destruct Hk as [-> | (-> & ->)]; reflexivity.
Qed.

Lemma onSearchKeyDown_backward (key : string) (shiftKey : bool) (s : State) :
  (key = "ArrowUp" \/ (key = "Tab" /\ shiftKey = true)) ->
  allResultsItems s <> [] ->
  onSearchKeyDown key shiftKey s
  = set_currentIndex
      (if currentIndex s >? 0
       then currentIndex s - 1 else Z.of_nat (length (allResultsItems s)) - 1)
      (set_isKeyboardNavigation true s).
Proof.
  intros Hk Hne. unfold onSearchKeyDown.
  destruct (allResultsItems s) as [| h l] eqn:E; [congruence |].
  destruct Hk as [-> | (-> & ->)]; reflexivity.
Qed.

Lemma onSearchKeyDown_no_items (key : string) (shiftKey : bool) (s : State) :
  key <> "Escape" ->
  allResultsItems s = [] ->
  onSearchKeyDown key shiftKey s = s.
Proof.
  intros Hk E. unfold onSearchKeyDown.
  destruct (String.eqb_spec key "Escape"); [congruence |].
  rewrite E. reflexivity.
Qed.

(** *** A run of [resetSearch] *)

Lemma create_eq (s : State) :
  createAbortController s
  = (length (controllers s), snd (createAbortController s)).
Proof. reflexivity. Qed.

(** The controller just made is not aborted. *)
Lemma create_fresh (s : State) :
  tokenInv s ->
  aborted (length (controllers s)) (snd (createAbortController s)) = false.
Proof.
  intros [(Hc & Ha) | (older & last & Hc & Ha & Hall)];
    unfold createAbortController, aborted, abort; simpl; rewrite Ha, Hc; simpl.
  - reflexivity.
  - rewrite list_lookup_insert_ne by (rewrite length_app; simpl; lia).
    rewrite lookup_app_r by lia. rewrite Nat.sub_diag. reflexivity.
Qed.

Lemma respond_last (l : list Continuation) (c : Continuation) (r : Response)
    (t : State) :
  awaiting t = (l ++ [c])%list ->
  handle (Respond (length l) r) t = settle (resume c r (set_awaiting l t)).
Proof.
  intros E. simpl. rewrite E.
  rewrite lookup_app_r by lia. rewrite Nat.sub_diag. simpl.
  replace (delete (length l) (l ++ [c])%list) with l; [reflexivity |].
  rewrite delete_middle. rewrite app_nil_r. reflexivity.
Qed.

Lemma unsend (l : list Continuation) (r : Request) (c : Continuation) (t : State) :
  awaiting t = l ->
  set_awaiting l (send r c t) = set_requests (requests t ++ [r])%list t.
Proof. intros <-. destruct t. reflexivity. Qed.

Lemma awaiting_focusInput s : awaiting (focusInput s) = awaiting s.
Proof. frame. Qed.

Lemma awaiting_set_currentIndex i s : awaiting (set_currentIndex i s) = awaiting s.
Proof. frame. Qed.

Lemma awaiting_finish doc s :
  awaiting (resumePlaceholderAnimation
              (resetPlaceholderAnimation (syncDropdownState (morph doc s))))
  = awaiting s.
Proof. frame. Qed.

Lemma tokenInv_focusInput s : tokenInv s -> tokenInv (focusInput s).
Proof. apply tokenInv_ext, tokens_focusInput. Qed.

Lemma tokenInv_set_currentIndex i s : tokenInv s -> tokenInv (set_currentIndex i s).
Proof. apply tokenInv_ext, tokens_set_currentIndex. Qed.

Lemma lookup_end {A : Type} (l : list A) : l !! length l = None.
Proof. apply lookup_ge_None. lia. Qed.

#[local] Arguments handle : simpl never.

Lemma resetSearchRun_straight (keepFocus : bool) (r1 r2 : Response) (s : State) :
  tokenInv s ->
  resetSearchRun keepFocus r1 r2 s = resetSearchStraight keepFocus r1 r2 s.
Proof.
  intros Hinv.
  unfold resetSearchRun, resetSearchStraight, resetSearchRest, resetSearchStart,
    resetSearchFinish.
  cbv zeta.
  change (handle (ResetSearch keepFocus) s) with (resetSearch keepFocus s).
  unfold resetSearch, resetSearchBegin.
  set (s0 := if keepFocus then focusInput s else s).
  set (s1 := hideResetButton (set_inputValue "" (set_currentIndex (-1) s0))).
  assert (Hinv1 : tokenInv s1).
  { subst s1 s0. apply (tokenInv_ext (set_currentIndex (-1)
                                        (if keepFocus then focusInput s else s)));
      [reflexivity |].
    apply tokenInv_set_currentIndex. destruct keepFocus; auto using tokenInv_focusInput. }
  assert (Haw1 : awaiting s1 = awaiting s).
  { subst s1 s0. simpl. rewrite awaiting_set_currentIndex.
    destruct keepFocus; auto using awaiting_focusInput. }
  clearbody s1. clear s0.
  rewrite (create_eq s1). cbv beta iota.
  pose proof (create_fresh s1 Hinv1) as Hfresh.
  set (tok := length (controllers s1)) in *.
  assert (Haw2 : awaiting (snd (createAbortController s1)) = awaiting s)
    by (rewrite <- Haw1; unfold createAbortController, abort; simpl;
        destruct (activeFetch s1); reflexivity).
  set (s2 := snd (createAbortController s1)) in *.
  clearbody s2 tok.
  rewrite (respond_last (awaiting s) (AwaitEmptySection tok) r1
             (send EmptySectionRequest (AwaitEmptySection tok) s2))
    by (simpl; congruence).
  rewrite (unsend _ _ _ _ Haw2). cbn [snd].
  set (s3 := set_requests (requests s2 ++ [EmptySectionRequest])%list s2).
  assert (Haw3 : awaiting s3 = awaiting s) by exact Haw2.
  assert (Hfresh3 : aborted tok s3 = false) by exact Hfresh.
  clearbody s3.
  destruct r1 as [m1 | e]; simpl.
  2:{ rewrite Haw3, lookup_end. reflexivity. }
  unfold emptySectionArrived.
  destruct (DOM.querySelector _ (parsed m1)) as [h |]; simpl.
  2:{ rewrite Haw3, lookup_end. reflexivity. }
  destruct (viewedProducts s3) as [| v vs] eqn:Ev; simpl.
  { unfold resetSearchApply. rewrite Hfresh3.
    rewrite awaiting_finish, Haw3, lookup_end. reflexivity. }
  destruct (negb (sectionIdTruthy s3)); simpl.
  { rewrite Haw3, lookup_end. reflexivity. }
  rewrite Haw3. rewrite lookup_app_r by lia. rewrite Nat.sub_diag. simpl.
  rewrite (respond_last (awaiting s) _ r2) by (simpl; rewrite Haw3; reflexivity).
  rewrite (unsend _ _ _ _ Haw3).
  destruct r2 as [m2 | e]; simpl; [| reflexivity].
  unfold recentlyViewedArrived.
  destruct (negb (JS.truthy (text m2))); [reflexivity |].
  unfold resetSearchApply.
  replace (aborted tok (set_requests _ s3)) with (aborted tok s3) by reflexivity.
  rewrite Hfresh3. reflexivity.
Qed.

(** *** Clearing the selection twice *)

Lemma alterAll_lookup (g : DOM.Element -> DOM.Element) (items : list nat)
    (doc : DOM.Document) (h : nat) :
  (forall e, g (g e) = g e) ->
  fold_left (fun d item => alter g item d) items doc !! h
  = if bool_decide (h ∈ items) then g <$> doc !! h else doc !! h.
Proof.
  intros Hg. revert doc.
  induction items as [| x items IH]; intros doc; cbn [fold_left].
  - rewrite bool_decide_eq_false_2 by apply not_elem_of_nil. reflexivity.
  - rewrite IH. destruct (decide (x = h)) as [-> | Hne].
    + rewrite list_lookup_alter_eq.
      rewrite (bool_decide_eq_true_2 (h ∈ h :: items))
        by (apply elem_of_cons; auto).
      destruct (bool_decide (h ∈ items)); [| reflexivity].
      destruct (doc !! h); simpl; [rewrite Hg |]; reflexivity.
    + rewrite list_lookup_alter_ne by exact Hne.
      destruct (decide (h ∈ items)) as [Hin | Hnin].
      * rewrite !bool_decide_eq_true_2; auto. apply elem_of_cons. auto.
      * rewrite !bool_decide_eq_false_2; auto.
        rewrite elem_of_cons. intros [-> | ?]; auto.
Qed.

Lemma markItems_none (keyboard : bool) (items : list nat) (k : nat)
    (doc : DOM.Document) :
  markItems keyboard (-1) k items doc
  = fold_left (fun d item => alter (DOM.setAriaSelected None) item d) items doc.
Proof.
  revert k doc. induction items as [| x items IH]; intros k doc; simpl; auto.
  rewrite IH. f_equal. apply list_alter_ext; auto.
  intros e _. unfold markItem.
  destruct (Z.eqb_spec (Z.of_nat k) (-1)); [lia | reflexivity].
Qed.

Lemma removeClass_idem (c : string) (e : DOM.Element) :
  DOM.removeClass c (DOM.removeClass c e) = DOM.removeClass c e.
Proof.
  unfold DOM.removeClass. simpl. f_equal.
  induction (DOM.classes e) as [| x cls IH]; simpl; auto.
  destruct (negb (String.eqb c x)) eqn:E; simpl; rewrite ?E, IH; reflexivity.
Qed.

Lemma cleared_idem (e : DOM.Element) : cleared (cleared e) = cleared e.
Proof.
  unfold cleared.
  change (DOM.removeClass "keyboard-focus" (DOM.setAriaSelected None ?x))
    with (DOM.setAriaSelected None (DOM.removeClass "keyboard-focus" x)).
  rewrite removeClass_idem. reflexivity.
Qed.

Lemma results_unselect_lookup (s : State) (h : nat) :
  results (set_currentIndex (-1) s) !! h
  = if bool_decide (h ∈ allResultsItems s)
    then cleared <$> results s !! h else results s !! h.
Proof.
  rewrite results_set_currentIndex.
  destruct (allResultsItems s) as [| x l] eqn:E.
  - rewrite bool_decide_eq_false_2 by apply not_elem_of_nil. reflexivity.
  - rewrite <- E. rewrite markItems_none.
    rewrite alterAll_lookup by reflexivity.
    unfold clearKeyboardFocus. fold (allResultsItems s).
    rewrite alterAll_lookup by apply removeClass_idem.
    destruct (bool_decide (h ∈ allResultsItems s)); [| reflexivity].
    destruct (results s !! h); reflexivity.
Qed.

(** Clearing the selection of results that were just cleared changes
    nothing. *)
Lemma results_unselect_twice (s t : State) :
  results t = results (set_currentIndex (-1) s) ->
  results (set_currentIndex (-1) t) = results t.
Proof.
  intros E. apply list_eq. intros h.
  rewrite results_unselect_lookup.
  assert (Hitems : allResultsItems t = allResultsItems s)
    by (unfold allResultsItems at 1; rewrite E;
        apply allResultsItems_set_currentIndex).
  rewrite Hitems, E, results_unselect_lookup.
  destruct (bool_decide (h ∈ allResultsItems s)); [| reflexivity].
  destruct (results s !! h); simpl; [rewrite cleared_idem |]; reflexivity.
Qed.

(** *** Running [resetSearch] twice *)

(** [focus()] gives the focus to an input that can take it. *)
Lemma focusInput_focused s :
  inputFocusable s = true \/ inputFocused s = true ->
  inputFocused (focusInput s) = true.
Proof.
  unfold focusInput. destruct (inputFocused s) eqn:E; auto.
  intros [-> | H]; [frame | discriminate].
Qed.

(** On an input that cannot take the focus, [focus()] does nothing. *)
Lemma focusInput_refused s : inputFocusable s = false -> focusInput s = s.
Proof. unfold focusInput. intros ->. destruct (inputFocused s); reflexivity. Qed.

Lemma focusInput_id s : inputFocused s = true -> focusInput s = s.
Proof. unfold focusInput. intros ->. reflexivity. Qed.

Lemma set_currentIndex_focused i s :
  inputFocused s = true -> inputFocused (set_currentIndex i s) = true.
Proof.
  intros H. unfold set_currentIndex. destruct (allResultsItems s); auto.
  rewrite focusInput_id; auto.
Qed.

Lemma set_currentIndex_engine i s :
  inputFocused s = true -> engineOf (set_currentIndex i s) = engineOf s.
Proof.
  intros H. unfold set_currentIndex. destruct (allResultsItems s); auto.
  rewrite focusInput_id; auto.
Qed.

Lemma results_unselect_focusInput s :
  results (set_currentIndex (-1) (focusInput s))
  = results (set_currentIndex (-1) s).
Proof.
  rewrite !results_set_currentIndex.
  assert (H1 : results (focusInput s) = results s) by apply results_focusInput.
  assert (H2 : isKeyboardNavigation (focusInput s) = isKeyboardNavigation s)
    by frame.
  unfold allResultsItems. rewrite H1, H2. reflexivity.
Qed.

Lemma settings_create (s : State) :
  settingsOf (snd (createAbortController s)) = settingsOf s
  /\ results (snd (createAbortController s)) = results s
  /\ engineOf (snd (createAbortController s)) = engineOf s.
Proof.
  unfold createAbortController, abort. simpl.
  destruct (activeFetch s); repeat split.
Qed.

Lemma settings_focusInput (s : State) :
  viewedProducts (focusInput s) = viewedProducts s
  /\ sectionId (focusInput s) = sectionId s
  /\ reducedMotion (focusInput s) = reducedMotion s
  /\ placeholderPrefix (focusInput s) = placeholderPrefix s.
Proof. repeat split; frame. Qed.

Lemma settings_set_currentIndex (i : Z) (s : State) :
  viewedProducts (set_currentIndex i s) = viewedProducts s
  /\ sectionId (set_currentIndex i s) = sectionId s
  /\ reducedMotion (set_currentIndex i s) = reducedMotion s
  /\ placeholderPrefix (set_currentIndex i s) = placeholderPrefix s.
Proof.
  unfold set_currentIndex. destruct (allResultsItems s); [repeat split |].
  destruct (settings_focusInput
              (set_results
                 (markItems (isKeyboardNavigation s) i 0
                    (allResultsItemsOf (clearKeyboardFocus (results s)))
                    (clearKeyboardFocus (results s))) s)) as (H1 & H2 & H3 & H4).
  rewrite H1, H2, H3, H4. repeat split.
Qed.

(** What the first part of a run leaves. *)
Lemma resetSearchStart_fields (keepFocus : bool) (s : State) :
  let s0 := if keepFocus then focusInput s else s in
  let t := resetSearchStart keepFocus s in
  results t = results (set_currentIndex (-1) s)
  /\ inputValue t = ""
  /\ resetButtonHidden t = true
  /\ viewedProducts t = viewedProducts s
  /\ sectionId t = sectionId s
  /\ reducedMotion t = reducedMotion s
  /\ placeholderPrefix t = placeholderPrefix s
  /\ engineOf t = engineOf (set_currentIndex (-1) s0)
  /\ inputFocused t = inputFocused (set_currentIndex (-1) s0).
Proof.
  intros s0 t. subst t. unfold resetSearchStart. fold s0.
  set (s1 := set_currentIndex (-1) s0).
  set (s2 := hideResetButton (set_inputValue "" s1)).
  destruct (settings_create s2) as (Hs & Hr & He).
  destruct (settings_set_currentIndex (-1) s0) as (Hv1 & Hv2 & Hv3 & Hv4).
  fold s1 in Hv1, Hv2, Hv3, Hv4.
  assert (Hv0 : viewedProducts s0 = viewedProducts s
                /\ sectionId s0 = sectionId s
                /\ reducedMotion s0 = reducedMotion s
                /\ placeholderPrefix s0 = placeholderPrefix s)
    by (subst s0; destruct keepFocus; auto using settings_focusInput).
  destruct Hv0 as (Hw1 & Hw2 & Hw3 & Hw4).
  assert (Hr1 : results s1 = results (set_currentIndex (-1) s))
    by (subst s1 s0; destruct keepFocus; auto using results_unselect_focusInput).
  revert Hs Hr He. generalize (snd (createAbortController s2)).
  intros t' Hs Hr He. unfold settingsOf in Hs.
  injection Hs as Hs1 Hs2 Hs3 Hs4 Hs5 Hs6 Hs7.
  change (results t' = results (set_currentIndex (-1) s)
          /\ inputValue t' = ""
          /\ resetButtonHidden t' = true
          /\ viewedProducts t' = viewedProducts s
          /\ sectionId t' = sectionId s
          /\ reducedMotion t' = reducedMotion s
          /\ placeholderPrefix t' = placeholderPrefix s
          /\ engineOf t' = engineOf s1
          /\ inputFocused t' = inputFocused s1).
  rewrite Hr, Hs1, Hs2, Hs3, Hs4, Hs5, Hs6, Hs7, He.
  subst s2. cbn [results inputValue resetButtonHidden viewedProducts sectionId
                   reducedMotion inputFocused placeholderPrefix hideResetButton
                   set_resetButtonHidden set_inputValue].
  rewrite Hv1, Hv2, Hv3, Hv4, Hw1, Hw2, Hw3, Hw4, Hr1. repeat split.
Qed.

(** The end of a run reads the engine, the prefix, the value, the focus
    and the motion preference, and nothing else. *)
Lemma finish_engine_congr (x y : State) :
  engineOf x = engineOf y ->
  placeholderPrefix x = placeholderPrefix y ->
  inputValue x = inputValue y ->
  inputFocused x = inputFocused y ->
  reducedMotion x = reducedMotion y ->
  engineOf (resumePlaceholderAnimation (resetPlaceholderAnimation x))
  = engineOf (resumePlaceholderAnimation (resetPlaceholderAnimation y)).
Proof.
  destruct x, y. unfold engineOf. simpl. intros E -> -> -> ->.
  injection E as -> -> -> -> -> -> -> ->.
  unfold resumePlaceholderAnimation, resetPlaceholderAnimation,
    advancePlaceholder, pausePlaceholderAnimation, stopPlaceholderAnimation,
    shouldAnimatePlaceholder, buildPlaceholder; simpl.
  split_ifs; reflexivity.
Qed.

Lemma resetSearchFinish_fields (doc : DOM.Document) (t : State) :
  settingsOf (resetSearchFinish doc t) = settingsOf t
  /\ results (resetSearchFinish doc t) = doc
  /\ engineOf (resetSearchFinish doc t)
     = engineOf (resumePlaceholderAnimation (resetPlaceholderAnimation t)).
Proof.
  unfold resetSearchFinish. repeat split.
  - unfold settingsOf. frame.
  - frame.
  - apply finish_engine_congr; reflexivity.
Qed.

(** What the rest of a run leaves. *)
Lemma resetSearchRest_fields (r1 r2 : Response) (t : State) :
  let u := resetSearchRest r1 r2 t in
  settingsOf u = settingsOf t
  /\ match emptyState r1 r2 (viewedProducts t) (sectionIdTruthy t) with
     | Some fragment =>
         results u = fragment
         /\ engineOf u
            = engineOf (resumePlaceholderAnimation (resetPlaceholderAnimation t))
     | None => results u = results t /\ engineOf u = engineOf t
     end.
Proof.
  unfold resetSearchRest, emptyState.
  destruct r1 as [m1 | e]; [| repeat split].
  destruct (DOM.querySelector _ (parsed m1)); [| repeat split].
  cbv zeta.
  destruct (viewedProducts t) as [| v vs] eqn:Ev.
  { destruct (resetSearchFinish_fields (DOM.subtree (parsed m1) n) t)
      as (H1 & H2 & H3). auto. }
  destruct (negb (sectionIdTruthy t)); [repeat split |].
  destruct r2 as [m2 | e]; [| unfold settingsOf; simpl; rewrite Ev; repeat split].
  destruct (negb (JS.truthy (text m2)));
    [unfold settingsOf; simpl; rewrite Ev; repeat split |].
  match goal with
  | |- context [resetSearchFinish ?d ?x] =>
      destruct (resetSearchFinish_fields d x) as (H1 & H2 & H3)
  end.
  rewrite H1, H2, H3. unfold settingsOf. simpl. rewrite Ev. repeat split.
  apply finish_engine_congr; reflexivity.
Qed.

(** With the focus in the input and no value, the end of a run leaves
    the engine paused (or, under reduced motion, only with its counters
    at rest), and a second end changes nothing. *)
Lemma finish_focused_idem (x y : State) :
  inputFocused x = true ->
  inputValue x = "" ->
  settingsOf y = settingsOf x ->
  engineOf y = engineOf (resumePlaceholderAnimation (resetPlaceholderAnimation x)) ->
  engineOf (resumePlaceholderAnimation (resetPlaceholderAnimation y)) = engineOf y.
Proof.
  destruct x, y. unfold settingsOf, engineOf. simpl. intros -> -> E.
  injection E as -> -> -> -> -> -> ->.
  unfold resumePlaceholderAnimation, resetPlaceholderAnimation,
    advancePlaceholder, pausePlaceholderAnimation, stopPlaceholderAnimation,
    shouldAnimatePlaceholder, buildPlaceholder; simpl.
  destruct reducedMotion0; simpl.
  - intros E. injection E as -> -> -> -> -> -> -> ->. reflexivity.
  - destruct (JS.handleTruthy placeholderTimeout0) eqn:Ht;
      [destruct placeholderTimeout0; [| discriminate] |]; simpl;
      intros E; injection E as -> -> -> -> -> -> -> ->; simpl;
      try reflexivity.
    destruct placeholderTimeout0 as [[| h] |]; try discriminate; reflexivity.
Qed.

Lemma currentIndex_results (s t : State) :
  results s = results t -> currentIndex s = currentIndex t.
Proof. unfold currentIndex, allResultsItems. intros ->. reflexivity. Qed.

(** A second run of [resetSearch], read straight through. *)
Lemma resetSearchStraight_twice (keepFocus : bool) (r1 r2 : Response) (s : State) :
  let once := resetSearchStraight keepFocus r1 r2 s in
  let twice := resetSearchStraight keepFocus r1 r2 once in
  results twice = results once
  /\ inputValue twice = inputValue once
  /\ resetButtonHidden twice = resetButtonHidden once
  /\ currentIndex twice = currentIndex once
  /\ (inputFocused once = true -> engineOf twice = engineOf once).
Proof.
  intros once twice. subst once twice. unfold resetSearchStraight.
  set (t1 := resetSearchStart keepFocus s).
  set (u1 := resetSearchRest r1 r2 t1).
  set (t2 := resetSearchStart keepFocus u1).
  set (u2 := resetSearchRest r1 r2 t2).
  destruct (resetSearchStart_fields keepFocus s)
    as (Hr1 & Hv1 & Hh1 & Hp1 & Hs1 & Hm1 & Hx1 & He1 & Hf1).
  destruct (resetSearchStart_fields keepFocus u1)
    as (Hr2 & Hv2 & Hh2 & Hp2 & Hs2 & Hm2 & Hx2 & He2 & Hf2).
  cbv zeta in *. fold t1 in Hr1, Hv1, Hh1, Hp1, Hs1, Hm1, Hx1, He1, Hf1.
  fold t2 in Hr2, Hv2, Hh2, Hp2, Hs2, Hm2, Hx2, He2, Hf2.
  destruct (resetSearchRest_fields r1 r2 t1) as (Hset1 & Hres1).
  destruct (resetSearchRest_fields r1 r2 t2) as (Hset2 & Hres2).
  cbv zeta in *. fold u1 in Hset1, Hres1. fold u2 in Hset2, Hres2.
  clearbody u2 t2 u1 t1.
  unfold settingsOf in Hset1, Hset2.
  injection Hset1 as Ha1 Ha2 Ha3 Ha4 Ha5 Ha6 Ha7.
  injection Hset2 as Hb1 Hb2 Hb3 Hb4 Hb5 Hb6 Hb7.
  assert (Hsame : emptyState r1 r2 (viewedProducts t2) (sectionIdTruthy t2)
                  = emptyState r1 r2 (viewedProducts t1) (sectionIdTruthy t1)).
  { unfold sectionIdTruthy. rewrite Hp2, Hs2, Ha3, Ha4. reflexivity. }
  rewrite Hsame in Hres2.
  assert (Hres : results u2 = results u1).
  { destruct (emptyState r1 r2 (viewedProducts t1) (sectionIdTruthy t1)).
    - destruct Hres1 as (-> & _), Hres2 as (-> & _). reflexivity.
    - destruct Hres1 as (Hu1 & _), Hres2 as (Hu2 & _).
      rewrite Hu2, Hr2. apply (results_unselect_twice s).
      rewrite Hu1. exact Hr1. }
  repeat split.
  - exact Hres.
  - congruence.
  - congruence.
  - apply currentIndex_results, Hres.
  - intros Hfocu.
    assert (Hfoc1 : inputFocused t1 = true) by congruence.
    assert (Hid : (if keepFocus then focusInput u1 else u1) = u1)
      by (destruct keepFocus; auto using focusInput_id).
    rewrite Hid in He2, Hf2.
    assert (He2' : engineOf t2 = engineOf u1).
    { rewrite He2. apply set_currentIndex_engine, Hfocu. }
    destruct (emptyState r1 r2 (viewedProducts t1) (sectionIdTruthy t1)).
    + destruct Hres1 as (_ & Hg1), Hres2 as (_ & Hg2).
      rewrite Hg2, <- He2'. apply (finish_focused_idem t1 t2); auto.
      * unfold settingsOf.
        rewrite Hv2, Hh2, Hp2, Hs2, Hm2, Hx2, Hf2, Hv1, Hh1.
        rewrite (set_currentIndex_focused (-1) u1 Hfocu).
        rewrite Ha3, Ha4, Ha5, Ha7, Hfoc1. reflexivity.
      * rewrite He2'. exact Hg1.
    + destruct Hres1 as (_ & Hg1), Hres2 as (_ & Hg2). congruence.
Qed.

(** *** What the engine shows after two runs *)

Lemma shownOf_engineOf (x y : State) : engineOf x = engineOf y -> shownOf x = shownOf y.
Proof.
  unfold engineOf, shownOf. intros E. injection E as -> _ _ _ -> -> -> ->.
  reflexivity.
Qed.

Lemma focusable_focusInput s : inputFocusable (focusInput s) = inputFocusable s.
Proof. frame. Qed.

Lemma focusable_set_currentIndex i s :
  inputFocusable (set_currentIndex i s) = inputFocusable s.
Proof. frame. Qed.

Lemma focusable_resetSearchStart k s :
  inputFocusable (resetSearchStart k s) = inputFocusable s.
Proof.
  unfold resetSearchStart, createAbortController, abort. cbv zeta.
  set (s0 := if k then focusInput s else s).
  assert (H0 : inputFocusable s0 = inputFocusable s)
    by (subst s0; destruct k; auto using focusable_focusInput).
  rewrite <- H0, <- (focusable_set_currentIndex (-1) s0).
  generalize (set_currentIndex (-1) s0). intros s1. simpl.
  destruct (activeFetch s1); reflexivity.
Qed.

Lemma focusable_resetSearchRest r1 r2 s :
  inputFocusable (resetSearchRest r1 r2 s) = inputFocusable s.
Proof.
  unfold resetSearchRest, resetSearchFinish. frame.
Qed.

(** On an input that has the focus or cannot take it, the setter of the
    index leaves the engine and the focus alone. *)
Lemma set_currentIndex_settled i s :
  inputFocused s = true \/ inputFocusable s = false ->
  engineOf (set_currentIndex i s) = engineOf s
  /\ inputFocused (set_currentIndex i s) = inputFocused s.
Proof.
  intros H. unfold set_currentIndex. destruct (allResultsItems s); [auto |].
  unfold focusInput. simpl.
  destruct H as [H | H]; rewrite H; [| destruct (inputFocused s) eqn:E];
    split; simpl; auto.
Qed.

Lemma focusInput_settled s :
  inputFocused s = true \/ inputFocusable s = false -> focusInput s = s.
Proof. intros [H | H]; auto using focusInput_id, focusInput_refused. Qed.

(** After [focus()] the input has the focus or cannot take it. *)
Lemma focusInput_settles s :
  inputFocused (focusInput s) = true \/ inputFocusable (focusInput s) = false.
Proof.
  rewrite focusable_focusInput.
  destruct (inputFocusable s) eqn:E; [left | right; reflexivity].
  apply focusInput_focused. auto.
Qed.

Lemma truthy_nextHandle (t : Timers) :
  (1 <= nextHandle t)%nat -> JS.handleTruthy (Some (nextHandle t)) = true.
Proof. destruct (nextHandle t); [lia | reflexivity]. Qed.

(** The end of a run, run again on what it left: the counters are reset,
    and what the engine shows and waits for stays. *)
Lemma finish_shown_idem (x y : State) :
  (1 <= nextHandle (timers x))%nat ->
  inputValue x = "" ->
  settingsOf y = settingsOf x ->
  engineOf y = engineOf (resumePlaceholderAnimation (resetPlaceholderAnimation x)) ->
  shownOf (resumePlaceholderAnimation (resetPlaceholderAnimation y)) = shownOf y.
Proof.
  destruct x, y. unfold settingsOf, engineOf, shownOf. simpl. intros Hn -> E.
  injection E as -> -> -> -> -> -> ->.
  pose proof (truthy_nextHandle timers0 Hn) as Hh.
  unfold resumePlaceholderAnimation, resetPlaceholderAnimation,
    advancePlaceholder, pausePlaceholderAnimation, stopPlaceholderAnimation,
    shouldAnimatePlaceholder, buildPlaceholder; simpl.
  destruct reducedMotion0; simpl.
  - intros E. injection E as -> -> -> -> -> -> -> ->. reflexivity.
  - destruct (negb _) eqn:Ea; simpl.
    + destruct (JS.handleTruthy placeholderTimeout0) eqn:Ht;
        [destruct placeholderTimeout0; [| discriminate] |]; simpl;
        intros E; injection E as -> -> -> -> -> -> -> ->; simpl;
        rewrite ?Ea; simpl; try reflexivity.
      rewrite Ht. reflexivity.
    + destruct (JS.handleTruthy placeholderTimeout0) eqn:Ht; simpl.
      * intros E; injection E as -> -> -> -> -> -> -> ->; simpl.
        rewrite Ea, Ht. reflexivity.
      * match goal with
        | |- context [if ?b then _ else _] => destruct b
        end; simpl;
          intros E; injection E as -> -> -> -> -> -> -> ->; simpl;
          rewrite Ea; simpl; simpl in Hh; rewrite Hh; reflexivity.
Qed.

Lemma nextHandle_engineOf (x y : State) :
  engineOf x = engineOf y -> nextHandle (timers x) = nextHandle (timers y).
Proof. unfold engineOf. intros E. injection E as _ _ _ _ _ -> _ _. reflexivity. Qed.

(** A second run of [resetSearch()], read straight through: what the
    engine shows and waits for is what the first run left, and the input
    has the focus whenever it could take it. *)
Lemma resetSearchStraight_shown (r1 r2 : Response) (s : State) :
  engineInv s ->
  let once := resetSearchStraight true r1 r2 s in
  let twice := resetSearchStraight true r1 r2 once in
  shownOf twice = shownOf once
  /\ (inputFocusable s = true \/ inputFocused s = true ->
      inputFocused once = true).
Proof.
  intros Hinv once twice. subst once twice. unfold resetSearchStraight.
  set (t1 := resetSearchStart true s).
  set (u1 := resetSearchRest r1 r2 t1).
  set (t2 := resetSearchStart true u1).
  set (u2 := resetSearchRest r1 r2 t2).
  destruct (resetSearchStart_fields true s)
    as (Hr1 & Hv1 & Hh1 & Hp1 & Hs1 & Hm1 & Hx1 & He1 & Hf1).
  destruct (resetSearchStart_fields true u1)
    as (Hr2 & Hv2 & Hh2 & Hp2 & Hs2 & Hm2 & Hx2 & He2 & Hf2).
  cbv zeta in *. fold t1 in Hr1, Hv1, Hh1, Hp1, Hs1, Hm1, Hx1, He1, Hf1.
  fold t2 in Hr2, Hv2, Hh2, Hp2, Hs2, Hm2, Hx2, He2, Hf2.
  destruct (resetSearchRest_fields r1 r2 t1) as (Hset1 & Hres1).
  destruct (resetSearchRest_fields r1 r2 t2) as (Hset2 & Hres2).
  cbv zeta in *. fold u1 in Hset1, Hres1. fold u2 in Hset2, Hres2.
  assert (Hable1 : inputFocusable u1 = inputFocusable (focusInput s)).
  { subst u1 t1. rewrite focusable_resetSearchRest, focusable_resetSearchStart.
    symmetry. apply focusable_focusInput. }
  destruct (set_currentIndex_settled (-1) (focusInput s) (focusInput_settles s))
    as (Hk1 & Hk2).
  assert (Hn : (1 <= nextHandle (timers t1))%nat).
  { rewrite (nextHandle_engineOf _ _ He1).
    apply (engineInv_set_currentIndex (-1)), engineInv_focusInput, Hinv. }
  clearbody u2 t2 u1 t1.
  unfold settingsOf in Hset1, Hset2.
  injection Hset1 as Ha1 Ha2 Ha3 Ha4 Ha5 Ha6 Ha7.
  injection Hset2 as Hb1 Hb2 Hb3 Hb4 Hb5 Hb6 Hb7.
  assert (Hfoc1 : inputFocused u1 = inputFocused (focusInput s)) by congruence.
  assert (Hsettled : inputFocused u1 = true \/ inputFocusable u1 = false)
    by (rewrite Hfoc1, Hable1; apply focusInput_settles).
  rewrite (focusInput_settled u1 Hsettled) in He2, Hf2.
  destruct (set_currentIndex_settled (-1) u1 Hsettled) as (Hk3 & Hk4).
  rewrite Hk3 in He2. rewrite Hk4 in Hf2.
  split.
  - assert (Hsame : emptyState r1 r2 (viewedProducts t2) (sectionIdTruthy t2)
                    = emptyState r1 r2 (viewedProducts t1) (sectionIdTruthy t1)).
    { unfold sectionIdTruthy. rewrite Hp2, Hs2, Ha3, Ha4. reflexivity. }
    rewrite Hsame in Hres2.
    destruct (emptyState r1 r2 (viewedProducts t1) (sectionIdTruthy t1)).
    + destruct Hres1 as (_ & Hg1), Hres2 as (_ & Hg2).
      rewrite (shownOf_engineOf _ _ Hg2), <- (shownOf_engineOf _ _ He2).
      apply (finish_shown_idem t1 t2); auto.
      * unfold settingsOf.
        rewrite Hv2, Hh2, Hp2, Hs2, Hm2, Hx2, Hf2, Hv1, Hh1.
        rewrite Ha3, Ha4, Ha5, Ha6, Ha7. reflexivity.
      * rewrite He2. exact Hg1.
    + destruct Hres1 as (_ & Hg1), Hres2 as (_ & Hg2).
      apply shownOf_engineOf. congruence.
  - intros H. rewrite Hfoc1. apply focusInput_focused. exact H.
Qed.

(** *** A cycle of the placeholder *)

Lemma animating_steps (n : nat) (s : State) : animating s -> animating (steps n s).
Proof.
  revert s. induction n as [| n IH]; simpl; intros s H; auto.
  apply IH, animating_advance, H.
Qed.

Lemma steps_add (n m : nat) (s : State) :
  steps (n + m) s = steps m (steps n s).
Proof. revert s. induction n as [| n IH]; simpl; intros; auto. Qed.

Lemma steps_eligible (n : nat) (s : State) :
  shouldAnimatePlaceholder (steps n s) = shouldAnimatePlaceholder s.
Proof.
  revert s. induction n as [| n IH]; simpl; intros s; auto.
  rewrite IH. apply advance_eligible.
Qed.

Lemma typing_phase (k : nat) (s : State) :
  animating s ->
  shouldAnimatePlaceholder s = true ->
  placeholderIsDeleting s = false ->
  JS.len (currentCategory s) - placeholderCharIndex s = Z.of_nat (S k) ->
  let s' := steps (S k) s in
  placeholderIsDeleting s' = true
  /\ placeholderCharIndex s' = JS.len (currentCategory s)
  /\ placeholderIndex s' = placeholderIndex s
  /\ placeholderCategories s' = placeholderCategories s.
Proof.
  revert s. induction k as [| k IH]; intros s Ha He Hd Hk.
  - simpl. destruct (advance_typing s He Hd) as (Hc' & Hi' & Hd').
    destruct (advance_fields s) as (Hcat & _).
    rewrite Hd', Hc', Hi', Hcat.
    split; [apply Z.geb_le; lia |]. repeat split; auto; lia.
  - assert (Ha' := animating_advance s Ha).
    destruct (advance_typing s He Hd) as (Hc' & Hi' & Hd').
    destruct (advance_fields s) as (Hcat & _).
    assert (Hcur : currentCategory (advancePlaceholder s) = currentCategory s)
      by (unfold currentCategory; rewrite Hcat, Hi'; reflexivity).
    assert (Hd'' : placeholderIsDeleting (advancePlaceholder s) = false).
    { rewrite Hd'.
      destruct (Z.geb_spec (placeholderCharIndex s + 1)
                  (JS.len (currentCategory s))); auto; lia. }
    assert (He' : shouldAnimatePlaceholder (advancePlaceholder s) = true)
      by (rewrite advance_eligible; exact He).
    specialize (IH (advancePlaceholder s) Ha' He' Hd''
                  ltac:(rewrite Hcur, Hc'; lia)).
    change (steps (S (S k)) s) with (steps (S k) (advancePlaceholder s)).
    simpl in IH |- *. rewrite Hcur, Hi', Hcat in IH. exact IH.
Qed.

Lemma deleting_phase (k : nat) (s : State) :
  animating s ->
  shouldAnimatePlaceholder s = true ->
  placeholderIsDeleting s = true ->
  placeholderCharIndex s = Z.of_nat (S k) ->
  let s' := steps (S k) s in
  placeholderIsDeleting s' = false
  /\ placeholderCharIndex s' = 0
  /\ placeholderIndex s'
     = (placeholderIndex s + 1) mod Z.of_nat (length (placeholderCategories s))
  /\ placeholderCategories s' = placeholderCategories s.
Proof.
  revert s. induction k as [| k IH]; intros s Ha He Hd Hk.
  - simpl. destruct (advance_deleting s He Hd) as (Hc' & Hi' & Hd').
    destruct (advance_fields s) as (Hcat & _).
    rewrite Hd', Hc', Hi', Hcat, Hk. simpl. auto.
  - assert (Ha' := animating_advance s Ha).
    destruct (advance_deleting s He Hd) as (Hc' & Hi' & Hd').
    destruct (advance_fields s) as (Hcat & _).
    destruct (Z.leb_spec (placeholderCharIndex s - 1) 0) as [Hle | Hgt]; [lia |].
    simpl in Hd'.
    assert (He' : shouldAnimatePlaceholder (advancePlaceholder s) = true)
      by (rewrite advance_eligible; exact He).
    specialize (IH (advancePlaceholder s) Ha' He' Hd' ltac:(lia)).
    change (steps (S (S k)) s) with (steps (S k) (advancePlaceholder s)).
    simpl in IH |- *. rewrite Hi', Hcat in IH. exact IH.
Qed.

Lemma full_cycle (s : State) :
  animating s ->
  shouldAnimatePlaceholder s = true ->
  placeholderCharIndex s = 0 -> placeholderIsDeleting s = false ->
  let n := Z.to_nat (JS.len (currentCategory s)) in
  let s' := steps (n + n) s in
  placeholderCharIndex (steps n s) = JS.len (currentCategory s)
  /\ placeholderIsDeleting (steps n s) = true
  /\ placeholderCharIndex s' = 0
  /\ placeholderIsDeleting s' = false
  /\ placeholderIndex s'
     = (placeholderIndex s + 1) mod Z.of_nat (length (placeholderCategories s)).
Proof.
  intros Ha He Hc Hd n s'.
  assert (Hlen : 0 < JS.len (currentCategory s)).
  { destruct Ha as (_ & _ & _ & H). rewrite Hd in H. lia. }
  destruct n as [| k] eqn:Hn; [subst n; lia |].
  destruct (typing_phase k s Ha He Hd ltac:(lia)) as (Hd1 & Hc1 & Hi1 & Hcat1).
  destruct (deleting_phase k (steps (S k) s) (animating_steps _ _ Ha)
              ltac:(rewrite steps_eligible; exact He) Hd1 ltac:(lia))
    as (Hd2 & Hc2 & Hi2 & Hcat2).
  subst s'. rewrite steps_add.
  rewrite Hi1, Hcat1 in Hi2. auto.
Qed.

Lemma animating_inRange (s : State) : animating s -> charIndexInRange s.
Proof.
  intros (_ & _ & _ & Hc). unfold charIndexInRange.
  destruct (placeholderIsDeleting s); lia.
Qed.

Lemma idle_inRange (s : State) : idle s -> charIndexInRange s.
Proof.
  intros (Hc & _ & Hi & Hch & _).
  unfold charIndexInRange, currentCategory. rewrite Hc, Hi, Hch. simpl.
  unfold JS.len. simpl. lia.
Qed.

Lemma engineInv_inRange (s : State) : engineInv s -> charIndexInRange s.
Proof. intros (_ & [H | H]); auto using idle_inRange, animating_inRange. Qed.

(** A state that wants the animation has categories, so its engine is
    of the animating kind. *)
Lemma eligible_animating (s : State) :
  engineInv s -> shouldAnimatePlaceholder s = true -> animating s.
Proof.
  intros (_ & [Hi | Ha]) He; auto.
  destruct Hi as (Hc & _). unfold shouldAnimatePlaceholder in He.
  rewrite Hc in He. simpl in He. rewrite !andb_false_r in He. discriminate.
Qed.

(** *** What no event changes *)

Lemma staticIs_ext (s s' : State) :
  staticOf s' = staticOf s -> forall v, staticIs v s -> staticIs v s'.
Proof. unfold staticIs. congruence. Qed.

Lemma static_engine v s :
  staticIs v s ->
  staticIs v (pausePlaceholderAnimation s)
  /\ staticIs v (resetPlaceholderAnimation s)
  /\ staticIs v (advancePlaceholder s)
  /\ staticIs v (resumePlaceholderAnimation s)
  /\ staticIs v (handlePlaceholderInput s)
  /\ staticIs v (stopPlaceholderAnimation s).
Proof. unfold staticIs, staticOf. intros <-. repeat split; frame. Qed.

Lemma static_pause v s : staticIs v s -> staticIs v (pausePlaceholderAnimation s).
Proof. intros H. apply (static_engine v s H). Qed.

Lemma static_reset v s : staticIs v s -> staticIs v (resetPlaceholderAnimation s).
Proof. intros H. apply (static_engine v s H). Qed.

Lemma static_advance v s : staticIs v s -> staticIs v (advancePlaceholder s).
Proof. intros H. apply (static_engine v s H). Qed.

Lemma static_resumePlaceholder v s :
  staticIs v s -> staticIs v (resumePlaceholderAnimation s).
Proof. intros H. apply (static_engine v s H). Qed.

Lemma static_handlePlaceholderInput v s :
  staticIs v s -> staticIs v (handlePlaceholderInput s).
Proof. intros H. apply (static_engine v s H). Qed.

Lemma static_stop v s : staticIs v s -> staticIs v (stopPlaceholderAnimation s).
Proof. intros H. apply (static_engine v s H). Qed.

Ltac static_known h :=
  lazymatch h with
  | pausePlaceholderAnimation => apply static_pause
  | resetPlaceholderAnimation => apply static_reset
  | advancePlaceholder => apply static_advance
  | resumePlaceholderAnimation => apply static_resumePlaceholder
  | handlePlaceholderInput => apply static_handlePlaceholderInput
  | stopPlaceholderAnimation => apply static_stop
  end.

Ltac static := intros; repeat preserve_step staticIs_ext static_known.

Lemma static_focusInput v s : staticIs v s -> staticIs v (focusInput s).
Proof. static. Qed.

Lemma static_blurInput v s : staticIs v s -> staticIs v (blurInput s).
Proof. static. Qed.

Lemma static_set_currentIndex v i s :
  staticIs v s -> staticIs v (set_currentIndex i s).
Proof. static. Qed.

Ltac static_known h ::=
  lazymatch h with
  | pausePlaceholderAnimation => apply static_pause
  | resetPlaceholderAnimation => apply static_reset
  | advancePlaceholder => apply static_advance
  | resumePlaceholderAnimation => apply static_resumePlaceholder
  | handlePlaceholderInput => apply static_handlePlaceholderInput
  | stopPlaceholderAnimation => apply static_stop
  | focusInput => apply static_focusInput
  | blurInput => apply static_blurInput
  | set_currentIndex => apply static_set_currentIndex
  end.

Lemma static_resetSearchBegin v s :
  staticIs v s -> staticIs v (resetSearchBegin s).
Proof. static. Qed.

Lemma static_getSearchResults v t s :
  staticIs v s -> staticIs v (getSearchResults t s).
Proof. static. Qed.

Ltac static_known h ::=
  lazymatch h with
  | pausePlaceholderAnimation => apply static_pause
  | resetPlaceholderAnimation => apply static_reset
  | advancePlaceholder => apply static_advance
  | resumePlaceholderAnimation => apply static_resumePlaceholder
  | handlePlaceholderInput => apply static_handlePlaceholderInput
  | stopPlaceholderAnimation => apply static_stop
  | focusInput => apply static_focusInput
  | blurInput => apply static_blurInput
  | set_currentIndex => apply static_set_currentIndex
  | resetSearchBegin => apply static_resetSearchBegin
  | getSearchResults => apply static_getSearchResults
  end.

Lemma static_resume k r v s : staticIs v s -> staticIs v (settle (resume k r s)).
Proof.
  intros H. destruct k, r; simpl.
  all: unfold resultsFailed, emptySectionArrived; split_ifs; simpl.
  all: solve [static].
Qed.

Lemma static_handle e v s : staticIs v s -> staticIs v (handle e s).
Proof.
  intros H. destruct e; unfold handle.
  all: try (solve [static]).
  destruct (awaiting s !! k); auto. apply static_resume. exact H.
Qed.

Lemma static_run es v s : staticIs v s -> staticIs v (run es s).
Proof.
  revert s. induction es as [| e es IH]; simpl; intros s H; auto.
  apply IH, static_handle, H.
Qed.

(** *** An engine without categories *)

Lemma neverStarted_ext (s s' : State) :
  timersOf s' = timersOf s -> neverStarted s -> neverStarted s'.
Proof. unfold neverStarted. congruence. Qed.

Lemma neverStarted_fields (s : State) :
  neverStarted s ->
  placeholderCategories s = [] /\ placeholderTimeout s = None
  /\ timers s = noTimers.
Proof. unfold neverStarted, timersOf. intros E. injection E; auto. Qed.

Lemma neverStarted_stop (s : State) :
  neverStarted s -> neverStarted (stopPlaceholderAnimation s).
Proof.
  intros H. destruct (neverStarted_fields s H) as (_ & Ht & _).
  unfold stopPlaceholderAnimation. rewrite Ht. exact H.
Qed.

Lemma neverStarted_pause (s : State) :
  neverStarted s -> neverStarted (pausePlaceholderAnimation s).
Proof.
  intros H. apply neverStarted_stop in H. unfold pausePlaceholderAnimation.
  destruct (JS.len _ =? 0); auto.
Qed.

Lemma neverStarted_reset (s : State) :
  neverStarted s -> neverStarted (resetPlaceholderAnimation s).
Proof. auto. Qed.

Lemma neverStarted_idle (s : State) :
  neverStarted s -> shouldAnimatePlaceholder s = false.
Proof.
  intros H. destruct (neverStarted_fields s H) as (Hc & _).
  unfold shouldAnimatePlaceholder. rewrite Hc. simpl.
  rewrite !andb_false_r. reflexivity.
Qed.

Lemma neverStarted_advance (s : State) :
  neverStarted s -> neverStarted (advancePlaceholder s).
Proof.
  intros H. unfold advancePlaceholder. rewrite (neverStarted_idle s H).
  simpl. apply neverStarted_pause, H.
Qed.

Lemma neverStarted_resume (s : State) :
  neverStarted s -> neverStarted (resumePlaceholderAnimation s).
Proof.
  intros H. unfold resumePlaceholderAnimation.
  rewrite (neverStarted_idle s H). simpl.
  destruct (reducedMotion s); auto using neverStarted_pause.
Qed.

Lemma neverStarted_handlePlaceholderInput (s : State) :
  neverStarted s -> neverStarted (handlePlaceholderInput s).
Proof.
  intros H. unfold handlePlaceholderInput.
  destruct (0 <? _); auto using neverStarted_pause, neverStarted_resume.
Qed.

Ltac quiet_known h :=
  lazymatch h with
  | stopPlaceholderAnimation => apply neverStarted_stop
  | pausePlaceholderAnimation => apply neverStarted_pause
  | resetPlaceholderAnimation => apply neverStarted_reset
  | resumePlaceholderAnimation => apply neverStarted_resume
  | handlePlaceholderInput => apply neverStarted_handlePlaceholderInput
  end.

Ltac quiet := intros; repeat preserve_step neverStarted_ext quiet_known.

Lemma neverStarted_focusInput s : neverStarted s -> neverStarted (focusInput s).
Proof. quiet. Qed.

Lemma neverStarted_blurInput s : neverStarted s -> neverStarted (blurInput s).
Proof. quiet. Qed.

Lemma neverStarted_set_currentIndex i s :
  neverStarted s -> neverStarted (set_currentIndex i s).
Proof. quiet. Qed.

Ltac quiet_known h ::=
  lazymatch h with
  | stopPlaceholderAnimation => apply neverStarted_stop
  | pausePlaceholderAnimation => apply neverStarted_pause
  | resetPlaceholderAnimation => apply neverStarted_reset
  | resumePlaceholderAnimation => apply neverStarted_resume
  | handlePlaceholderInput => apply neverStarted_handlePlaceholderInput
  | focusInput => apply neverStarted_focusInput
  | blurInput => apply neverStarted_blurInput
  | set_currentIndex => apply neverStarted_set_currentIndex
  end.

Lemma neverStarted_resetSearchBegin s :
  neverStarted s -> neverStarted (resetSearchBegin s).
Proof. quiet. Qed.

Lemma neverStarted_getSearchResults t s :
  neverStarted s -> neverStarted (getSearchResults t s).
Proof. quiet. Qed.

Ltac quiet_known h ::=
  lazymatch h with
  | stopPlaceholderAnimation => apply neverStarted_stop
  | pausePlaceholderAnimation => apply neverStarted_pause
  | resetPlaceholderAnimation => apply neverStarted_reset
  | resumePlaceholderAnimation => apply neverStarted_resume
  | handlePlaceholderInput => apply neverStarted_handlePlaceholderInput
  | focusInput => apply neverStarted_focusInput
  | blurInput => apply neverStarted_blurInput
  | set_currentIndex => apply neverStarted_set_currentIndex
  | resetSearchBegin => apply neverStarted_resetSearchBegin
  | getSearchResults => apply neverStarted_getSearchResults
  end.

Lemma neverStarted_search i s : neverStarted s -> neverStarted (search i s).
Proof. quiet. Qed.

Lemma neverStarted_onSearchKeyDown k b s :
  neverStarted s -> neverStarted (onSearchKeyDown k b s).
Proof. quiet. Qed.

Lemma neverStarted_resume_k k r s :
  neverStarted s -> neverStarted (settle (resume k r s)).
Proof.
  intros. assert (Hs : forall o, neverStarted (stateOf o) -> neverStarted (settle o))
    by (intros o; destruct o; simpl; auto).
  apply Hs. destruct k, r; simpl; auto.
  - quiet.
  - unfold resultsFailed. destruct (aborted token s); auto.
  - unfold emptySectionArrived. split_ifs; auto; quiet.
  - quiet.
Qed.

Lemma neverStarted_handle e s : neverStarted s -> neverStarted (handle e s).
Proof.
  intros H. destruct e; unfold handle.
  all: try (solve [quiet]).
  - destruct (awaiting s !! k); auto. apply neverStarted_resume_k. exact H.
  - destruct (neverStarted_fields s H) as (_ & _ & Ht). rewrite Ht.
    unfold isPending. simpl. exact H.
Qed.

Lemma neverStarted_run es s : neverStarted s -> neverStarted (run es s).
Proof.
  revert s. induction es as [| e es IH]; simpl; intros s H; auto.
  apply IH, neverStarted_handle, H.
Qed.

Lemma neverStarted_connected c :
  getPlaceholderCategories c = [] -> neverStarted (connectedCallback c).
Proof.
  intros Hc. unfold connectedCallback, setupPlaceholderAnimation. cbv zeta.
  match goal with
  | |- neverStarted (if (length (placeholderCategories ?y) =? 0)%nat then _ else _) =>
      set (x := y)
  end.
  assert (Hcat : placeholderCategories x = []) by (rewrite <- Hc; reflexivity).
  rewrite Hcat. simpl.
  unfold neverStarted, timersOf. rewrite Hcat.
  subst x. split_ifs; reflexivity.
Qed.

(** Steps taken one after the other keep the engine of its kind. *)
Lemma modes_advance (s : State) :
  idle s \/ animating s ->
  idle (advancePlaceholder s) \/ animating (advancePlaceholder s).
Proof.
  intros [Hi | Ha]; [left | right; apply animating_advance, Ha].
  assert (He : shouldAnimatePlaceholder s = false).
  { unfold shouldAnimatePlaceholder. destruct Hi as (Hc & _). rewrite Hc.
    simpl. rewrite !andb_false_r. reflexivity. }
  unfold advancePlaceholder. rewrite He. simpl.
  destruct Hi as (H1 & H2 & H3 & H4 & H5 & H6).
  unfold pausePlaceholderAnimation, stopPlaceholderAnimation. rewrite H2. simpl.
  destruct (JS.len (inputValue s) =? 0); unfold idle; simpl; auto 10.
Qed.

Lemma modes_steps (n : nat) (s : State) :
  idle s \/ animating s -> idle (steps n s) \/ animating (steps n s).
Proof.
  revert s. induction n as [| n IH]; simpl; intros s H; auto.
  apply IH, modes_advance, H.
Qed.

End PredictiveSearchFacts.

(** * The properties of the specification *)

Module H := HeaderSearch.
Module P := PredictiveSearch.
Module HF := HeaderSearchFacts.
Module PF := PredictiveSearchFacts.

(** ** Cancellation *)

(** C1. Last request wins: once a token [b] has been acquired after the
    token [a], the closure that holds [a] finds [a] aborted and leaves the
    results as they are, whatever response it resumes with and whenever it
    resumes. Tokens are numbered in the order [#createAbortController]
    makes them; the state is any state the component can reach. *)
Theorem last_request_wins (c : P.Config) (es : list P.Event) (a b i : nat)
    (k : P.Continuation) (r : P.Response) :
  let s := P.run es (P.connectedCallback c) in
  (a < b < length (P.controllers s))%nat ->
  P.awaiting s !! i = Some k ->
  P.tokenOf k = a ->
  P.aborted a s = true
  /\ P.results (P.handle (P.Respond i r) s) = P.results s.
Proof.
  intros s Hab Hk Ha.
  assert (Hinv : P.tokenInv s)
    by (apply PF.tokenInv_run, PF.tokenInv_connected).
  assert (Habort : P.aborted a s = true)
    by (eapply PF.tokenInv_older_aborted; eauto).
  split; [exact Habort |].
  simpl. rewrite Hk.
  apply (PF.resume_aborted_results k r
           (P.set_awaiting (delete i (P.awaiting s)) s)).
  rewrite Ha. exact Habort.
Qed.

Lemma last_request_wins_witness :
  let s := P.run Scenario.twoQueries (P.connectedCallback Scenario.page) in
  (0 < 1 < length (P.controllers s))%nat
  /\ P.awaiting s !! 0%nat = Some (P.AwaitResults 0)
  /\ P.aborted 0 s = true
  /\ P.results (P.handle (P.Respond 0 (P.Fulfilled Scenario.resultsMarkup)) s)
     = P.results s.
Proof.
  intros s.
  assert (Hab : (0 < 1 < length (P.controllers s))%nat) by (vm_compute; lia).
  assert (Hk : P.awaiting s !! 0%nat = Some (P.AwaitResults 0)) by reflexivity.
  pose proof (last_request_wins Scenario.page Scenario.twoQueries 0 1 0
                (P.AwaitResults 0) (P.Fulfilled Scenario.resultsMarkup)
                Hab Hk eq_refl) as H.
  exact (conj Hab (conj Hk H)).
Defined.

(** C2. At most one token that is not aborted: in every state the
    component can reach, two controllers that are not aborted are the same
    one; and [#createAbortController] hands out a token that is not
    aborted, makes it the active one, and leaves the one that was active
    aborted. *)
Theorem one_live_token (c : P.Config) (es : list P.Event) :
  let s := P.run es (P.connectedCallback c) in
  (forall a b : nat,
      P.controllers s !! a = Some false ->
      P.controllers s !! b = Some false -> a = b)
  /\ (let token := fst (P.createAbortController s) in
      let s' := snd (P.createAbortController s) in
      P.aborted token s' = false
      /\ P.activeFetch s' = Some token
      /\ forall prev, P.activeFetch s = Some prev -> P.aborted prev s' = true).
Proof.
  intros s.
  assert (Hinv : P.tokenInv s)
    by (apply PF.tokenInv_run, PF.tokenInv_connected).
  split; [intros a b; apply PF.tokenInv_unique, Hinv |].
  cbv zeta. split; [apply PF.create_fresh, Hinv |]. split; [reflexivity |].
  intros prev Hprev.
  destruct Hinv as [(_ & Hnone) | (older & last & Hc & Ha & _)]; [congruence |].
  unfold P.createAbortController, P.aborted, P.abort. simpl.
  rewrite Hprev. simpl. rewrite Ha in Hprev. injection Hprev as <-.
  rewrite Hc. rewrite list_lookup_insert_eq; [reflexivity |].
  rewrite !length_app. simpl. lia.
Qed.

Lemma one_live_token_witness :
  let s := P.run Scenario.twoQueries (P.connectedCallback Scenario.page) in
  P.controllers s !! 1%nat = Some false
  /\ P.activeFetch s = Some 1%nat
  /\ P.aborted 1 (snd (P.createAbortController s)) = true.
Proof.
  intros s.
  destruct (one_live_token Scenario.page Scenario.twoQueries) as (_ & _ & _ & H).
  exact (conj eq_refl (conj eq_refl (H 1%nat eq_refl))).
Defined.

(** ** Search *)

(** C10. An input event whose [inputType] is absent or empty reaches the
    debounced [search] and is dropped there: the state is left as it is,
    so no request is sent, no closure waits, the reset path does not run,
    and the selection and the reset button are untouched, whatever the
    input holds. *)
Theorem search_ignores_untyped (s : P.State) (inputType : option string) :
  inputType = None \/ inputType = Some "" ->
  let s' := P.handle (P.Search inputType) s in
  s' = s
  /\ P.requests s' = P.requests s
  /\ P.awaiting s' = P.awaiting s
  /\ P.currentIndex s' = P.currentIndex s
  /\ P.resetButtonHidden s' = P.resetButtonHidden s.
Proof.
  intros [-> | ->] s'; subst s'; simpl; unfold P.search; simpl; auto.
Qed.

Lemma search_ignores_untyped_witness :
  let s := P.handle (P.Input "blue") (P.connectedCallback Scenario.page) in
  P.inputValue s = "blue"
  /\ P.handle (P.Search None) s = s
  /\ P.requests (P.handle (P.Search None) s) = [].
Proof.
  intros s.
  destruct (search_ignores_untyped s None (or_introl eq_refl)) as (H1 & H2 & _).
  split; [reflexivity |]. split; [exact H1 |]. rewrite H2. reflexivity.
Defined.

(** ** Missing markup *)

(** C6, as the code has it. A response for the empty state that lacks the
    element [.predictive-search-empty-section] makes [#resetSearch] throw
    "No empty section markup found", with the results untouched. Empty
    markup is dropped without an error and without a render: the results
    markup of a query, and the markup of the recently viewed products in a
    reset. *)
Theorem missing_markup (s : P.State) (i token : nat) (m : P.Markup) :
  let s' := P.handle (P.Respond i (P.Fulfilled m)) s in
  (P.awaiting s !! i = Some (P.AwaitEmptySection token) ->
   DOM.querySelector (DOM.hasClass "predictive-search-empty-section") (P.parsed m)
   = None ->
   P.uncaught s' = (P.uncaught s ++ ["No empty section markup found"])%list
   /\ P.results s' = P.results s)
  /\ (P.awaiting s !! i = Some (P.AwaitResults token) ->
      P.text m = "" ->
      P.uncaught s' = P.uncaught s /\ P.results s' = P.results s)
  /\ (forall parsedEmpty,
         P.awaiting s !! i = Some (P.AwaitRecentlyViewed token parsedEmpty) ->
         P.text m = "" ->
         P.uncaught s' = P.uncaught s /\ P.results s' = P.results s).
Proof.
  intros s'. subst s'. simpl. repeat split.
  - rewrite H. simpl. unfold P.emptySectionArrived. rewrite H0. reflexivity.
  - rewrite H. simpl. unfold P.emptySectionArrived. rewrite H0. reflexivity.
  - rewrite H. simpl. unfold P.resultsArrived. rewrite H0. reflexivity.
  - rewrite H. simpl. unfold P.resultsArrived. rewrite H0. reflexivity.
  - rewrite H. simpl. unfold P.recentlyViewedArrived. rewrite H0. reflexivity.
  - rewrite H. simpl. unfold P.recentlyViewedArrived. rewrite H0. reflexivity.
Qed.

Lemma missing_markup_witness :
  let s := P.handle (P.ResetSearch false) (P.connectedCallback Scenario.page) in
  let s' := P.handle (P.Respond 0 (P.Fulfilled Scenario.emptyMarkup)) s in
  P.awaiting s !! 0%nat = Some (P.AwaitEmptySection 0)
  /\ P.uncaught s' = ["No empty section markup found"]
  /\ P.results s' = P.results s.
Proof.
  intros s s'.
  destruct (missing_markup s 0 0 Scenario.emptyMarkup) as (H & _).
  destruct (H eq_refl eq_refl) as (H1 & H2).
  exact (conj eq_refl (conj H1 H2)).
Defined.

(** C6 as stated fails on the query path: a query is waiting, the section
    renderer answers with empty markup, and the closure returns without an
    error and without touching the results. *)
Lemma missing_markup_query_silent :
  let s := P.run Scenario.twoQueries (P.connectedCallback Scenario.page) in
  let s' := P.handle (P.Respond 1 (P.Fulfilled Scenario.emptyMarkup)) s in
  P.awaiting s !! 1%nat = Some (P.AwaitResults 1)
  /\ P.aborted 1 s = false
  /\ P.uncaught s' = []
  /\ P.results s' = P.results s.
Proof. vm_compute. repeat split. Qed.

(** ** Keyboard navigation *)

Lemma navigation_forward (key : string) (shiftKey : bool) :
  P.navigation key shiftKey = Some P.Forward ->
  key = "ArrowDown" \/ (key = "Tab" /\ shiftKey = false).
Proof.
  unfold P.navigation.
  destruct (String.eqb_spec key "ArrowDown"); [auto |].
  destruct (String.eqb_spec key "Tab").
  - destruct shiftKey; [discriminate | auto].
  - destruct (String.eqb key "ArrowUp"); discriminate.
Qed.

Lemma navigation_backward (key : string) (shiftKey : bool) :
  P.navigation key shiftKey = Some P.Backward ->
  key = "ArrowUp" \/ (key = "Tab" /\ shiftKey = true).
Proof.
  unfold P.navigation.
  destruct (String.eqb_spec key "ArrowDown"); [discriminate |].
  destruct (String.eqb_spec key "Tab").
  - destruct shiftKey; [auto | discriminate].
  - destruct (String.eqb_spec key "ArrowUp"); [auto | discriminate].
Qed.

Lemma navigation_not_escape (key : string) (shiftKey : bool) (d : P.Direction) :
  P.navigation key shiftKey = Some d -> key <> "Escape".
Proof. intros H ->. discriminate. Qed.

(** C3, as the code has it. With every result item listed once by the
    item query: while there are items, ArrowDown and Tab move the index to
    [(index + 1) mod count] (0 from -1 and from the last item), ArrowUp and
    shift-Tab to [(index - 1 + count) mod count], and to [count - 1] from
    -1; the items stay the same. Without items the key is ignored and the
    index stays -1. The index is within [-1, count - 1] after any key. *)
Theorem keyboard_navigation (s : P.State) (key : string) (shiftKey : bool) :
  let count := Z.of_nat (length (P.allResultsItems s)) in
  let index := P.currentIndex s in
  let s' := P.onSearchKeyDown key shiftKey s in
  (forall d,
      List.NoDup (P.allResultsItems s) ->
      P.navigation key shiftKey = Some d ->
      (0 < count ->
       P.allResultsItems s' = P.allResultsItems s
       /\ P.currentIndex s'
          = match d with
            | P.Forward => (index + 1) mod count
            | P.Backward =>
                if index =? -1 then count - 1 else (index - 1 + count) mod count
            end)
      /\ (count = 0 -> s' = s /\ P.currentIndex s' = -1))
  /\ -1 <= P.currentIndex s' <= Z.of_nat (length (P.allResultsItems s')) - 1.
Proof.
  intros count index s'. split; [| apply PF.currentIndex_range].
  intros d Hnd Hnav. split.
  - intros Hcount.
    assert (Hne : P.allResultsItems s <> [])
      by (intros E; subst count; rewrite E in Hcount; simpl in Hcount; lia).
    assert (Hrange := PF.currentIndex_range s). fold index count in Hrange.
    assert (Hitems : P.allResultsItems (P.set_isKeyboardNavigation true s)
                     = P.allResultsItems s) by reflexivity.
    assert (Hidx : P.currentIndex (P.set_isKeyboardNavigation true s) = index)
      by reflexivity.
    destruct d.
    + subst s'. rewrite (PF.onSearchKeyDown_forward key shiftKey s)
        by auto using navigation_forward.
      rewrite PF.allResultsItems_set_currentIndex. split; [exact Hitems |].
      rewrite PF.currentIndex_set_currentIndex by (rewrite Hitems; auto).
      rewrite Hitems. fold index count.
      destruct (Z.ltb_spec index (count - 1)).
      * rewrite Z.mod_small by lia.
        destruct (Z.leb_spec 0 (index + 1)), (Z.ltb_spec (index + 1) count);
          simpl; lia.
      * replace (index + 1) with count by lia. rewrite Z.mod_same by lia.
        destruct (Z.ltb_spec 0 count); simpl; lia.
    + subst s'. rewrite (PF.onSearchKeyDown_backward key shiftKey s)
        by auto using navigation_backward.
      rewrite PF.allResultsItems_set_currentIndex. split; [exact Hitems |].
      rewrite PF.currentIndex_set_currentIndex by (rewrite Hitems; auto).
      rewrite Hitems. fold index count.
      destruct (Z.gtb_spec index 0).
      * destruct (Z.eqb_spec index (-1)); [lia |].
        replace (index - 1 + count) with (index - 1 + 1 * count) by lia.
        rewrite Z.mod_add by lia. rewrite Z.mod_small by lia.
        destruct (Z.leb_spec 0 (index - 1)), (Z.ltb_spec (index - 1) count);
          simpl; lia.
      * destruct (Z.leb_spec 0 (count - 1)), (Z.ltb_spec (count - 1) count);
          simpl; try lia.
        destruct (Z.eqb_spec index (-1)); [reflexivity |].
        assert (index = 0) by lia. subst index.
        replace (P.currentIndex s) with 0 by lia. simpl.
        rewrite Z.mod_small by lia. lia.
  - intros Hcount.
    assert (E : P.allResultsItems s = [])
      by (destruct (P.allResultsItems s); [reflexivity | subst count; simpl in Hcount; lia]).
    subst s'.
    rewrite (PF.onSearchKeyDown_no_items key shiftKey s)
      by eauto using navigation_not_escape.
    split; [reflexivity |].
    unfold P.currentIndex. rewrite E. reflexivity.
Qed.

Lemma keyboard_navigation_witness :
  let s := P.connectedCallback (Scenario.withResults Scenario.twoResults Scenario.page) in
  List.NoDup (P.allResultsItems s)
  /\ P.currentIndex s = -1
  /\ P.currentIndex (P.onSearchKeyDown "ArrowDown" false s) = 0
  /\ P.currentIndex (P.onSearchKeyDown "ArrowUp" false s) = 1.
Proof.
  intros s.
  assert (Hnd : List.NoDup (P.allResultsItems s))
    by (vm_compute; repeat constructor; simpl; intuition discriminate).
  destruct (keyboard_navigation s "ArrowDown" false) as (Hdown & _).
  destruct (Hdown P.Forward Hnd eq_refl) as (Hd & _).
  destruct (keyboard_navigation s "ArrowUp" false) as (Hup & _).
  destruct (Hup P.Backward Hnd eq_refl) as (Hu & _).
  destruct (Hd ltac:(vm_compute; reflexivity)) as (_ & Hd').
  destruct (Hu ltac:(vm_compute; reflexivity)) as (_ & Hu').
  exact (conj Hnd (conj eq_refl (conj Hd' Hu'))).
Defined.

(** C3 as stated fails in two places, here with the dropdown open. Where
    it says that ArrowDown sets the index to 0 when the count is 0:
    nothing is rendered, ArrowDown is pressed, and the index is -1 after
    it. And where the item query lists
    an element more than once: with a list inside the wrapper of the
    queries, both of them containers, each of the two items is listed
    twice; the count is 4, the index is -1, and ArrowDown leaves it at -1
    and not at 0, since the entry of the loop that selects the first item
    is followed by an entry that unselects it. *)
Lemma keyboard_navigation_not_as_stated :
  (let s := P.run [P.Focus] (P.connectedCallback Scenario.page) in
   P.dropdownOpen s = true
   /\ length (P.allResultsItems s) = 0%nat
   /\ P.onSearchKeyDown "ArrowDown" false s = s
   /\ P.currentIndex (P.onSearchKeyDown "ArrowDown" false s) = -1
   /\ P.currentIndex (P.onSearchKeyDown "ArrowDown" false s) <> 0)
  /\ (let s := P.run [P.Focus]
                 (P.connectedCallback
                    (Scenario.withResults Scenario.nestedResults Scenario.page)) in
      P.dropdownOpen s = true
      /\ P.allResultsItems s = [2; 3; 2; 3]%nat
      /\ P.currentIndex s = -1
      /\ P.currentIndex (P.onSearchKeyDown "ArrowDown" false s) = -1
      /\ P.currentIndex (P.onSearchKeyDown "ArrowDown" false s)
         <> (P.currentIndex s + 1) mod Z.of_nat (length (P.allResultsItems s))).
Proof. vm_compute. repeat split; discriminate. Qed.

(** The item query keeps the elements that are instances of
    [HTMLElement]: an [svg] icon with the class of the cards is no item,
    and ArrowDown selects the first card after it. *)
Remark icon_is_no_item :
  let s := P.connectedCallback
             (Scenario.withResults Scenario.productsWithIcon Scenario.page) in
  let s' := P.onSearchKeyDown "ArrowDown" false s in
  P.allResultsItems s = [2; 3]%nat
  /\ P.currentIndex s' = 0
  /\ P.isSelected (P.results s') 1 = false
  /\ P.isSelected (P.results s') 2 = true.
Proof. vm_compute. repeat split. Qed.

(** ** The placeholder animation *)

(** C4. In both components the character index stays within
    [0, length of the current category]: in every state reached from
    [connectedCallback] by events (timers that fire, pauses, resumes and
    all the rest), and in the header after any number of steps from the
    initial state. A full cycle from the start of a category (character
    index 0, typing) types the category in as many steps as it has
    characters, holds, deletes it in as many steps, and ends at character
    index 0 on the next category modulo the number of categories. *)
Theorem placeholder_cycle :
  (forall reducedMotion d t0 es,
      H.charIndexInRange
        (H.run es (H.connectedCallback reducedMotion d (H.created t0))))
  /\ (forall d t0 m,
         H.getCategories d <> [] ->
         let s := H.steps m (H.configure d (H.created t0)) in
         H.charIndexInRange s
         /\ (H.charIndex s = 0 -> H.isDeleting s = false ->
             let n := Z.to_nat (JS.len (H.currentCategory s)) in
             H.charIndex (H.steps n s) = JS.len (H.currentCategory s)
             /\ H.isDeleting (H.steps n s) = true
             /\ H.charIndex (H.steps (n + n) s) = 0
             /\ H.isDeleting (H.steps (n + n) s) = false
             /\ H.index (H.steps (n + n) s)
                = (H.index s + 1) mod Z.of_nat (length (H.categories s))))
  /\ (forall c es m,
         let s := P.steps m (P.run es (P.connectedCallback c)) in
         P.charIndexInRange s
         /\ (P.shouldAnimatePlaceholder s = true ->
             P.placeholderCharIndex s = 0 -> P.placeholderIsDeleting s = false ->
             let n := Z.to_nat (JS.len (P.currentCategory s)) in
             P.placeholderCharIndex (P.steps n s) = JS.len (P.currentCategory s)
             /\ P.placeholderIsDeleting (P.steps n s) = true
             /\ P.placeholderCharIndex (P.steps (n + n) s) = 0
             /\ P.placeholderIsDeleting (P.steps (n + n) s) = false
             /\ P.placeholderIndex (P.steps (n + n) s)
                = (P.placeholderIndex s + 1)
                    mod Z.of_nat (length (P.placeholderCategories s)))).
Proof.
  split; [| split].
  - intros reducedMotion d t0 es.
    destruct (HF.reachableInv_run es _ (HF.reachableInv_connected reducedMotion d t0))
      as (_ & [Hi | Ha]);
      auto using HF.header_idle_inRange, HF.header_animating_inRange.
  - intros d t0 m Hne s.
    assert (Ha : H.animating s)
      by (apply HF.header_animating_steps, HF.configure_animating, Hne).
    split; [apply HF.header_animating_inRange, Ha |].
    intros Hc Hd. apply HF.header_full_cycle; auto.
  - intros c es m s.
    assert (Hinv : P.engineInv (P.run es (P.connectedCallback c)))
      by (apply PF.engineInv_run, PF.engineInv_connected).
    assert (Hs : P.idle s \/ P.animating s)
      by (apply PF.modes_steps, Hinv).
    split.
    + destruct Hs; auto using PF.idle_inRange, PF.animating_inRange.
    + intros He Hc Hd. apply PF.full_cycle; auto.
      destruct Hs as [(Hcat & _) | Ha]; auto.
      unfold P.shouldAnimatePlaceholder in He. rewrite Hcat in He.
      simpl in He. rewrite !andb_false_r in He. discriminate.
Qed.

Lemma placeholder_cycle_witness :
  let s := H.configure Scenario.shoesAndBags (H.created "") in
  H.getCategories Scenario.shoesAndBags <> []
  /\ H.charIndex s = 0 /\ H.isDeleting s = false
  /\ H.charIndex (H.steps 5 s) = 5
  /\ H.isDeleting (H.steps 5 s) = true
  /\ H.charIndex (H.steps 10 s) = 0
  /\ H.index (H.steps 10 s) = 1.
Proof.
  intros s.
  assert (Hne : H.getCategories Scenario.shoesAndBags <> [])
    by (vm_compute; discriminate).
  destruct placeholder_cycle as (_ & Hheader & _).
  destruct (Hheader Scenario.shoesAndBags "" 0%nat Hne) as (_ & Hcycle).
  destruct (Hcycle eq_refl eq_refl) as (H1 & H2 & H3 & _ & H5).
  exact (conj Hne (conj eq_refl (conj eq_refl
           (conj H1 (conj H2 (conj H3 H5)))))).
Defined.

(** C5, as the code has it: with the categories "shoes" and "bags" and
    the prefix "Search for ", the text after 5 steps is "Search for shoes";
    "Search for shoe" is the text after 4 steps, and again after 6. The
    first step is the one [connectedCallback] takes, the others are timers
    that fire. *)
Theorem five_steps_render :
  let s := H.configure Scenario.shoesAndBags (H.created "") in
  List.map (fun n => H.rendered (H.steps n s)) [1; 2; 3; 4; 5; 6]%nat
  = ["Search for s"; "Search for sh"; "Search for sho"; "Search for shoe";
     "Search for shoes"; "Search for shoe"]
  /\ H.rendered
       (H.run [H.TimerFired 1; H.TimerFired 2; H.TimerFired 3; H.TimerFired 4]
          (H.connectedCallback false Scenario.shoesAndBags (H.created "")))
     = "Search for shoes".
Proof. vm_compute. split; reflexivity. Qed.

(** C5 as stated fails: after 5 steps the text is not "Search for shoe". *)
Lemma five_steps_not_shoe :
  H.rendered (H.steps 5 (H.configure Scenario.shoesAndBags (H.created "")))
  <> "Search for shoe".
Proof. vm_compute. discriminate. Qed.

(** ** An empty list of categories *)

(** C7, as the code has it: when the parsed list of categories is empty,
    neither component ever asks for a timer. The header component shows
    the trimmed prefix as its placeholder text. The predictive search
    component writes nothing: its input keeps the placeholder attribute it
    came with, whatever the prefix is. *)
Theorem empty_categories :
  (forall reducedMotion d t0 es,
      H.getCategories d = [] ->
      let s := H.run es (H.connectedCallback reducedMotion d (H.created t0)) in
      H.textContent s
      = JS.trim (JS.or_else (default "" (H.placeholderPrefix d)) "")
      /\ H.textContent s = H.prefix s
      /\ H.timeout s = None /\ H.timers s = noTimers)
  /\ (forall c es,
      P.getPlaceholderCategories c = [] ->
      let s := P.run es (P.connectedCallback c) in
      P.inputPlaceholder s = default "" (P.cfgPlaceholder c)
      /\ P.placeholderPrefix s
         = JS.trim
             (JS.or_else (default "" (P.cfgPlaceholderPrefix c))
                (JS.or_else (default "" (P.cfgPlaceholder c)) ""))
      /\ P.placeholderTimeout s = None /\ P.timers s = noTimers).
Proof.
  split.
  - intros reducedMotion d t0 es Hc s.
    assert (Hs : s = H.connectedCallback reducedMotion d (H.created t0)).
    { subst s. apply HF.idle_run;
        unfold H.connectedCallback, H.configure, H.idle; simpl;
        rewrite Hc; simpl; auto 10. }
    rewrite Hs. unfold H.connectedCallback, H.configure. simpl.
    rewrite Hc. simpl. auto.
  - intros c es Hc s.
    destruct (PF.neverStarted_fields s
                (PF.neverStarted_run es _ (PF.neverStarted_connected c Hc)))
      as (Hcat & Ht & Htimers).
    assert (Hstatic : P.staticOf s = P.staticOf (P.connectedCallback c)).
    { apply (PF.static_run es (P.staticOf (P.connectedCallback c))).
      reflexivity. }
    assert (Hconn : P.staticOf (P.connectedCallback c)
                    = ([], default "" (P.cfgPlaceholder c),
                       JS.trim
                         (JS.or_else (default "" (P.cfgPlaceholderPrefix c))
                            (JS.or_else (default "" (P.cfgPlaceholder c)) "")))).
    { unfold P.connectedCallback, P.setupPlaceholderAnimation. cbv zeta.
      match goal with
      | |- P.staticOf (if (length (P.placeholderCategories ?y) =? 0)%nat
                       then _ else _) = _ => set (x := y)
      end.
      assert (Hx : P.placeholderCategories x = [])
        by (rewrite <- Hc; reflexivity).
      rewrite Hx. simpl. unfold P.staticOf. rewrite Hx. reflexivity. }
    rewrite Hconn in Hstatic. unfold P.staticOf in Hstatic.
    injection Hstatic as _ Ho Hp.
    destruct (PF.engineInv_run es _ (PF.engineInv_connected c))
      as (_ & [Hi | Ha]).
    + destruct Hi as (_ & _ & _ & _ & _ & Hi). fold s in Hi.
      repeat split; auto. congruence.
    + destruct Ha as (Hne & _). fold s in Hne. contradiction.
Qed.

Lemma empty_categories_witness :
  let d := {| H.placeholderPrefix := Some " Search for ";
              H.placeholderCategories := AttrArray [" "] |} in
  let c := Scenario.withCategories (AttrArray []) Scenario.page in
  H.getCategories d = []
  /\ P.getPlaceholderCategories c = []
  /\ H.textContent
       (H.run [H.MouseLeave; H.TimerFired 1]
          (H.connectedCallback false d (H.created "")))
     = "Search for"
  /\ P.inputPlaceholder (P.run [P.Blur false; P.Input ""] (P.connectedCallback c))
     = "Search".
Proof.
  intros d c.
  assert (Hd : H.getCategories d = []) by reflexivity.
  assert (Hc : P.getPlaceholderCategories c = []) by reflexivity.
  destruct empty_categories as (Hheader & Hsearch).
  destruct (Hheader false d "" [H.MouseLeave; H.TimerFired 1%nat] Hd)
    as (H1 & _).
  destruct (Hsearch c [P.Blur false; P.Input ""] Hc) as (H2 & _).
  exact (conj Hd (conj Hc (conj H1 H2))).
Defined.

(** C7 as stated fails for the predictive search component: without
    categories its placeholder is the attribute of the input, "Search",
    and not the prefix, "Search for". *)
Lemma empty_categories_not_prefix :
  let c := Scenario.withCategories (AttrArray []) Scenario.page in
  let s := P.connectedCallback c in
  P.getPlaceholderCategories c = []
  /\ P.placeholderPrefix s = "Search for"
  /\ P.inputPlaceholder s = "Search"
  /\ P.inputPlaceholder s <> P.placeholderPrefix s.
Proof. vm_compute. repeat split; discriminate. Qed.

(** ** Resuming the animation *)

Lemma truthy_handle (h : nat) : (1 <= h)%nat -> JS.handleTruthy (Some h) = true.
Proof. destruct h; [lia | reflexivity]. Qed.

(** C8, as the code has it: at most one timer is pending, before and
    after a resume, in both components. In the header component a resume
    while a timer is pending changes nothing. In the predictive search
    component it changes nothing when reduced motion is asked for or the
    animation is wanted (empty input without the focus); otherwise it is a
    pause: the pending timer is cleared and the placeholder is the
    original one again. *)
Theorem resume_pending :
  (forall reducedMotion d t0 es,
      let s := H.run es (H.connectedCallback reducedMotion d (H.created t0)) in
      (length (pending (H.timers s)) <= 1)%nat
      /\ (length (pending (H.timers (H.resume s))) <= 1)%nat
      /\ (pending (H.timers s) <> [] -> H.resume s = s))
  /\ (forall c es,
      let s := P.run es (P.connectedCallback c) in
      let s' := P.resumePlaceholderAnimation s in
      (length (pending (P.timers s)) <= 1)%nat
      /\ (length (pending (P.timers s')) <= 1)%nat
      /\ (pending (P.timers s) <> [] ->
          (P.reducedMotion s = true \/ P.shouldAnimatePlaceholder s = true ->
           s' = s)
          /\ (P.reducedMotion s = false ->
              P.shouldAnimatePlaceholder s = false ->
              s' = P.pausePlaceholderAnimation s
              /\ P.placeholderTimeout s' = None
              /\ pending (P.timers s') = []
              /\ P.inputPlaceholder s'
                 = (if JS.len (P.inputValue s) =? 0
                    then P.placeholderOriginal s else P.inputPlaceholder s)))).
Proof.
  assert (Hlen : forall (p : list (nat * Z)) (t : option nat) (n : nat),
             (t = None /\ p = []) \/
             (exists h d, t = Some h /\ p = [(h, d)] /\ (1 <= h < n)%nat) ->
             (length p <= 1)%nat).
  { intros p t n [(_ & E) | (h & d & _ & E & _)]; rewrite E; simpl; lia. }
  split.
  - intros reducedMotion d t0 es s.
    assert (Hinv : H.reachableInv s)
      by (apply HF.reachableInv_run, HF.reachableInv_connected).
    destruct Hinv as (Ht & _).
    pose proof (HF.oneTimer_resume s Ht) as Ht'.
    split; [eapply Hlen, Ht | split; [eapply Hlen, Ht' |]].
    intros Hp. destruct Ht as (_ & [(_ & E) | (h & d0 & Es & _ & Hh)]);
      [contradiction |].
    unfold H.resume. rewrite Es, truthy_handle by lia. reflexivity.
  - intros c es s s'.
    assert (Hinv : P.engineInv s)
      by (apply PF.engineInv_run, PF.engineInv_connected).
    pose proof (PF.engineInv_resume s Hinv) as (Ht' & _).
    destruct Hinv as (Ht & _).
    split; [eapply Hlen, Ht | split; [eapply Hlen, Ht' |]].
    intros Hp. pose proof Ht as Ht0.
    destruct Ht as (_ & [(_ & E) | (h & d0 & Es & _ & Hh)]);
      [contradiction |].
    split.
    + intros [Hr | Ha]; subst s'; unfold P.resumePlaceholderAnimation.
      * rewrite Hr. reflexivity.
      * rewrite Ha, Es, truthy_handle by lia. simpl.
        destruct (P.reducedMotion s); reflexivity.
    + intros Hr Ha.
      assert (E : s' = P.pausePlaceholderAnimation s).
      { subst s'. unfold P.resumePlaceholderAnimation. rewrite Hr, Ha.
        reflexivity. }
      rewrite E. destruct (PF.pause_cleared s Ht0) as (H1 & H2).
      repeat split; auto.
      unfold P.pausePlaceholderAnimation, P.stopPlaceholderAnimation.
      rewrite Es, truthy_handle by lia. simpl.
      destruct (JS.len (P.inputValue s) =? 0); reflexivity.
Qed.

Lemma resume_pending_witness :
  let s := H.run [H.MouseEnter; H.MouseLeave]
             (H.connectedCallback false Scenario.shoesAndBags (H.created "")) in
  let p := P.run [P.Focus; P.Blur false] (P.connectedCallback Scenario.page) in
  pending (H.timers s) <> []
  /\ pending (P.timers p) <> []
  /\ P.shouldAnimatePlaceholder p = true
  /\ H.resume s = s
  /\ P.resumePlaceholderAnimation p = p.
Proof.
  intros s p.
  assert (Hs : pending (H.timers s) <> []) by (vm_compute; discriminate).
  assert (Hp : pending (P.timers p) <> []) by (vm_compute; discriminate).
  assert (Ha : P.shouldAnimatePlaceholder p = true) by (vm_compute; reflexivity).
  destruct resume_pending as (Hheader & Hsearch).
  destruct (Hheader false Scenario.shoesAndBags "" [H.MouseEnter; H.MouseLeave])
    as (_ & _ & H1).
  destruct (Hsearch Scenario.page [P.Focus; P.Blur false]) as (_ & _ & H2).
  destruct (H2 Hp) as (H3 & _).
  exact (conj Hs (conj Hp (conj Ha (conj (H1 Hs) (H3 (or_intror Ha)))))).
Defined.

(** C8 as stated fails for the predictive search component: with one
    category, the reset run at load time starts the animation and no
    listener pauses it when the input takes the focus; a resume then, with
    the timer pending, clears the timer and puts the original placeholder
    back. *)
Lemma resume_pending_pauses :
  let c := Scenario.withCategories (AttrArray ["shoes"]) Scenario.page in
  let s := P.run Scenario.oneCategoryFocused (P.connectedCallback c) in
  let s' := P.resumePlaceholderAnimation s in
  P.placeholderTimeout s = Some 1%nat
  /\ pending (P.timers s) = [(1%nat, 85)]
  /\ P.inputPlaceholder s = "Search for s"
  /\ P.placeholderTimeout s' = None
  /\ pending (P.timers s') = []
  /\ P.inputPlaceholder s' = "Search"
  /\ s' <> s.
Proof.
  vm_compute. repeat split. intros E. discriminate E.
Qed.

(** ** Resetting twice *)

Lemma tokenInv_resetSearchRun (keepFocus : bool) (r1 r2 : P.Response)
    (s : P.State) :
  P.tokenInv s -> P.tokenInv (P.resetSearchRun keepFocus r1 r2 s).
Proof.
  intros Hs. unfold P.resetSearchRun. cbv zeta.
  set (s1 := P.handle (P.ResetSearch keepFocus) s).
  set (s2 := P.handle (P.Respond (length (P.awaiting s)) r1) s1).
  assert (H2 : P.tokenInv s2) by (repeat apply PF.tokenInv_handle; exact Hs).
  destruct (P.awaiting s2 !! length (P.awaiting s)) as [[| |] |]; auto.
  apply PF.tokenInv_handle, H2.
Qed.

(** C9, as the code has it: on the connected component, after any
    events, a second run of [resetSearch()] that gets the responses of
    the first one leaves the results, the search term, the reset button
    and the selection index as the first run left them, and with them
    what the placeholder engine shows and waits for: the placeholder
    text, the timer and the categories. The counters of the engine are
    as the first run left them too when the input has the focus after the
    first run, and it has whenever it can take the focus or has it
    before. [resetSearch()] asks for the focus, which is its default. *)
Theorem resetSearch_idempotent (c : P.Config) (es : list P.Event)
    (r1 r2 : P.Response) :
  let s := P.run es (P.connectedCallback c) in
  let once := P.resetSearchRun true r1 r2 s in
  let twice := P.resetSearchRun true r1 r2 once in
  P.results twice = P.results once
  /\ P.inputValue twice = P.inputValue once
  /\ P.resetButtonHidden twice = P.resetButtonHidden once
  /\ P.currentIndex twice = P.currentIndex once
  /\ P.shownOf twice = P.shownOf once
  /\ (P.inputFocused once = true -> P.engineOf twice = P.engineOf once)
  /\ (P.inputFocusable s = true \/ P.inputFocused s = true ->
      P.inputFocused once = true).
Proof.
  intros s once twice.
  assert (Hs : P.tokenInv s) by (apply PF.tokenInv_run, PF.tokenInv_connected).
  assert (He : P.engineInv s) by (apply PF.engineInv_run, PF.engineInv_connected).
  assert (Ho : P.tokenInv once) by (apply tokenInv_resetSearchRun, Hs).
  assert (E1 : once = P.resetSearchStraight true r1 r2 s)
    by (apply PF.resetSearchRun_straight, Hs).
  assert (E2 : twice = P.resetSearchStraight true r1 r2 once)
    by (apply PF.resetSearchRun_straight, Ho).
  clearbody once twice s. subst once twice.
  destruct (PF.resetSearchStraight_twice true r1 r2 s)
    as (H1 & H2 & H3 & H4 & H5).
  destruct (PF.resetSearchStraight_shown r1 r2 s He) as (H6 & H7).
  repeat split; auto.
Qed.

Lemma resetSearch_idempotent_witness :
  P.inputFocused
    (P.resetSearchRun true (P.Fulfilled Scenario.emptySectionMarkup)
       (P.Fulfilled Scenario.emptySectionMarkup)
       (P.run [P.Input "b"] (P.connectedCallback Scenario.page))) = true
  /\ P.engineOf
       (P.resetSearchRun true (P.Fulfilled Scenario.emptySectionMarkup)
          (P.Fulfilled Scenario.emptySectionMarkup)
          (P.resetSearchRun true (P.Fulfilled Scenario.emptySectionMarkup)
             (P.Fulfilled Scenario.emptySectionMarkup)
             (P.run [P.Input "b"] (P.connectedCallback Scenario.page))))
     = P.engineOf
         (P.resetSearchRun true (P.Fulfilled Scenario.emptySectionMarkup)
            (P.Fulfilled Scenario.emptySectionMarkup)
            (P.run [P.Input "b"] (P.connectedCallback Scenario.page))).
Proof.
  destruct (resetSearch_idempotent Scenario.page [P.Input "b"]
              (P.Fulfilled Scenario.emptySectionMarkup)
              (P.Fulfilled Scenario.emptySectionMarkup))
    as (_ & _ & _ & _ & _ & Hengine & Hfocus).
  pose proof (Hfocus (or_introl eq_refl)) as Hf.
  exact (conj Hf (Hengine Hf)).
Defined.

(** C9 as stated fails for the counters of the engine where the input
    cannot take the focus: the visitor has typed a letter, the page makes
    the input unable to take the focus, and [resetSearch()] runs twice.
    The first run empties the input and starts the animation, the second
    one resets the counters under the timer of the first. *)
Lemma resetSearch_twice_counters :
  let s := P.run [P.Input "b"; P.Focusable false]
             (P.connectedCallback Scenario.page) in
  let r := P.Fulfilled Scenario.emptySectionMarkup in
  let once := P.resetSearchRun true r r s in
  let twice := P.resetSearchRun true r r once in
  P.inputFocused once = false
  /\ P.placeholderCharIndex once = 1
  /\ P.placeholderCharIndex twice = 0
  /\ P.inputPlaceholder once = "Search for s"
  /\ P.inputPlaceholder twice = "Search for s"
  /\ pending (P.timers twice) = pending (P.timers once)
  /\ P.engineOf twice <> P.engineOf once.
Proof. vm_compute. repeat split. intros E. discriminate E. Qed.

(** The same two runs without the focus ([resetSearch(false)], as run at
    load time): the results, the term, the button and the index are again
    the same ... *)
Lemma resetSearch_twice_without_focus (c : P.Config) (es : list P.Event)
    (r1 r2 : P.Response) :
  let s := P.run es (P.connectedCallback c) in
  let once := P.resetSearchRun false r1 r2 s in
  let twice := P.resetSearchRun false r1 r2 once in
  P.results twice = P.results once
  /\ P.inputValue twice = P.inputValue once
  /\ P.resetButtonHidden twice = P.resetButtonHidden once
  /\ P.currentIndex twice = P.currentIndex once.
Proof.
  intros s once twice.
  assert (Hs : P.tokenInv s) by (apply PF.tokenInv_run, PF.tokenInv_connected).
  assert (Ho : P.tokenInv once) by (apply tokenInv_resetSearchRun, Hs).
  assert (E1 : once = P.resetSearchStraight false r1 r2 s)
    by (apply PF.resetSearchRun_straight, Hs).
  assert (E2 : twice = P.resetSearchStraight false r1 r2 once)
    by (apply PF.resetSearchRun_straight, Ho).
  clearbody once twice s. subst once twice.
  destruct (PF.resetSearchStraight_twice false r1 r2 s)
    as (H1 & H2 & H3 & H4 & _).
  repeat split; auto.
Qed.

(** ... but the counters of the engine need not be: the first run starts
    the animation, the second one resets the counters under the pending
    timer. The placeholder shown is the same. *)
Lemma resetSearch_twice_without_focus_counters :
  let c := Scenario.withCategories (AttrArray ["shoes"]) Scenario.page in
  let r := P.Fulfilled Scenario.emptySectionMarkup in
  let once := P.resetSearchRun false r r (P.connectedCallback c) in
  let twice := P.resetSearchRun false r r once in
  P.placeholderCharIndex once = 1
  /\ P.placeholderCharIndex twice = 0
  /\ P.inputPlaceholder twice = P.inputPlaceholder once
  /\ pending (P.timers twice) = pending (P.timers once).
Proof. vm_compute. repeat split. Qed.

(** * More of the code *)

(** ** Strings *)

Module JSMore.
Import JS.

Lemma trimEnd_head (c : ascii) (r : string) :
  trimEnd (String c r) = "" \/ exists r', trimEnd (String c r) = String c r'.
Proof.
  simpl. destruct (trimEnd r); [destruct (isWhiteSpace c) |]; eauto.
Qed.

Lemma trimEnd_idem (s : string) : trimEnd (trimEnd s) = trimEnd s.
Proof.
  induction s as [| c r IH]; [reflexivity |]. simpl.
  destruct (trimEnd r) as [| c' r'] eqn:E.
  - destruct (isWhiteSpace c) eqn:W; [reflexivity |]. simpl. rewrite W. reflexivity.
  - change (trimEnd (String c (String c' r'))) with
      (match trimEnd (String c' r') with
       | "" => if isWhiteSpace c then "" else String c ""
       | x => String c x
       end).
    rewrite IH. reflexivity.
Qed.

Lemma trimStart_head (s : string) :
  trimStart s = "" \/ exists c r, trimStart s = String c r /\ isWhiteSpace c = false.
Proof.
  induction s as [| c r IH]; [left; reflexivity |]. simpl.
  destruct (isWhiteSpace c) eqn:W; [exact IH | right; eauto].
Qed.

(** A trimmed string is empty or has no white space at either end. *)
Lemma trim_head (s : string) :
  trim s = "" \/ exists c r, trim s = String c r /\ isWhiteSpace c = false.
Proof.
  unfold trim. destruct (trimStart_head s) as [E | (c & r & E & W)]; rewrite E.
  - left. reflexivity.
  - destruct (trimEnd_head c r) as [E' | (r' & E')]; rewrite E'; eauto.
Qed.

Lemma trim_idem (s : string) : trim (trim s) = trim s.
Proof.
  destruct (trim_head s) as [E | (c & r & E & W)].
  - rewrite E. reflexivity.
  - unfold trim at 1. rewrite E. simpl trimStart. rewrite W.
    rewrite <- E. apply trimEnd_idem.
Qed.

Lemma trimEnd_trim (s : string) : trimEnd (trim s) = trim s.
Proof. apply trimEnd_idem. Qed.

(** Trimming the end of a text never reaches into a part that ends
    without white space. *)
Lemma trimEnd_app (a b : string) :
  a <> "" -> trimEnd a = a -> trimEnd (a ++ b) = a ++ trimEnd b.
Proof.
  induction a as [| c r IH]; [congruence |]. intros _ E.
  destruct r as [| c' r'].
  - simpl in E. destruct (isWhiteSpace c) eqn:W; [discriminate |].
    simpl. destruct (trimEnd b); [rewrite W |]; reflexivity.
  - assert (Er : trimEnd (String c' r') = String c' r').
    { clear IH. change (trimEnd (String c (String c' r'))) with
        (match trimEnd (String c' r') with
         | "" => if isWhiteSpace c then "" else String c ""
         | x => String c x
         end) in E.
      destruct (trimEnd (String c' r')).
      - destruct (isWhiteSpace c); discriminate.
      - injection E as -> ->. reflexivity. }
    change ((String c (String c' r') ++ b)) with (String c (String c' r' ++ b)).
    change (trimEnd (String c (String c' r' ++ b))) with
      (match trimEnd (String c' r' ++ b) with
       | "" => if isWhiteSpace c then "" else String c ""
       | x => String c x
       end).
    rewrite IH by (auto; discriminate). reflexivity.
Qed.

Lemma or_else_empty (a : string) : or_else a "" = a.
Proof. destruct a; reflexivity. Qed.

Lemma at_or_empty_0 (l : list string) : at_or_empty l 0 = hd "" l.
Proof. destruct l; reflexivity. Qed.

Lemma trimmedNonEmpty_trimmed (items : list string) :
  Forall (fun c => trim c = c /\ c <> "") (trimmedNonEmpty items).
Proof.
  unfold trimmedNonEmpty. apply List.Forall_forall. intros c Hc.
  apply filter_In in Hc. destruct Hc as (Hin & Ht).
  apply in_map_iff in Hin. destruct Hin as (x & <- & _).
  split; [apply trim_idem |]. intros E. rewrite E in Ht. discriminate.
Qed.

End JSMore.

(** ** The header placeholder *)

Module HeaderSearchMore.
Import HeaderSearch HeaderSearchFacts.

Lemma buildText_prefix (s : State) (typedText : string) :
  JS.trim (prefix s) = prefix s ->
  exists rest, buildText s typedText = (prefix s ++ rest)%string.
Proof.
  intros Ht. unfold buildText. destruct (JS.truthy (prefix s)) eqn:E.
  - change (negb true) with false. cbv iota.
    eexists. apply JSMore.trimEnd_app.
    + intros E0. rewrite E0 in E. discriminate.
    + rewrite <- Ht. apply JSMore.trimEnd_trim.
  - exists typedText. destruct (prefix s); [reflexivity | discriminate].
Qed.

Lemma prefixShown_advance (s : State) :
  JS.trim (prefix s) = prefix s -> prefixShown (advance s).
Proof.
  intros Ht. unfold prefixShown.
  destruct (header_advance_fields s) as (_ & Hp & _). rewrite Hp.
  split; [exact Ht |]. unfold advance.
  destruct (isDeleting s);
    [destruct (charIndex s - 1 <=? 0) | destruct (charIndex s + 1 >=? _)];
    simpl; apply buildText_prefix, Ht.
Qed.

Lemma prefixShown_stop (s : State) : prefixShown s -> prefixShown (stop s).
Proof.
  unfold prefixShown. destruct (stop_fields s) as (_ & _ & _ & _ & _ & Hp & Hx).
  rewrite Hp, Hx. auto.
Qed.

Lemma prefixShown_handle (e : Event) (s : State) :
  prefixShown s -> prefixShown (handle e s).
Proof.
  intros H. destruct e; simpl; unfold pause, resume, fire, disconnectedCallback.
  1-4: destruct (listening s); auto using prefixShown_stop.
  - destruct (JS.handleTruthy (timeout s)); auto.
    apply prefixShown_advance, H.
  - destruct (JS.handleTruthy (timeout s)); auto.
    apply prefixShown_advance, H.
  - destruct (isPending h (timers s)); auto.
    apply prefixShown_advance. apply H.
  - apply prefixShown_stop, H.
Qed.

Lemma prefixShown_run (es : list Event) (s : State) :
  prefixShown s -> prefixShown (run es s).
Proof.
  revert s. induction es as [| e es IH]; simpl; intros s H; auto.
  apply IH, prefixShown_handle, H.
Qed.

Lemma prefixShown_connected (reducedMotion : bool) (d : Dataset) (t0 : string) :
  prefixShown (connectedCallback reducedMotion d (created t0)).
Proof.
  assert (Ht : forall s, JS.trim (prefix (configure d s)) = prefix (configure d s))
    by (intros s; apply JSMore.trim_idem).
  unfold connectedCallback.
  set (s1 := configure d (created t0)). specialize (Ht (created t0)). fold s1 in Ht.
  destruct (length (categories s1) =? 0)%nat.
  - split; [exact Ht |]. exists "".
    assert (E : forall p : string, p = (p ++ "")%string)
      by (intros p; induction p; simpl; congruence).
    apply E.
  - destruct (reducedMotion || _).
    + split; [exact Ht |]. simpl. apply (buildText_prefix s1), Ht.
    + unfold resume. simpl.
      apply prefixShown_advance. exact Ht.
Qed.

(** Without listeners and without a timer no event changes anything. *)
Lemma still_handle (e : Event) (s : State) :
  listening s = false -> timeout s = None -> pending (timers s) = [] ->
  handle e s = s.
Proof.
  intros Hl Ht Hp. destruct e; simpl; rewrite ?Hl; auto.
  - unfold fire, isPending. rewrite Hp. reflexivity.
  - unfold disconnectedCallback, stop. rewrite Ht. reflexivity.
Qed.

Lemma still_run (es : list Event) (s : State) :
  listening s = false -> timeout s = None -> pending (timers s) = [] ->
  run es s = s.
Proof.
  intros Hl Ht Hp. induction es as [| e es IH]; simpl; auto.
  rewrite still_handle; auto.
Qed.

End HeaderSearchMore.

(** ** The dropdown of the predictive search *)

Module PredictiveSearchMore.
Import PredictiveSearch PredictiveSearchFacts.

#[local] Hint Unfold setDropdownState openDropdown closeDropdown
  syncDropdownState hideResetButton showResetButton
  stopPlaceholderAnimation pausePlaceholderAnimation
  resetPlaceholderAnimation advancePlaceholder resumePlaceholderAnimation
  handlePlaceholderInput onFocus handleFocusOut onBlur focusInput blurInput
  set_currentIndex send morph resultsArrived resultsFailed resetSearchApply
  emptySectionArrived recentlyViewedArrived navigate click onEnter
  disconnectedCallback settle resume stateOf : model.

Lemma dropdownSynced_ext (s s' : State) :
  dropdownOf s' = dropdownOf s -> dropdownSynced s -> dropdownSynced s'.
Proof.
  unfold dropdownOf, dropdownSynced. intros E H. injection E as E1 E2.
  congruence.
Qed.

Lemma dropdownSynced_set (open : bool) (s : State) :
  dropdownSynced (setDropdownState open s).
Proof. reflexivity. Qed.

Ltac dropdown_known h :=
  lazymatch h with
  | setDropdownState => apply dropdownSynced_set
  | openDropdown => apply dropdownSynced_set
  | closeDropdown => apply dropdownSynced_set
  | syncDropdownState => apply dropdownSynced_set
  end.

Ltac dropdown := intros; repeat preserve_step dropdownSynced_ext dropdown_known.

Lemma dropdownSynced_pause s :
  dropdownSynced s -> dropdownSynced (pausePlaceholderAnimation s).
Proof. dropdown. Qed.

Lemma dropdownSynced_advance s :
  dropdownSynced s -> dropdownSynced (advancePlaceholder s).
Proof.
  intros H. apply (dropdownSynced_ext s); [| exact H].
  unfold dropdownOf. frame.
Qed.

Lemma dropdownSynced_resume s :
  dropdownSynced s -> dropdownSynced (resumePlaceholderAnimation s).
Proof.
  intros H. unfold resumePlaceholderAnimation.
  destruct (reducedMotion s); auto.
  destruct (negb (shouldAnimatePlaceholder s)); [apply dropdownSynced_pause, H |].
  destruct (JS.handleTruthy (placeholderTimeout s)); auto.
  apply dropdownSynced_advance, H.
Qed.

Ltac dropdown_known h ::=
  lazymatch h with
  | setDropdownState => apply dropdownSynced_set
  | openDropdown => apply dropdownSynced_set
  | closeDropdown => apply dropdownSynced_set
  | syncDropdownState => apply dropdownSynced_set
  | pausePlaceholderAnimation => apply dropdownSynced_pause
  | advancePlaceholder => apply dropdownSynced_advance
  | resumePlaceholderAnimation => apply dropdownSynced_resume
  end.

Lemma dropdownSynced_focusInput s : dropdownSynced s -> dropdownSynced (focusInput s).
Proof. dropdown. Qed.

Lemma dropdownSynced_blurInput s : dropdownSynced s -> dropdownSynced (blurInput s).
Proof. dropdown. Qed.

Lemma dropdownSynced_set_currentIndex i s :
  dropdownSynced s -> dropdownSynced (set_currentIndex i s).
Proof.
  intros H. unfold set_currentIndex. destruct (allResultsItems s); auto.
  apply dropdownSynced_focusInput. exact H.
Qed.

Ltac dropdown_known h ::=
  lazymatch h with
  | setDropdownState => apply dropdownSynced_set
  | openDropdown => apply dropdownSynced_set
  | closeDropdown => apply dropdownSynced_set
  | syncDropdownState => apply dropdownSynced_set
  | pausePlaceholderAnimation => apply dropdownSynced_pause
  | advancePlaceholder => apply dropdownSynced_advance
  | resumePlaceholderAnimation => apply dropdownSynced_resume
  | focusInput => apply dropdownSynced_focusInput
  | blurInput => apply dropdownSynced_blurInput
  | set_currentIndex => apply dropdownSynced_set_currentIndex
  end.

Lemma dropdownSynced_resetSearchBegin s :
  dropdownSynced s -> dropdownSynced (resetSearchBegin s).
Proof. dropdown. Qed.

Lemma dropdownSynced_getSearchResults t s :
  dropdownSynced s -> dropdownSynced (getSearchResults t s).
Proof. dropdown. Qed.

Ltac dropdown_known h ::=
  lazymatch h with
  | setDropdownState => apply dropdownSynced_set
  | openDropdown => apply dropdownSynced_set
  | closeDropdown => apply dropdownSynced_set
  | syncDropdownState => apply dropdownSynced_set
  | pausePlaceholderAnimation => apply dropdownSynced_pause
  | advancePlaceholder => apply dropdownSynced_advance
  | resumePlaceholderAnimation => apply dropdownSynced_resume
  | focusInput => apply dropdownSynced_focusInput
  | blurInput => apply dropdownSynced_blurInput
  | set_currentIndex => apply dropdownSynced_set_currentIndex
  | resetSearchBegin => apply dropdownSynced_resetSearchBegin
  | getSearchResults => apply dropdownSynced_getSearchResults
  end.

Lemma dropdownSynced_resume_k k r s :
  dropdownSynced s -> dropdownSynced (settle (resume k r s)).
Proof.
  intros H. destruct k, r; simpl.
  all: unfold resultsFailed, emptySectionArrived; split_ifs; simpl.
  all: solve [dropdown].
Qed.

Lemma dropdownSynced_handle e s : dropdownSynced s -> dropdownSynced (handle e s).
Proof.
  intros H. destruct e; unfold handle.
  all: try (solve [dropdown]).
  destruct (awaiting s !! k); auto. apply dropdownSynced_resume_k. exact H.
Qed.

Lemma dropdownSynced_run es s : dropdownSynced s -> dropdownSynced (run es s).
Proof.
  revert s. induction es as [| e es IH]; simpl; intros s H; auto.
  apply IH, dropdownSynced_handle, H.
Qed.

Lemma dropdownSynced_connected c : dropdownSynced (connectedCallback c).
Proof.
  unfold connectedCallback, setupPlaceholderAnimation. cbv zeta.
  repeat preserve_step dropdownSynced_ext dropdown_known.
Qed.


(** ** The animation and the input *)

Lemma pausedWhileBusy_ext (s s' : State) :
  animationOf s' = animationOf s -> pausedWhileBusy s -> pausedWhileBusy s'.
Proof.
  unfold animationOf, pausedWhileBusy, shouldAnimatePlaceholder.
  intros E H. injection E as E1 E2 E3 E4 E5 E6.
  rewrite E1, E2, E3, E4, E5, E6. exact H.
Qed.

Lemma stop_not_truthy (s : State) :
  JS.handleTruthy (placeholderTimeout (stopPlaceholderAnimation s)) = false.
Proof.
  unfold stopPlaceholderAnimation.
  destruct (JS.handleTruthy (placeholderTimeout s)) eqn:E; [| exact E].
  destruct (placeholderTimeout s); [reflexivity | discriminate].
Qed.

Lemma pausedWhileBusy_pause (s : State) :
  pausedWhileBusy (pausePlaceholderAnimation s).
Proof.
  intros _ _ Ht. exfalso.
  assert (E : placeholderTimeout (pausePlaceholderAnimation s)
              = placeholderTimeout (stopPlaceholderAnimation s))
    by (unfold pausePlaceholderAnimation; destruct (JS.len _ =? 0); reflexivity).
  rewrite E, stop_not_truthy in Ht. discriminate.
Qed.

Lemma pausedWhileBusy_advance (s : State) :
  pausedWhileBusy (advancePlaceholder s).
Proof.
  destruct (shouldAnimatePlaceholder s) eqn:E.
  - intros _ _ _. rewrite advance_eligible. exact E.
  - unfold advancePlaceholder. rewrite E. apply pausedWhileBusy_pause.
Qed.

Lemma pausedWhileBusy_resume (s : State) :
  pausedWhileBusy s -> pausedWhileBusy (resumePlaceholderAnimation s).
Proof.
  intros H. unfold resumePlaceholderAnimation.
  destruct (reducedMotion s); auto.
  destruct (negb (shouldAnimatePlaceholder s)); [apply pausedWhileBusy_pause |].
  destruct (JS.handleTruthy (placeholderTimeout s)); auto.
  apply pausedWhileBusy_advance.
Qed.

Lemma pausedWhileBusy_unfocus (s : State) :
  pausedWhileBusy s -> pausedWhileBusy (set_inputFocused false s).
Proof.
  unfold pausedWhileBusy, shouldAnimatePlaceholder. simpl.
  intros H Hl Hp Ht. specialize (H Hl Hp Ht).
  destruct (JS.len (inputValue s) =? 0), (0 <? length (placeholderCategories s))%nat,
    (inputFocused s); simpl in *; try discriminate; auto.
Qed.

Lemma pausedWhileBusy_clear (s : State) :
  pausedWhileBusy s -> pausedWhileBusy (set_inputValue "" s).
Proof.
  unfold pausedWhileBusy, shouldAnimatePlaceholder. simpl.
  intros H Hl Hp Ht. specialize (H Hl Hp Ht).
  destruct (JS.len (inputValue s) =? 0); simpl in *; [exact H | discriminate].
Qed.

Lemma pausedWhileBusy_onFocus (s : State) : pausedWhileBusy (onFocus s).
Proof.
  unfold onFocus. destruct (listenersActive s) eqn:El.
  - simpl. destruct (placeholderListeners s) eqn:Ep.
    + apply pausedWhileBusy_pause.
    + intros _ Hp. simpl in Hp. congruence.
  - intros Hl. congruence.
Qed.

Lemma pausedWhileBusy_focusInput (s : State) :
  pausedWhileBusy s -> pausedWhileBusy (focusInput s).
Proof.
  intros H. unfold focusInput. destruct (inputFocused s); auto.
  destruct (inputFocusable s); auto.
  apply pausedWhileBusy_onFocus.
Qed.

Ltac busy_known h :=
  lazymatch h with
  | pausePlaceholderAnimation => apply pausedWhileBusy_pause
  | advancePlaceholder => apply pausedWhileBusy_advance
  | resumePlaceholderAnimation => apply pausedWhileBusy_resume
  | focusInput => apply pausedWhileBusy_focusInput
  | onFocus => apply pausedWhileBusy_onFocus
  | set_inputFocused => apply pausedWhileBusy_unfocus
  | set_inputValue => apply pausedWhileBusy_clear
  end.

Ltac busy := intros; repeat preserve_step pausedWhileBusy_ext busy_known.

Lemma pausedWhileBusy_blurInput (s : State) :
  pausedWhileBusy s -> pausedWhileBusy (blurInput s).
Proof. busy. Qed.

Lemma pausedWhileBusy_set_currentIndex i (s : State) :
  pausedWhileBusy s -> pausedWhileBusy (set_currentIndex i s).
Proof.
  intros H. unfold set_currentIndex. destruct (allResultsItems s); auto.
  apply pausedWhileBusy_focusInput. exact H.
Qed.

Ltac busy_known h ::=
  lazymatch h with
  | pausePlaceholderAnimation => apply pausedWhileBusy_pause
  | advancePlaceholder => apply pausedWhileBusy_advance
  | resumePlaceholderAnimation => apply pausedWhileBusy_resume
  | focusInput => apply pausedWhileBusy_focusInput
  | onFocus => apply pausedWhileBusy_onFocus
  | set_inputFocused => apply pausedWhileBusy_unfocus
  | set_inputValue => apply pausedWhileBusy_clear
  | blurInput => apply pausedWhileBusy_blurInput
  | set_currentIndex => apply pausedWhileBusy_set_currentIndex
  end.

Lemma pausedWhileBusy_resetSearchBegin s :
  pausedWhileBusy s -> pausedWhileBusy (resetSearchBegin s).
Proof. busy. Qed.

Lemma pausedWhileBusy_getSearchResults t s :
  pausedWhileBusy s -> pausedWhileBusy (getSearchResults t s).
Proof. busy. Qed.

Ltac busy_known h ::=
  lazymatch h with
  | pausePlaceholderAnimation => apply pausedWhileBusy_pause
  | advancePlaceholder => apply pausedWhileBusy_advance
  | resumePlaceholderAnimation => apply pausedWhileBusy_resume
  | focusInput => apply pausedWhileBusy_focusInput
  | onFocus => apply pausedWhileBusy_onFocus
  | set_inputFocused => apply pausedWhileBusy_unfocus
  | set_inputValue => apply pausedWhileBusy_clear
  | blurInput => apply pausedWhileBusy_blurInput
  | set_currentIndex => apply pausedWhileBusy_set_currentIndex
  | resetSearchBegin => apply pausedWhileBusy_resetSearchBegin
  | getSearchResults => apply pausedWhileBusy_getSearchResults
  end.

Lemma pausedWhileBusy_resume_k k r s :
  pausedWhileBusy s -> pausedWhileBusy (settle (resume k r s)).
Proof.
  intros H. destruct k, r; simpl.
  all: unfold resultsFailed, emptySectionArrived; split_ifs; simpl.
  all: solve [busy].
Qed.

Lemma pausedWhileBusy_input (value : string) (s : State) :
  pausedWhileBusy s -> pausedWhileBusy (handle (Input value) s).
Proof.
  intros H. unfold handle. simpl.
  destruct (listenersActive s) eqn:El; [| intros Hl; simpl in Hl; congruence].
  destruct (placeholderListeners s) eqn:Ep; [| intros _ Hp; simpl in Hp; congruence].
  unfold handlePlaceholderInput. simpl.
  destruct (0 <? JS.len value) eqn:Ev; [apply pausedWhileBusy_pause |].
  assert (value = "").
  { apply Z.ltb_ge in Ev. destruct value; [reflexivity |].
    unfold JS.len in Ev. simpl String.length in Ev. lia. }
  subst value. busy.
Qed.

Lemma pausedWhileBusy_handle e s : pausedWhileBusy s -> pausedWhileBusy (handle e s).
Proof.
  intros H. destruct e.
  3: apply pausedWhileBusy_input, H.
  all: unfold handle.
  all: try (solve [busy]).
  - destruct (awaiting s !! k); auto. apply pausedWhileBusy_resume_k. exact H.
  - unfold disconnectedCallback. intros Hl. exfalso.
    assert (E : listenersActive (stopPlaceholderAnimation (set_listenersActive false s))
                = false)
      by (unfold stopPlaceholderAnimation; split_ifs; reflexivity).
    congruence.
Qed.

Lemma pausedWhileBusy_run es s : pausedWhileBusy s -> pausedWhileBusy (run es s).
Proof.
  revert s. induction es as [| e es IH]; simpl; intros s H; auto.
  apply IH, pausedWhileBusy_handle, H.
Qed.

Lemma pausedWhileBusy_connected c : pausedWhileBusy (connectedCallback c).
Proof.
  unfold connectedCallback, setupPlaceholderAnimation. cbv zeta.
  match goal with
  | |- pausedWhileBusy (if (length (placeholderCategories ?y) =? 0)%nat then _ else _) =>
      set (x := y)
  end.
  assert (Hx : placeholderListeners x = false)
    by (subst x; split_ifs; reflexivity).
  assert (Ht : placeholderTimeout x = None)
    by (subst x; split_ifs; reflexivity).
  assert (Hq : pausedWhileBusy x) by (intros _ Hp; congruence).
  clearbody x.
  destruct (length (placeholderCategories x) =? 0)%nat; [exact Hq |].
  destruct (reducedMotion x || _).
  - intros _ Hp. simpl in Hp. congruence.
  - apply pausedWhileBusy_resume. intros _ _ Ht'. simpl in Ht'.
    rewrite Ht in Ht'. discriminate.
Qed.


(** ** Keys *)

Ltac crunch :=
  repeat autounfold with model;
  unfold createAbortController, abort; cbv beta iota zeta;
  split_ifs; simpl; first [reflexivity | congruence].

Lemma resetSearchBegin_fields (s : State) :
  let t := resetSearchBegin s in
  inputValue t = ""
  /\ resetButtonHidden t = true
  /\ requests t = (requests s ++ [EmptySectionRequest])%list
  /\ awaiting t = (awaiting s ++ [AwaitEmptySection (length (controllers s))])%list
  /\ activeFetch t = Some (length (controllers s))
  /\ navigated t = navigated s
  /\ uncaught t = uncaught s.
Proof.
  intros t. subst t. unfold resetSearchBegin.
  repeat split.
  all: crunch.
Qed.

(** The dropdown, the focus and the listeners. *)
Lemma ui_focusInput (t : State) :
  dropdownOpen (focusInput t)
  = (if inputFocused t then dropdownOpen t
     else if inputFocusable t && listenersActive t then true
          else dropdownOpen t)
  /\ inputFocused (focusInput t) = inputFocused t || inputFocusable t
  /\ listenersActive (focusInput t) = listenersActive t
  /\ inputFocusable (focusInput t) = inputFocusable t.
Proof. repeat split; crunch. Qed.

Lemma ui_blurInput (t : State) :
  dropdownOpen (blurInput t)
  = (if inputFocused t && listenersActive t then false else dropdownOpen t)
  /\ inputFocused (blurInput t) = false
  /\ listenersActive (blurInput t) = listenersActive t.
Proof. repeat split; crunch. Qed.

Lemma ui_set_currentIndex (i : Z) (t : State) :
  match allResultsItems t with
  | [] => set_currentIndex i t = t
  | _ :: _ =>
      dropdownOpen (set_currentIndex i t) = dropdownOpen (focusInput t)
      /\ inputFocused (set_currentIndex i t) = inputFocused (focusInput t)
      /\ listenersActive (set_currentIndex i t) = listenersActive t
  end.
Proof.
  unfold set_currentIndex. destruct (allResultsItems t); [reflexivity |].
  match goal with
  | |- context [focusInput ?x] =>
      destruct (ui_focusInput x) as (H1 & H2 & H3 & _); rewrite H1, H2, H3
  end.
  destruct (ui_focusInput t) as (H1' & H2' & _). rewrite H1', H2'. auto.
Qed.

Lemma ui_resetSearchBegin (t : State) :
  dropdownOpen (resetSearchBegin t) = dropdownOpen (set_currentIndex (-1) t)
  /\ inputFocused (resetSearchBegin t) = inputFocused (set_currentIndex (-1) t)
  /\ listenersActive (resetSearchBegin t)
     = listenersActive (set_currentIndex (-1) t).
Proof.
  unfold resetSearchBegin. generalize (set_currentIndex (-1) t). intros s1.
  repeat split; crunch.
Qed.

Lemma blurInput_fields (t : State) :
  inputValue (blurInput t) = inputValue t
  /\ resetButtonHidden (blurInput t) = resetButtonHidden t
  /\ requests (blurInput t) = requests t
  /\ awaiting (blurInput t) = awaiting t
  /\ activeFetch (blurInput t) = activeFetch t
  /\ navigated (blurInput t) = navigated t
  /\ controllers (blurInput t) = controllers t
  /\ results (blurInput t) = results t.
Proof. repeat split; crunch. Qed.

Lemma escape_fields (shiftKey : bool) (s : State) :
  let s' := onSearchKeyDown "Escape" shiftKey s in
  dropdownOpen s' = false
  /\ inputFocused s' = false
  /\ inputValue s' = ""
  /\ resetButtonHidden s' = true
  /\ requests s' = (requests s ++ [EmptySectionRequest])%list
  /\ awaiting s' = (awaiting s ++ [AwaitEmptySection (length (controllers s))])%list
  /\ activeFetch s' = Some (length (controllers s))
  /\ navigated s' = navigated s.
Proof.
  intros s'. subst s'. unfold onSearchKeyDown.
  change (String.eqb "Escape" "Escape") with true. cbv iota.
  set (t0 := closeDropdown s).
  assert (H0 : dropdownOpen t0 = false /\ inputFocused t0 = inputFocused s
               /\ listenersActive t0 = listenersActive s
               /\ requests t0 = requests s /\ awaiting t0 = awaiting s
               /\ controllers t0 = controllers s
               /\ navigated t0 = navigated s) by (repeat split).
  destruct H0 as (D0 & F0 & L0 & Q0 & A0 & K0 & N0).
  destruct (resetSearchBegin_fields t0) as (R1 & R2 & R3 & R4 & R5 & R6 & _).
  destruct (ui_resetSearchBegin t0) as (U1 & U2 & U3).
  pose proof (ui_set_currentIndex (-1) t0) as V.
  destruct (ui_focusInput t0) as (W1 & W2 & _).
  clearbody t0.
  set (t := resetSearchBegin t0) in *.
  destruct (blurInput_fields t) as (B1 & B2 & B3 & B4 & B5 & B6 & _).
  destruct (ui_blurInput t) as (C1 & C2 & _).
  clearbody t.
  rewrite B1, B2, B3, B4, B5, B6, R1, R2, R3, R4, R5, R6, C1, C2, U1, U2, U3.
  rewrite Q0, A0, K0, N0.
  repeat split; auto.
  destruct (allResultsItems t0).
  - rewrite V, D0. destruct (inputFocused t0), (listenersActive t0); reflexivity.
  - destruct V as (V1 & V2 & V3). rewrite V1, V2, V3, W1, W2, D0, F0, L0.
    destruct (inputFocused s), (inputFocusable t0), (listenersActive s);
      reflexivity.
Qed.

Lemma set_currentIndex_fields (i : Z) (s : State) :
  let t := set_currentIndex i s in
  inputValue t = inputValue s
  /\ resetButtonHidden t = resetButtonHidden s
  /\ requests t = requests s
  /\ awaiting t = awaiting s
  /\ activeFetch t = activeFetch s
  /\ controllers t = controllers s
  /\ sectionId t = sectionId s
  /\ navigated t = navigated s
  /\ uncaught t = uncaught s.
Proof. intros t. subst t. repeat split; crunch. Qed.

Lemma getSearchResults_fields (term : string) (s : State) :
  let t := getSearchResults term s in
  inputValue t = inputValue s
  /\ resetButtonHidden t = resetButtonHidden s
  /\ results t = results s
  /\ (sectionIdTruthy s = true ->
      requests t = (requests s ++ [SearchRequest term])%list
      /\ awaiting t = (awaiting s ++ [AwaitResults (length (controllers s))])%list
      /\ activeFetch t = Some (length (controllers s)))
  /\ (sectionIdTruthy s = false -> t = s).
Proof.
  intros t. subst t. unfold getSearchResults.
  destruct (sectionIdTruthy s); simpl.
  - repeat split; try discriminate; crunch.
  - repeat split; discriminate.
Qed.

Lemma resumePlaceholder_fields (s : State) :
  let t := resumePlaceholderAnimation s in
  results t = results s /\ uncaught t = uncaught s
  /\ dropdownOpen t = dropdownOpen s /\ inputValue t = inputValue s
  /\ inputFocused t = inputFocused s /\ requests t = requests s
  /\ awaiting t = awaiting s.
Proof. intros t. subst t. repeat split; crunch. Qed.


(** ** Requests and responses *)

(** A property of the controllers that [#createAbortController] keeps
    holds in every state. *)
Section TokenProperty.

Variable Q : State -> Prop.
Hypothesis Q_ext : forall s s', tokensOf s' = tokensOf s -> Q s -> Q s'.
Hypothesis Q_create : forall s, Q s -> Q (snd (createAbortController s)).

Lemma kept_getSearchResults t s : Q s -> Q (getSearchResults t s).
Proof.
  intros H. unfold getSearchResults. destruct (negb (sectionIdTruthy s)); auto.
  pose proof (Q_create s H) as Hc.
  destruct (createAbortController s) as [a s1]. simpl in Hc.
  apply (Q_ext s1); [reflexivity | exact Hc].
Qed.

Lemma kept_resetSearchBegin s : Q s -> Q (resetSearchBegin s).
Proof.
  intros H. unfold resetSearchBegin.
  match goal with
  | |- context [createAbortController ?x] =>
      assert (Hx : Q x)
        by (apply (Q_ext s); [apply tokens_set_currentIndex | exact H]);
      pose proof (Q_create x Hx) as Hc;
      destruct (createAbortController x) as [a s1]
  end.
  simpl in Hc. apply (Q_ext s1); [reflexivity | exact Hc].
Qed.

Lemma kept_search i s : Q s -> Q (search i s).
Proof.
  intros H. unfold search. destruct (negb _); auto.
  assert (H1 : Q (set_currentIndex (-1) s))
    by (apply (Q_ext s); [apply tokens_set_currentIndex | exact H]).
  destruct (JS.len _ =? 0).
  - apply kept_resetSearchBegin, H1.
  - apply kept_getSearchResults. revert H1. apply Q_ext. reflexivity.
Qed.

Lemma kept_onSearchKeyDown key shift s : Q s -> Q (onSearchKeyDown key shift s).
Proof.
  intros H. unfold onSearchKeyDown.
  destruct (String.eqb key "Escape").
  { apply (Q_ext (resetSearchBegin (closeDropdown s)));
      [apply tokens_blurInput |].
    apply kept_resetSearchBegin. revert H. apply Q_ext. reflexivity. }
  destruct (_ || _ || _)%bool; auto.
  repeat match goal with
         | |- Q (if ?b then _ else _) => destruct b
         end; auto;
    try (apply (Q_ext s); [| exact H];
         first [ apply tokens_onEnter
               | etransitivity; [apply tokens_set_currentIndex | reflexivity] ]).
Qed.

Lemma kept_handle e s : Q s -> Q (handle e s).
Proof.
  intros H.
  assert (Hext : forall s', tokensOf s' = tokensOf s -> Q s')
    by (intros s' E; apply (Q_ext s); auto).
  destruct e; unfold handle.
  - apply Hext, tokens_focusInput.
  - destruct (inputFocused s); auto. apply Hext.
    etransitivity; [apply tokens_onBlur | reflexivity].
  - cbv zeta. destruct (listenersActive _); [| apply Hext; reflexivity].
    destruct (placeholderListeners _); [| apply Hext; reflexivity].
    apply Hext. etransitivity; [apply tokens_handlePlaceholderInput | reflexivity].
  - apply kept_search, H.
  - unfold resetSearch. apply kept_resetSearchBegin.
    destruct keepFocus; auto. apply Hext, tokens_focusInput.
  - apply kept_onSearchKeyDown, H.
  - destruct (awaiting s !! k); auto. apply Hext.
    etransitivity; [apply tokens_resume | reflexivity].
  - destruct (isPending h (timers s)); auto. apply Hext.
    etransitivity; [apply tokens_advancePlaceholder | reflexivity].
  - destruct (listenersActive s); auto. unfold handleOutsideClick.
    destruct (negb (dropdownOpen s)); auto. apply Hext.
    etransitivity; [apply tokens_blurInput | reflexivity].
  - destruct (listenersActive s); auto. unfold handleDialogClose.
    apply kept_resetSearchBegin. apply Hext. reflexivity.
  - destruct (listenersActive s); auto.
  - destruct (listenersActive s); auto. apply Hext, tokens_focusInput.
  - auto.
  - auto.
  - apply Hext, tokens_disconnectedCallback.
  - apply Hext. reflexivity.
Qed.

Lemma kept_run es s : Q s -> Q (run es s).
Proof.
  revert s. induction es as [| e es IH]; simpl; intros s H; auto.
  apply IH, kept_handle, H.
Qed.

End TokenProperty.

Lemma liveInv_ext (s s' : State) :
  tokensOf s' = tokensOf s -> liveInv s -> liveInv s'.
Proof.
  intros E (H1 & H2). split; [apply (tokenInv_ext s); auto |].
  unfold tokensOf in E. injection E as E1 E2.
  unfold activeLive, aborted. rewrite E1, E2. exact H2.
Qed.

Lemma liveInv_create (s : State) :
  liveInv s -> liveInv (snd (createAbortController s)).
Proof.
  intros (H1 & _). split; [apply tokenInv_create, H1 |].
  intros a Ha. assert (a = length (controllers s)).
  { unfold createAbortController in Ha. simpl in Ha. congruence. }
  subst a. apply create_fresh, H1.
Qed.

Lemma liveInv_handle e s : liveInv s -> liveInv (handle e s).
Proof. apply (kept_handle liveInv liveInv_ext liveInv_create). Qed.

Lemma liveInv_run es s : liveInv s -> liveInv (run es s).
Proof. apply (kept_run liveInv liveInv_ext liveInv_create). Qed.

Lemma liveInv_connected c : liveInv (connectedCallback c).
Proof.
  split; [apply tokenInv_connected |].
  intros a Ha. exfalso.
  assert (E : tokensOf (connectedCallback c) = tokensOf (created c))
    by (unfold tokensOf, connectedCallback, setupPlaceholderAnimation; frame).
  unfold tokensOf in E. injection E as _ E. rewrite E in Ha. discriminate.
Qed.

End PredictiveSearchMore.

(** ** The menu drawer *)

Module HeaderDrawerFacts.
Import HeaderDrawer.

Lemma contains_remove (c x : string) (classes : list string) :
  contains c (remove x classes)
  = if String.eqb x c then false else contains c classes.
Proof.
  unfold contains, remove. induction classes as [| y l IH]; simpl.
  - destruct (String.eqb x c); reflexivity.
  - destruct (String.eqb_spec x y) as [-> | Hxy]; simpl.
    + rewrite IH. destruct (String.eqb_spec y c) as [-> | Hyc].
      * reflexivity.
      * destruct (String.eqb_spec c y); [congruence | reflexivity].
    + rewrite IH. destruct (String.eqb_spec x c) as [-> | Hxc].
      * destruct (String.eqb_spec c y); [congruence | reflexivity].
      * reflexivity.
Qed.

Lemma contains_app (c : string) (l l' : list string) :
  contains c (l ++ l') = contains c l || contains c l'.
Proof. unfold contains. apply existsb_app. Qed.

Lemma contains_add (c x : string) (classes : list string) :
  contains c (add x classes)
  = if String.eqb x c then true else contains c classes.
Proof.
  unfold add. destruct (contains x classes) eqn:E.
  - destruct (String.eqb_spec x c) as [<- | _]; auto.
  - rewrite contains_app. simpl. rewrite orb_false_r.
    destruct (String.eqb_spec x c) as [-> | Hn].
    + rewrite E. simpl. apply String.eqb_refl.
    + destruct (String.eqb_spec c x); [congruence |]. apply orb_false_r.
Qed.

Lemma activateSearchMode_fields (s : State) :
  let t := activateSearchMode s in
  drawerMode t = Some "search" /\ searchClass t = true
  /\ sectionsHidden t = List.map (fun _ => true) (sectionsHidden s)
  /\ suggestionsHidden t = option_map (fun _ => false) (suggestionsHidden s)
  /\ searchInput t = searchInput s /\ details t = details s
  /\ nested t = nested s /\ container t = container s
  /\ forcedDrawerContainer t = forcedDrawerContainer s
  /\ tasks t = tasks s /\ inputFocused t = inputFocused s
  /\ focusCalls t = focusCalls s /\ noAnimation t = noAnimation s.
Proof.
  intros t. subst t. unfold activateSearchMode, showDrawerSuggestions. simpl.
  destruct (suggestionsHidden s) eqn:E; simpl; rewrite ?E; repeat split.
Qed.

Lemma searchListeners_activate (s : State) :
  searchListeners (activateSearchMode s) = searchListeners s.
Proof.
  destruct (activateSearchMode_fields s) as (_ & _ & _ & H4 & H5 & _).
  unfold searchListeners. rewrite H4, H5.
  destruct (searchInput s), (suggestionsHidden s); reflexivity.
Qed.

Lemma resetDrawerSearch_fields (s : State) :
  let t := resetDrawerSearch s in
  drawerMode t = Some "menu" /\ searchClass t = false
  /\ searchInput t = option_map (fun _ => "") (searchInput s)
  /\ suggestionsHidden t = option_map (fun _ => true) (suggestionsHidden s)
  /\ sectionsHidden t = List.map (fun _ => false) (sectionsHidden s)
  /\ details t = details s /\ nested t = nested s
  /\ container t = container s
  /\ forcedDrawerContainer t = forcedDrawerContainer s
  /\ tasks t = tasks s /\ focusCalls t = focusCalls s.
Proof.
  intros t. subst t. unfold resetDrawerSearch.
  destruct (suggestionsHidden s) eqn:E1, (searchInput s) eqn:E2; simpl;
    rewrite ?E1, ?E2; simpl; rewrite ?E1, ?E2; repeat split.
Qed.

(** The task asked for last runs. *)
Lemma run_last (t : Task) (s : State) :
  handle (Run (length (tasks s))) (later t s) = runTask t s.
Proof.
  unfold handle, later. simpl.
  rewrite lookup_app_r by lia. rewrite Nat.sub_diag. simpl.
  rewrite delete_middle, app_nil_r. destruct s. reflexivity.
Qed.

Lemma closed_fields (s : State) :
  let t := runTask Closed s in
  openAttr (details t) = false
  /\ forcedDrawerContainer t = false
  /\ focusCalls t = (focusCalls s ++ [RemoveTrapFocus])%list
  /\ tasks t = tasks s
  /\ Forall (fun d => inAccordion d = false -> openAttr d = false) (nested t).
Proof.
  intros t. subst t. unfold runTask, restoreDrawerVisibility. simpl.
  assert (Hnested : forall l : list Details,
             Forall (fun d => inAccordion d = false -> openAttr d = false)
               (List.map
                  (fun d => if openAttr d && negb (inAccordion d)
                            then reset d else d) l)).
  { intros l. apply List.Forall_forall. intros d Hd.
    apply in_map_iff in Hd. destruct Hd as (x & <- & _).
    destruct (openAttr x) eqn:Eo, (inAccordion x) eqn:Ea; simpl; auto;
      rewrite ?Ea; congruence. }
  destruct (forcedDrawerContainer s) eqn:E; simpl; rewrite ?E; repeat split; auto.
Qed.

Lemma all_hidden (l : list bool) :
  Forall (fun hidden => hidden = true) (List.map (fun _ => true) l).
Proof.
  apply List.Forall_forall. intros x Hx. apply in_map_iff in Hx.
  destruct Hx as (? & <- & _). reflexivity.
Qed.

Lemma onSearchInputEvent_fields (s : State) :
  let t := onSearchInputEvent s in
  searchInput t = searchInput s /\ tasks t = tasks s
  /\ inputFocused t = inputFocused s
  /\ (drawerMode s = Some "search" -> drawerMode t = Some "search")
  /\ (Forall (fun hidden => hidden = true) (sectionsHidden s) ->
      Forall (fun hidden => hidden = true) (sectionsHidden t)).
Proof.
  intros t. subst t. unfold onSearchInputEvent.
  destruct (searchListeners s); [| auto].
  destruct (activateSearchMode_fields s)
    as (A1 & _ & A3 & _ & A5 & _ & _ & _ & _ & A10 & A11 & _).
  rewrite A1, A3, A5, A10, A11. repeat split; auto using all_hidden.
Qed.

(** The frame of the header search gives the input the focus. *)
Lemma focusSearchInput_fields (s : State) (value : string) :
  searchInput s = Some value ->
  let t := runTask FocusSearchInput s in
  inputFocused t = true /\ searchInput t = Some value
  /\ selection t = Some (JS.len value, JS.len value).
Proof.
  intros Hv t. subst t. unfold runTask. rewrite Hv.
  destruct (inputFocused s) eqn:Ef.
  - repeat split; auto.
  - destruct (onSearchInputEvent_fields (set_inputFocused true s))
      as (F1 & _ & F3 & _).
    set (u := onSearchInputEvent (set_inputFocused true s)) in *.
    simpl in F1, F3. clearbody u.
    change (inputFocused u = true /\ searchInput u = Some value
            /\ Some (JS.len value, JS.len value)
               = Some (JS.len value, JS.len value)).
    rewrite F1, F3. auto.
Qed.

(** [openSearch] without an event. *)
Lemma openSearch_fields (s : State) :
  let t := openSearch None s in
  drawerMode t = Some "search" /\ searchClass t = true
  /\ sectionsHidden t = List.map (fun _ => true) (sectionsHidden s)
  /\ suggestionsHidden t = option_map (fun _ => false) (suggestionsHidden s)
  /\ searchInput t = searchInput s.
Proof.
  assert (Hmap : forall l : list bool,
             List.map (fun _ => true) (List.map (fun _ => true) l)
             = List.map (fun _ => true) l)
    by (intros l; rewrite List.map_map; reflexivity).
  intros t. subst t. unfold openSearch.
  set (s0 := ensureDrawerVisibleForSearch s).
  assert (E0 : sectionsHidden s0 = sectionsHidden s
               /\ suggestionsHidden s0 = suggestionsHidden s
               /\ searchInput s0 = searchInput s).
  { subst s0. unfold ensureDrawerVisibleForSearch.
    destruct (forcedDrawerContainer s); [auto |].
    destruct (container s); [| auto].
    destruct (negb _); auto. }
  destruct E0 as (E1 & E2 & E3). clearbody s0.
  destruct (activateSearchMode_fields s0)
    as (A1 & A2 & A3 & A4 & A5 & A6 & _).
  pose proof (searchListeners_activate s0) as L.
  set (s1 := activateSearchMode s0) in *. clearbody s1.
  unfold open. destruct (hasSummary (details s1)); simpl.
  + destruct (searchListeners s1) eqn:El.
    * destruct (activateSearchMode_fields s1)
        as (B1 & B2 & B3 & B4 & B5 & _).
      rewrite B1, B2, B3, B4, B5, A3, A4, A5, E1, E2, E3, Hmap.
      destruct (suggestionsHidden s); auto.
    * rewrite A1, A2, A3, A4, A5, E1, E2, E3. auto.
  + rewrite A1, A2, A3, A4, A5, E1, E2, E3. auto.
Qed.

End HeaderDrawerFacts.


(** * More properties of the two components *)

Module HM := HeaderSearchMore.
Module PM := PredictiveSearchMore.

(** ** The dropdown *)

(** X1. In every state the connected component can reach, [aria-expanded]
    of the search input tells what [#dropdownOpen] holds. *)
Theorem dropdown_reflected (c : P.Config) (es : list P.Event) :
  let s := P.run es (P.connectedCallback c) in
  P.ariaExpanded s = P.dropdownOpen s.
Proof.
  apply (PM.dropdownSynced_run es), PM.dropdownSynced_connected.
Qed.

(** X2. While the listeners of the placeholder are bound (several
    categories, motion allowed, component connected), a timer of the
    animation is pending only over an empty input that does not have the
    focus. *)
Theorem animation_waits_for_input (c : P.Config) (es : list P.Event) :
  let s := P.run es (P.connectedCallback c) in
  P.listenersActive s = true -> P.placeholderListeners s = true ->
  pending (P.timers s) <> [] ->
  P.inputValue s = "" /\ P.inputFocused s = false.
Proof.
  intros s Hl Hp Hpend.
  assert (Hinv : P.engineInv s)
    by (apply PF.engineInv_run, PF.engineInv_connected).
  assert (Hb : P.pausedWhileBusy s)
    by (apply PM.pausedWhileBusy_run, PM.pausedWhileBusy_connected).
  destruct Hinv as ((_ & [(_ & E) | (h & d & Et & _ & Hh)]) & _); [contradiction |].
  assert (Ha : P.shouldAnimatePlaceholder s = true).
  { apply Hb; auto. rewrite Et. destruct h; [lia | reflexivity]. }
  unfold P.shouldAnimatePlaceholder in Ha.
  apply andb_prop in Ha. destruct Ha as (Ha & _).
  apply andb_prop in Ha. destruct Ha as (Hv & Hf).
  split; [| destruct (P.inputFocused s); [discriminate | reflexivity]].
  apply Z.eqb_eq in Hv. unfold JS.len in Hv.
  destruct (P.inputValue s); [reflexivity | simpl in Hv; lia].
Qed.

Lemma animation_waits_for_input_witness :
  let s := P.run [P.Focus; P.Blur false] (P.connectedCallback Scenario.page) in
  pending (P.timers s) <> [] /\ P.inputValue s = "" /\ P.inputFocused s = false.
Proof.
  intros s.
  assert (Hp : pending (P.timers s) <> []) by (vm_compute; discriminate).
  exact (conj Hp
           (animation_waits_for_input Scenario.page [P.Focus; P.Blur false]
              eq_refl eq_refl Hp)).
Defined.

(** ** Keys *)

(** X3. Escape, in any state the component can reach: the dropdown is
    closed, the input is emptied and loses the focus, the reset button is
    hidden, one request for the empty state is sent under a new token,
    and the token that was active is aborted. *)
Theorem escape_resets (c : P.Config) (es : list P.Event) (shiftKey : bool) :
  let s := P.run es (P.connectedCallback c) in
  let s' := P.handle (P.KeyDown "Escape" shiftKey) s in
  P.dropdownOpen s' = false /\ P.ariaExpanded s' = false
  /\ P.inputFocused s' = false /\ P.inputValue s' = ""
  /\ P.resetButtonHidden s' = true
  /\ P.requests s' = (P.requests s ++ [P.EmptySectionRequest])%list
  /\ P.awaiting s'
     = (P.awaiting s ++ [P.AwaitEmptySection (length (P.controllers s))])%list
  /\ P.activeFetch s' = Some (length (P.controllers s))
  /\ P.aborted (length (P.controllers s)) s' = false
  /\ (forall prev, P.activeFetch s = Some prev -> P.aborted prev s' = true)
  /\ P.navigated s' = P.navigated s.
Proof.
  intros s s'.
  assert (Hs : P.tokenInv s) by (apply PF.tokenInv_run, PF.tokenInv_connected).
  assert (Hl : P.liveInv s')
    by (apply PM.liveInv_handle, PM.liveInv_run, PM.liveInv_connected).
  assert (Hd : P.dropdownSynced s')
    by (apply PM.dropdownSynced_handle, PM.dropdownSynced_run,
          PM.dropdownSynced_connected).
  assert (Es : s' = P.onSearchKeyDown "Escape" shiftKey s) by reflexivity.
  clearbody s' s.
  pose proof (PM.escape_fields shiftKey s) as F. cbv zeta in F.
  rewrite <- Es in F. destruct F as (E1 & E2 & E3 & E4 & E5 & E6 & E7 & E8).
  destruct Hl as (Ht' & Hlive).
  assert (Hlen : length (P.controllers s') = S (length (P.controllers s))).
  { destruct Ht' as [(_ & Ha) | (older & last & Hc & Ha & _)]; [congruence |].
    rewrite Hc, length_app. simpl. rewrite E7 in Ha. injection Ha as ->. lia. }
  unfold P.dropdownSynced in Hd. rewrite E1 in Hd.
  repeat split; auto.
  intros prev Hprev.
  apply (PF.tokenInv_older_aborted s' prev (length (P.controllers s))); auto.
  destruct Hs as [(_ & Ha) | (older & last & Hc & Ha & _)]; [congruence |].
  rewrite Hc, length_app in *. simpl in *. rewrite Ha in Hprev.
  injection Hprev as <-. lia.
Qed.



(** ** Queries *)

(** X5. The debounced search on a text-editing event: the term is the
    trimmed text of the input. A blank term runs the reset (the input is
    emptied, the reset button hidden, the empty state requested). Any
    other term shows the reset button, leaves the input as typed and,
    when the component has a section id, requests the term under a new
    token; without a section id nothing is requested. *)
Theorem search_dispatch (s : P.State) (inputType : string) :
  inputType <> "" ->
  let term := JS.trim (P.inputValue s) in
  let s' := P.handle (P.Search (Some inputType)) s in
  (term = "" ->
   P.inputValue s' = "" /\ P.resetButtonHidden s' = true
   /\ P.requests s' = (P.requests s ++ [P.EmptySectionRequest])%list)
  /\ (term <> "" ->
      P.inputValue s' = P.inputValue s /\ P.resetButtonHidden s' = false
      /\ (P.sectionIdTruthy s = true ->
          P.requests s' = (P.requests s ++ [P.SearchRequest term])%list
          /\ P.awaiting s'
             = (P.awaiting s ++ [P.AwaitResults (length (P.controllers s))])%list
          /\ P.activeFetch s' = Some (length (P.controllers s)))
      /\ (P.sectionIdTruthy s = false ->
          P.requests s' = P.requests s /\ P.awaiting s' = P.awaiting s
          /\ P.activeFetch s' = P.activeFetch s)).
Proof.
  intros Ht term s'.
  assert (E : s' = if JS.len term =? 0
                   then P.resetSearchBegin (P.set_currentIndex (-1) s)
                   else P.getSearchResults term
                          (P.showResetButton (P.set_currentIndex (-1) s))).
  { subst s'. unfold P.handle, P.search. fold term.
    destruct inputType; [congruence | reflexivity]. }
  destruct (PM.set_currentIndex_fields (-1) s)
    as (F1 & F2 & F3 & F4 & F5 & F6 & F7 & F8 & _).
  assert (Hsec : P.sectionIdTruthy (P.showResetButton (P.set_currentIndex (-1) s))
                 = P.sectionIdTruthy s)
    by (unfold P.sectionIdTruthy; simpl; rewrite F7; reflexivity).
  split.
  - intros Hterm. rewrite Hterm in E. simpl in E. rewrite E.
    destruct (PM.resetSearchBegin_fields (P.set_currentIndex (-1) s))
      as (R1 & R2 & R3 & _).
    rewrite R1, R2, R3, F3. auto.
  - intros Hterm.
    assert (Hlen : (JS.len term =? 0) = false).
    { apply Z.eqb_neq. unfold JS.len. destruct term; [congruence |].
      simpl String.length. lia. }
    rewrite Hlen in E. rewrite E.
    destruct (PM.getSearchResults_fields term
                (P.showResetButton (P.set_currentIndex (-1) s)))
      as (G1 & G2 & _ & G4 & G5).
    rewrite Hsec in G4, G5.
    split; [rewrite G1; exact F1 |]. split; [rewrite G2; reflexivity |]. split.
    + intros Hs. destruct (G4 Hs) as (G6 & G7 & G8).
      rewrite G6, G7, G8. simpl. rewrite F3, F4, F6. auto.
    + intros Hs. rewrite (G5 Hs). simpl. auto.
Qed.

Lemma search_dispatch_witness :
  let s := P.handle (P.Input " blue ") (P.connectedCallback Scenario.page) in
  P.requests (P.handle (P.Search (Some "insertText")) s) = [P.SearchRequest "blue"].
Proof.
  intros s.
  destruct (search_dispatch s "insertText" ltac:(discriminate)) as (_ & H).
  destruct (H ltac:(vm_compute; discriminate)) as (_ & _ & H' & _).
  destruct (H' eq_refl) as (H'' & _).
  exact H''.
Defined.

(** X6. A request that fails never touches the results. The error
    surfaces, except for a query whose token has been aborted, which
    swallows it; a reset that fails surfaces the error even when its token
    has been aborted. The closure is gone from the waiting ones. *)
Theorem failure_surfaces (s : P.State) (i : nat) (k : P.Continuation)
    (error : string) :
  P.awaiting s !! i = Some k ->
  let s' := P.handle (P.Respond i (P.Rejected error)) s in
  P.results s' = P.results s
  /\ P.awaiting s' = delete i (P.awaiting s)
  /\ P.uncaught s'
     = match k with
       | P.AwaitResults token =>
           if P.aborted token s then P.uncaught s
           else (P.uncaught s ++ [error])%list
       | _ => (P.uncaught s ++ [error])%list
       end.
Proof.
  intros Hk s'. subst s'. unfold P.handle. rewrite Hk.
  destruct k; simpl; auto.
  unfold P.resultsFailed, P.aborted. simpl.
  destruct (default false (P.controllers s !! token)); simpl; auto.
Qed.

Lemma failure_surfaces_witness :
  let s := P.run Scenario.twoQueries (P.connectedCallback Scenario.page) in
  P.uncaught (P.handle (P.Respond 0 (P.Rejected "offline")) s) = []
  /\ P.uncaught (P.handle (P.Respond 1 (P.Rejected "offline")) s) = ["offline"].
Proof.
  intros s.
  destruct (failure_surfaces s 0 (P.AwaitResults 0) "offline" eq_refl)
    as (_ & _ & H0).
  destruct (failure_surfaces s 1 (P.AwaitResults 1) "offline" eq_refl)
    as (_ & _ & H1).
  exact (conj H0 H1).
Defined.

(** X7. The answer to the request made last is rendered: in any state
    the component can reach, the closure that holds the active token finds
    it not aborted, so a non-empty response to its query becomes the
    results, and a response to its reset with the empty section, when no
    product was viewed, becomes the results as well. *)
Theorem latest_response_rendered (c : P.Config) (es : list P.Event)
    (i token : nat) (m : P.Markup) :
  let s := P.run es (P.connectedCallback c) in
  let s' := P.handle (P.Respond i (P.Fulfilled m)) s in
  P.activeFetch s = Some token ->
  (P.awaiting s !! i = Some (P.AwaitResults token) ->
   P.text m <> "" ->
   P.results s' = P.parsed m /\ P.uncaught s' = P.uncaught s
   /\ P.dropdownOpen s' = P.dropdownOpen s)
  /\ (forall h,
         P.awaiting s !! i = Some (P.AwaitEmptySection token) ->
         DOM.querySelector (DOM.hasClass "predictive-search-empty-section")
           (P.parsed m) = Some h ->
         P.viewedProducts s = [] ->
         P.results s' = DOM.subtree (P.parsed m) h
         /\ P.uncaught s' = P.uncaught s).
Proof.
  intros s s' Ha.
  assert (Hl : P.liveInv s) by (apply PM.liveInv_run, PM.liveInv_connected).
  destruct Hl as (_ & Hlive). specialize (Hlive token Ha).
  assert (Hlive' : forall l, P.aborted token (P.set_awaiting l s) = false)
    by (intros l; exact Hlive).
  subst s'. clearbody s. unfold P.handle. split.
  - intros Hk Hm. rewrite Hk. simpl. unfold P.resultsArrived.
    destruct (P.text m); [congruence |]. simpl. rewrite Hlive'. simpl. auto.
  - intros h Hk Hq Hv. rewrite Hk. simpl. unfold P.emptySectionArrived.
    rewrite Hq. simpl. rewrite Hv. simpl. unfold P.resetSearchApply.
    rewrite Hlive'.
    match goal with
    | |- context [P.resumePlaceholderAnimation ?x] =>
        destruct (PM.resumePlaceholder_fields x) as (R1 & R2 & _)
    end.
    rewrite R1, R2. simpl. auto.
Qed.

Lemma latest_response_rendered_witness :
  let s := P.run Scenario.twoQueries (P.connectedCallback Scenario.page) in
  P.activeFetch s = Some 1%nat
  /\ P.results (P.handle (P.Respond 1 (P.Fulfilled Scenario.resultsMarkup)) s)
     = Scenario.twoResults.
Proof.
  intros s.
  destruct (latest_response_rendered Scenario.page Scenario.twoQueries 1 1
              Scenario.resultsMarkup eq_refl) as (H & _).
  destruct (H eq_refl ltac:(vm_compute; discriminate)) as (H' & _).
  exact (conj eq_refl H').
Defined.

(** ** The header placeholder *)

(** X8. The text of the header placeholder always begins with the prefix,
    and the prefix has no white space at either end: trimming the end of
    the text built never reaches into it. *)
Theorem header_text_begins_with_prefix (reducedMotion : bool) (d : H.Dataset)
    (t0 : string) (es : list H.Event) :
  let s := H.run es (H.connectedCallback reducedMotion d (H.created t0)) in
  JS.trim (H.prefix s) = H.prefix s
  /\ exists rest, H.textContent s = (H.prefix s ++ rest)%string.
Proof.
  apply (HM.prefixShown_run es), HM.prefixShown_connected.
Qed.

(** X9. With reduced motion, or with one category only, the header shows
    the prefix and the first category and stays as it is: no listener is
    bound, no timer is ever asked for, and no event changes anything. *)
Theorem header_static (reducedMotion : bool) (d : H.Dataset) (t0 : string)
    (es : list H.Event) :
  H.getCategories d <> [] ->
  reducedMotion = true \/ length (H.getCategories d) = 1%nat ->
  let s0 := H.connectedCallback reducedMotion d (H.created t0) in
  let s := H.run es s0 in
  s = s0
  /\ H.textContent s
     = H.buildText (H.configure d (H.created t0)) (hd "" (H.getCategories d))
  /\ H.timeout s = None /\ H.timers s = noTimers.
Proof.
  intros Hne Hmode s0 s.
  assert (E0 : s0 = H.mkState None 0 0 false (H.getCategories d)
                      (H.prefix (H.configure d (H.created t0)))
                      (H.buildText (H.configure d (H.created t0))
                         (hd "" (H.getCategories d)))
                      false noTimers).
  { subst s0. unfold H.connectedCallback.
    change (H.categories (H.configure d (H.created t0))) with (H.getCategories d).
    destruct (H.getCategories d) as [| x l] eqn:E; [congruence |].
    assert (Hb : (reducedMotion || (length (x :: l) =? 1)%nat) = true).
    { destruct Hmode as [-> | Hlen]; [reflexivity |].
      rewrite Hlen. apply orb_true_r. }
    change ((length (x :: l) =? 0)%nat) with false. cbv iota.
    rewrite Hb. rewrite JSMore.or_else_empty, JSMore.at_or_empty_0.
    reflexivity. }
  assert (E : s = s0).
  { subst s. clearbody s0. subst s0. apply HM.still_run; reflexivity. }
  rewrite E, E0. auto.
Qed.

Lemma header_static_witness :
  let d := {| H.placeholderPrefix := Some "Search for";
              H.placeholderCategories := AttrArray ["rings"] |} in
  let s := H.run [H.MouseLeave; H.TimerFired 1]
             (H.connectedCallback false d (H.created "")) in
  H.textContent s = "Search for rings" /\ H.timers s = noTimers.
Proof.
  intros d s.
  destruct (header_static false d "" [H.MouseLeave; H.TimerFired 1%nat]
              ltac:(vm_compute; discriminate) (or_intror eq_refl))
    as (_ & H1 & _ & H2).
  exact (conj H1 H2).
Defined.

(** X10. The timer handle: in both components the field that holds the
    handle is null exactly when no timer of the animation is pending, and
    otherwise it holds the handle of the one timer that is. *)
Theorem timer_handle_pending :
  (forall reducedMotion d t0 es,
      let s := H.run es (H.connectedCallback reducedMotion d (H.created t0)) in
      (H.timeout s = None <-> pending (H.timers s) = [])
      /\ (forall h, H.timeout s = Some h ->
                    exists delay, pending (H.timers s) = [(h, delay)]))
  /\ (forall c es,
      let s := P.run es (P.connectedCallback c) in
      (P.placeholderTimeout s = None <-> pending (P.timers s) = [])
      /\ (forall h, P.placeholderTimeout s = Some h ->
                    exists delay, pending (P.timers s) = [(h, delay)])).
Proof.
  assert (G : forall (t : option nat) (p : list (nat * Z)) (n : nat),
             (t = None /\ p = []) \/
             (exists h d, t = Some h /\ p = [(h, d)] /\ (1 <= h < n)%nat) ->
             (t = None <-> p = [])
             /\ (forall h, t = Some h -> exists delay, p = [(h, delay)])).
  { intros t p n [(-> & ->) | (h & d & -> & -> & _)].
    - split; [tauto |]. intros h E. discriminate.
    - split; [split; discriminate |]. intros h' E. injection E as <-. eauto. }
  split.
  - intros reducedMotion d t0 es s.
    destruct (HF.reachableInv_run es _ (HF.reachableInv_connected reducedMotion d t0))
      as ((_ & Ht) & _).
    eapply G, Ht.
  - intros c es s.
    destruct (PF.engineInv_run es _ (PF.engineInv_connected c)) as ((_ & Ht) & _).
    eapply G, Ht.
Qed.

Lemma timer_handle_pending_witness :
  let s := H.run [H.TimerFired 1; H.TimerFired 2]
             (H.connectedCallback false Scenario.shoesAndBags (H.created "")) in
  H.timeout s = Some 3%nat /\ exists delay, pending (H.timers s) = [(3%nat, delay)].
Proof.
  intros s.
  destruct timer_handle_pending as (Hh & _).
  destruct (Hh false Scenario.shoesAndBags "" [H.TimerFired 1%nat; H.TimerFired 2%nat])
    as (_ & G).
  exact (conj eq_refl (G 3%nat eq_refl)).
Defined.

(** X11. Disconnecting stops the animation: right after
    [disconnectedCallback] no timer is pending in either component. The
    header keeps its counters and its text; the predictive search has its
    listeners removed. *)
Theorem disconnect_stops :
  (forall reducedMotion d t0 es,
      let s := H.run es (H.connectedCallback reducedMotion d (H.created t0)) in
      let s' := H.handle H.Disconnected s in
      H.timeout s' = None /\ pending (H.timers s') = []
      /\ H.index s' = H.index s /\ H.charIndex s' = H.charIndex s
      /\ H.isDeleting s' = H.isDeleting s /\ H.textContent s' = H.textContent s)
  /\ (forall c es,
      let s := P.run es (P.connectedCallback c) in
      let s' := P.handle P.Disconnected s in
      P.placeholderTimeout s' = None /\ pending (P.timers s') = []
      /\ P.listenersActive s' = false
      /\ P.inputPlaceholder s' = P.inputPlaceholder s).
Proof.
  split.
  - intros reducedMotion d t0 es s s'.
    destruct (HF.reachableInv_run es _ (HF.reachableInv_connected reducedMotion d t0))
      as (Ht & _).
    destruct (HF.oneTimer_stop s Ht) as (_ & H1 & H2).
    destruct (HF.stop_fields s) as (F1 & F2 & F3 & _ & _ & _ & F7).
    subst s'. unfold H.handle, H.disconnectedCallback. auto 10.
  - intros c es s s'.
    assert (Hinv : P.engineInv (P.set_listenersActive false s)).
    { apply (PF.engineInv_ext s); [reflexivity |].
      apply PF.engineInv_run, PF.engineInv_connected. }
    destruct Hinv as (Ht & _).
    destruct (PF.stop_cleared _ Ht) as (_ & H1 & H2).
    subst s'. unfold P.handle, P.disconnectedCallback.
    split; [exact H1 |]. split; [exact H2 |].
    clearbody s. unfold P.stopPlaceholderAnimation.
    PF.split_ifs; auto.
Qed.

(** ** Categories *)

(** X12. The categories of both components are trimmed and not empty,
    whatever the attribute holds. An attribute that is missing, is not
    JSON or is not an array leaves the header without categories, and
    makes the predictive search take the texts of its category links. *)
Theorem categories_trimmed :
  (forall d, Forall (fun x => JS.trim x = x /\ x <> "") (H.getCategories d))
  /\ (forall c,
         Forall (fun x => JS.trim x = x /\ x <> "") (P.getPlaceholderCategories c))
  /\ (forall d,
         (forall items, H.placeholderCategories d <> AttrArray items) ->
         H.getCategories d = [])
  /\ (forall c,
         (forall items, P.cfgPlaceholderCategories c <> AttrArray items) ->
         P.getPlaceholderCategories c = JS.trimmedNonEmpty (P.cfgCategoryLinks c)).
Proof.
  split; [| split; [| split]].
  - intros d. unfold H.getCategories. destruct (H.placeholderCategories d);
      try apply JSMore.trimmedNonEmpty_trimmed; constructor.
  - intros c. unfold P.getPlaceholderCategories.
    destruct (P.cfgPlaceholderCategories c);
      apply JSMore.trimmedNonEmpty_trimmed.
  - intros d Hn. unfold H.getCategories.
    destruct (H.placeholderCategories d) as [| | | items]; try reflexivity.
    destruct (Hn items eq_refl).
  - intros c Hn. unfold P.getPlaceholderCategories.
    destruct (P.cfgPlaceholderCategories c) as [| | | items]; try reflexivity.
    destruct (Hn items eq_refl).
Qed.

Lemma categories_trimmed_witness :
  H.getCategories {| H.placeholderPrefix := None;
                     H.placeholderCategories := AttrInvalid |} = [].
Proof.
  destruct categories_trimmed as (_ & _ & G & _).
  apply G. intros items. discriminate.
Defined.

Module D := HeaderDrawer.
Module DF := HeaderDrawerFacts.
Module K := HeaderKeys.

(** X13. Showing the drawer for a search and hiding it again: a drawer
    whose [.header__drawer] is hidden on desktop is shown once by
    [#ensureDrawerVisibleForSearch], however often it is called, and
    [#restoreDrawerVisibility] puts the class that hides it back and leaves
    every other class as it was. A drawer that is not hidden on desktop is
    left alone by both, so it never becomes hidden. *)
Theorem drawer_visibility_round_trip (s : D.State) (classes : list string) :
  D.container s = Some classes -> D.forcedDrawerContainer s = false ->
  let s1 := D.ensureDrawerVisibleForSearch s in
  let s2 := D.restoreDrawerVisibility s1 in
  (D.contains "desktop:hidden" classes = false -> s1 = s /\ s2 = s)
  /\ (D.contains "desktop:hidden" classes = true ->
      D.forcedDrawerContainer s1 = true
      /\ D.ensureDrawerVisibleForSearch s1 = s1
      /\ (exists c1, D.container s1 = Some c1
                     /\ D.contains "desktop:hidden" c1 = false
                     /\ D.contains "header__drawer--forced" c1 = true)
      /\ D.forcedDrawerContainer s2 = false
      /\ (exists c2, D.container s2 = Some c2
                     /\ D.contains "desktop:hidden" c2 = true
                     /\ D.contains "header__drawer--forced" c2 = false
                     /\ forall c, c <> "header__drawer--forced" ->
                                  D.contains c c2 = D.contains c classes)).
Proof.
  intros Hc Hf s1 s2. split.
  - intros Hh. assert (E : s1 = s).
    { subst s1. unfold D.ensureDrawerVisibleForSearch. rewrite Hf, Hc, Hh.
      reflexivity. }
    split; [exact E |]. subst s2. rewrite E.
    unfold D.restoreDrawerVisibility. rewrite Hf. reflexivity.
  - intros Hh.
    assert (E1 : s1 = D.set_forcedDrawerContainer true
                   (D.set_container
                      (Some (D.add "header__drawer--forced"
                               (D.remove "desktop:hidden" classes))) s)).
    { subst s1. unfold D.ensureDrawerVisibleForSearch. rewrite Hf, Hc, Hh.
      reflexivity. }
    subst s2. rewrite E1. clear E1 s1.
    split; [reflexivity |]. split; [reflexivity |]. split.
    { eexists. split; [reflexivity |].
      rewrite !DF.contains_add, !DF.contains_remove. split; reflexivity. }
    split; [reflexivity |].
    eexists. split; [reflexivity |].
    rewrite !DF.contains_add, !DF.contains_remove. simpl.
    split; [reflexivity |]. split; [reflexivity |].
    intros c Hn.
    rewrite !DF.contains_add, !DF.contains_remove, !DF.contains_add,
      !DF.contains_remove.
    destruct (String.eqb_spec "desktop:hidden" c) as [<- | _]; [auto |].
    destruct (String.eqb_spec "header__drawer--forced" c); [congruence | reflexivity].
Qed.

Lemma drawer_visibility_round_trip_witness :
  let s := D.mkState (D.mkDetails true false false None false) [] None false
             (Some "") false None (Some true) [false; false]
             (Some ["header__drawer"; "desktop:hidden"]) false [] [] [] in
  D.container (D.ensureDrawerVisibleForSearch s)
  = Some ["header__drawer"; "header__drawer--forced"]
  /\ D.forcedDrawerContainer
       (D.restoreDrawerVisibility (D.ensureDrawerVisibleForSearch s)) = false.
Proof.
  intros s.
  destruct (drawer_visibility_round_trip s ["header__drawer"; "desktop:hidden"]
              eq_refl eq_refl) as (_ & G).
  destruct (G eq_refl) as (_ & _ & _ & G4 & _).
  exact (conj eq_refl G4).
Defined.

(** X14. Closing the main drawer throws the search away: the mode is
    "menu" again, the search input is emptied, the suggestions are hidden
    and every menu section is shown, at once; the [open] attribute goes
    when the closing animation has ended, with the other open [details]
    outside accordions, the focus trap and the forced visibility. A
    drawer without summary is left as it is. *)
Theorem drawer_close_resets (s : D.State) :
  let s' := D.close s in
  (D.hasSummary (D.details s) = false -> s' = s)
  /\ (D.hasSummary (D.details s) = true ->
      D.drawerMode s' = Some "menu" /\ D.searchClass s' = false
      /\ D.searchInput s' = option_map (fun _ => "") (D.searchInput s)
      /\ D.suggestionsHidden s'
         = option_map (fun _ => true) (D.suggestionsHidden s)
      /\ D.sectionsHidden s' = List.map (fun _ => false) (D.sectionsHidden s)
      /\ D.menuOpen (D.details s') = false
      /\ D.summaryExpanded (D.details s') = Some "false"
      /\ D.openAttr (D.details s') = D.openAttr (D.details s)
      /\ D.tasks s' = (D.tasks s ++ [D.Closed])%list
      /\ let s'' := D.handle (D.Run (length (D.tasks s))) s' in
         D.openAttr (D.details s'') = false
         /\ D.forcedDrawerContainer s'' = false
         /\ D.focusCalls s'' = (D.focusCalls s ++ [D.RemoveTrapFocus])%list
         /\ D.tasks s'' = D.tasks s
         /\ Forall (fun d => D.inAccordion d = false -> D.openAttr d = false)
              (D.nested s'')).
Proof.
  intros s'. subst s'. unfold D.close. split; intros Hs; rewrite Hs; [reflexivity |].
  simpl negb. cbv iota.
  set (d := D.setMenuOpen false (D.setExpanded "false" (D.details s))).
  set (s0 := D.set_details d s).
  assert (H0 : D.searchInput s0 = D.searchInput s
               /\ D.suggestionsHidden s0 = D.suggestionsHidden s
               /\ D.sectionsHidden s0 = D.sectionsHidden s
               /\ D.tasks s0 = D.tasks s /\ D.focusCalls s0 = D.focusCalls s
               /\ D.menuOpen (D.details s0) = false
               /\ D.summaryExpanded (D.details s0) = Some "false"
               /\ D.openAttr (D.details s0) = D.openAttr (D.details s))
    by (repeat split).
  destruct H0 as (Z1 & Z2 & Z3 & Z4 & Z5 & Z6 & Z7 & Z8). clearbody s0.
  destruct (DF.resetDrawerSearch_fields s0)
    as (R1 & R2 & R3 & R4 & R5 & R6 & R7 & R8 & R9 & R10 & R11).
  set (r := D.resetDrawerSearch s0) in *. clearbody r.
  assert (E : D.handle (D.Run (length (D.tasks s))) (D.later D.Closed r)
              = D.runTask D.Closed r)
    by (rewrite <- Z4, <- R10; apply DF.run_last).
  rewrite E. destruct (DF.closed_fields r) as (C1 & C2 & C3 & C4 & C5).
  set (r' := D.runTask D.Closed r) in *. clearbody r'.
  cbv zeta. rewrite C1, C2, C3, C4, R10, R11.
  unfold D.later. simpl. rewrite R1, R2, R3, R4, R5, R6, R10.
  rewrite Z1, Z2, Z3, Z4, Z5, Z6, Z7, Z8.
  repeat split; auto.
Qed.

Lemma drawer_close_resets_witness :
  let s := D.mkState (D.mkDetails true true true (Some "true") false) [] (Some "search")
             true (Some "ring") true None (Some false) [true; true]
             (Some ["header__drawer"; "header__drawer--forced"]) true [] [] [] in
  D.searchInput (D.close s) = Some ""
  /\ D.sectionsHidden (D.close s) = [false; false]
  /\ D.openAttr (D.details (D.handle (D.Run 0) (D.close s))) = false.
Proof.
  intros s.
  destruct (drawer_close_resets s) as (_ & G).
  destruct (G eq_refl) as (_ & _ & G3 & _ & G5 & _ & _ & _ & _ & G10 & _).
  exact (conj G3 (conj G5 G10)).
Defined.

(** X15. Opening for a search, as the header search does (no event): the
    drawer is in search mode whether it has a summary or not, every menu
    section is hidden and the suggestions, if any, are shown. Opening the
    main drawer that has both the search input and the suggestions ends in
    search mode whatever the trigger asks for. A main drawer without
    summary is not opened. *)
Theorem drawer_opens_in_search_mode :
  (forall s,
      let s' := D.openSearch None s in
      D.drawerMode s' = Some "search" /\ D.searchClass s' = true
      /\ D.sectionsHidden s' = List.map (fun _ => true) (D.sectionsHidden s)
      /\ D.suggestionsHidden s'
         = option_map (fun _ => false) (D.suggestionsHidden s)
      /\ D.searchInput s' = D.searchInput s)
  /\ (forall event s,
      D.hasSummary (D.details s) = true -> D.searchListeners s = true ->
      let s' := D.open event s in
      D.drawerMode s' = Some "search" /\ D.searchClass s' = true
      /\ D.sectionsHidden s' = List.map (fun _ => true) (D.sectionsHidden s)
      /\ D.suggestionsHidden s' = Some false
      /\ D.summaryExpanded (D.details s') = Some "true"
      /\ D.tasks s' = (D.tasks s ++ [D.AllowAnimations; D.AddMenuOpen])%list)
  /\ (forall event s, D.hasSummary (D.details s) = false -> D.open event s = s).
Proof.
  assert (Hmap : forall l : list bool,
             List.map (fun _ => true) (List.map (fun _ => true) l)
             = List.map (fun _ => true) l)
    by (intros l; rewrite List.map_map; reflexivity).
  split; [| split].
  - intros s. apply DF.openSearch_fields.
  - intros event s Hs Hl s'. subst s'. unfold D.open. rewrite Hs. simpl.
    assert (Hl1 : D.searchListeners (D.setDrawerMode event s) = true).
    { rewrite <- Hl. unfold D.setDrawerMode. destruct event as [t |]; [| reflexivity].
      destruct (D.modeTrigger t s) as [m |]; [destruct (JS.truthy m) |];
        destruct (D.iconSummary t); reflexivity. }
    assert (Hf : D.sectionsHidden (D.setDrawerMode event s) = D.sectionsHidden s
                 /\ D.suggestionsHidden (D.setDrawerMode event s)
                    = D.suggestionsHidden s
                 /\ D.tasks (D.setDrawerMode event s) = D.tasks s).
    { unfold D.setDrawerMode. destruct event as [t |]; [| auto].
      destruct (D.modeTrigger t s) as [m |]; [destruct (JS.truthy m) |];
        destruct (D.iconSummary t); auto. }
    destruct Hf as (F1 & F2 & F3).
    set (s1 := D.setDrawerMode event s) in *. clearbody s1. rewrite Hl1.
    destruct (DF.activateSearchMode_fields s1)
      as (B1 & B2 & B3 & B4 & _ & _ & _ & _ & _ & B10 & _).
    rewrite B1, B2, B3, B4, B10, F1, F2, F3.
    assert (Hsug : exists b, D.suggestionsHidden s = Some b).
    { unfold D.searchListeners in Hl.
      destruct (D.searchInput s), (D.suggestionsHidden s); try discriminate; eauto. }
    destruct Hsug as (b & ->). rewrite <- app_assoc. simpl. auto 10.
  - intros event s Hs. unfold D.open. rewrite Hs. reflexivity.
Qed.

Lemma drawer_opens_in_search_mode_witness :
  let s := D.connectedCallback
             (D.mkState (D.mkDetails true false false None false) [] None false
                (Some "") false None (Some false) [false; false]
                (Some ["header__drawer"]) false [] [] []) in
  D.drawerMode
    (D.open (Some (D.mkTrigger true None None true)) s) = Some "search".
Proof.
  intros s.
  destruct drawer_opens_in_search_mode as (_ & G & _).
  destruct (G (Some (D.mkTrigger true None None true)) s eq_refl eq_refl)
    as (G1 & _).
  exact G1.
Defined.

(** ** The keys of the header search *)



(** X17. A text key that reaches the listeners lands once in the search
    input of the drawer: pressed on the trigger, where both listeners
    hear it, or elsewhere outside a field, the key is appended once to the
    text of the input, its default is prevented, the drawer is in search
    mode with the menu sections hidden, and the frame asked for last
    gives the input the focus with the caret at the end. *)
Theorem typed_key_lands_in_search (onTrigger : bool) (event : K.KeyboardEvent)
    (drawer : D.State) (value : string) :
  K.defaultPrevented event = false -> K.isTextKey event = true ->
  onTrigger = true \/ K.isTypingInField event = false ->
  D.searchInput drawer = Some value ->
  exists drawer',
    K.keydown onTrigger (event, K.Drawer drawer)
    = (K.preventDefault event, K.Drawer drawer')
    /\ D.searchInput drawer' = Some (value ++ K.key event)%string
    /\ D.drawerMode drawer' = Some "search"
    /\ Forall (fun hidden => hidden = true) (D.sectionsHidden drawer')
    /\ (exists before, D.tasks drawer' = (before ++ [D.FocusSearchInput])%list)
    /\ let focused := D.handle (D.Run (length (D.tasks drawer') - 1)) drawer' in
       D.inputFocused focused = true
       /\ D.searchInput focused = Some (value ++ K.key event)%string
       /\ D.selection focused
          = Some (JS.len (value ++ K.key event), JS.len (value ++ K.key event)).
Proof.
  intros Hp Ht Hwhere Hv.
  assert (E : K.keydown onTrigger (event, K.Drawer drawer)
              = (K.preventDefault event,
                 K.openDrawerSearch (K.key event) (K.Drawer drawer))).
  { unfold K.keydown, K.handleKeydown, K.handleGlobalKeydown.
    destruct Hwhere as [-> | Hf].
    - rewrite Hp, Ht. reflexivity.
    - destruct onTrigger; rewrite ?Hp, ?Ht, ?Hf; simpl; rewrite ?Hp, ?Hf, ?Ht;
        reflexivity. }
  rewrite E. clear E. unfold K.openDrawerSearch.
  destruct (DF.openSearch_fields drawer) as (O1 & _ & O3 & _ & O5).
  set (d1 := D.openSearch None drawer) in *. clearbody d1.
  rewrite O5, Hv.
  set (d2 := D.set_searchInput (Some (value ++ K.key event)%string) d1).
  assert (Z : D.searchInput d2 = Some (value ++ K.key event)%string
              /\ D.drawerMode d2 = Some "search"
              /\ Forall (fun hidden => hidden = true) (D.sectionsHidden d2)).
  { subst d2. split; [reflexivity |]. split; [exact O1 |].
    change (Forall (fun hidden => hidden = true) (D.sectionsHidden d1)).
    rewrite O3. apply DF.all_hidden. }
  destruct Z as (Z1 & Z2 & Z3). clearbody d2.
  destruct (DF.onSearchInputEvent_fields d2) as (Y1 & Y2 & _ & Y4 & Y5).
  set (d3 := D.onSearchInputEvent d2) in *. clearbody d3.
  rewrite Z1 in Y1. specialize (Y4 Z2). specialize (Y5 Z3).
  exists (D.later D.FocusSearchInput d3).
  assert (T1 : D.searchInput (D.later D.FocusSearchInput d3) = D.searchInput d3)
    by reflexivity.
  assert (T2 : D.drawerMode (D.later D.FocusSearchInput d3) = D.drawerMode d3)
    by reflexivity.
  assert (T3 : D.sectionsHidden (D.later D.FocusSearchInput d3)
               = D.sectionsHidden d3) by reflexivity.
  assert (T4 : D.tasks (D.later D.FocusSearchInput d3)
               = (D.tasks d3 ++ [D.FocusSearchInput])%list) by reflexivity.
  assert (El : (length (D.tasks (D.later D.FocusSearchInput d3)) - 1)%nat
               = length (D.tasks d3))
    by (rewrite T4, length_app; simpl; lia).
  destruct (DF.focusSearchInput_fields d3 _ Y1) as (F1 & F2 & F3).
  cbv zeta. rewrite El, DF.run_last, T1, T2, T3, T4.
  set (d4 := D.runTask D.FocusSearchInput d3) in *. clearbody d4.
  split; [reflexivity |]. split; [exact Y1 |]. split; [exact Y4 |].
  split; [exact Y5 |]. split; [eexists; reflexivity |]. auto.
Qed.

Lemma typed_key_lands_in_search_witness :
  let event := K.mkKeyboardEvent false false false false "r" K.NotHTMLElement in
  let drawer := D.connectedCallback
                  (D.mkState (D.mkDetails true false false None false) [] None
                     false (Some "") false None (Some false) [false; false]
                     (Some ["header__drawer"; "desktop:hidden"]) false [] [] []) in
  exists drawer',
    K.keydown true (event, K.Drawer drawer)
    = (K.preventDefault event, K.Drawer drawer')
    /\ D.searchInput drawer' = Some "r".
Proof.
  intros event drawer.
  destruct (typed_key_lands_in_search true event drawer "" eq_refl eq_refl
              (or_introl eq_refl) eq_refl) as (d' & G1 & G2 & _).
  exists d'. exact (conj G1 G2).
Defined.

(** ** The selected item *)

Module SelectionFacts.
Import PredictiveSearch PredictiveSearchFacts.

Lemma hasClass_removed (c : string) (e : DOM.Element) :
  DOM.hasClass c (DOM.removeClass c e) = false.
Proof.
  unfold DOM.hasClass, DOM.removeClass. simpl.
  induction (DOM.classes e) as [| x l IH]; simpl; auto.
  destruct (String.eqb c x) eqn:E; simpl; rewrite ?E; auto.
Qed.

Lemma hasClass_added (c : string) (e : DOM.Element) :
  DOM.hasClass c (DOM.addClass c e) = true.
Proof.
  unfold DOM.addClass. destruct (DOM.hasClass c e) eqn:E; [exact E |].
  unfold DOM.hasClass. simpl. rewrite existsb_app. simpl.
  rewrite String.eqb_refl. apply orb_true_r.
Qed.

Lemma ariaSelected_addClass (c : string) (e : DOM.Element) :
  DOM.ariaSelected (DOM.addClass c e) = DOM.ariaSelected e.
Proof. unfold DOM.addClass. destruct (DOM.hasClass c e); reflexivity. Qed.

(** What the setter makes of the item [j]. *)
Lemma set_currentIndex_item (i : Z) (s : State) (j h : nat) :
  List.NoDup (allResultsItems s) ->
  allResultsItems s !! j = Some h ->
  exists e,
    results s !! h = Some e
    /\ results (set_currentIndex i s) !! h
       = Some (markItem (isKeyboardNavigation s) i j
                 (DOM.removeClass "keyboard-focus" e)).
Proof.
  intros Hnd Hj.
  assert (Hin : h ∈ allResultsItems s) by (eapply list_elem_of_lookup_2; eauto).
  assert (Hb : (h < length (results s))%nat)
    by (apply allResultsItemsOf_bounds, list_elem_of_In, Hin).
  apply lookup_lt_is_Some_2 in Hb. destruct Hb as (e & He).
  exists e. split; [exact He |].
  rewrite results_set_currentIndex.
  destruct (allResultsItems s) as [| x l] eqn:E;
    [rewrite lookup_nil in Hj; discriminate |].
  rewrite <- E in *.
  rewrite (markItems_at _ _ _ 0%nat _ j h Hnd Hj).
  unfold clearKeyboardFocus. fold (allResultsItems s).
  rewrite alterAll_lookup by apply removeClass_idem.
  rewrite bool_decide_eq_true_2 by exact Hin.
  rewrite He. reflexivity.
Qed.

End SelectionFacts.

Module SF := SelectionFacts.

(** X18. The mark of the selection: after a key that moves the
    selection, with at least one item and every item listed once, the item
    at the new index, and no other, has [aria-selected="true"] and the
    class [keyboard-focus]. *)
Theorem selection_marks_one (s : P.State) (key : string) (shiftKey : bool)
    (d : P.Direction) (j h : nat) :
  List.NoDup (P.allResultsItems s) ->
  P.navigation key shiftKey = Some d ->
  P.allResultsItems s !! j = Some h ->
  let s' := P.onSearchKeyDown key shiftKey s in
  exists e,
    P.results s' !! h = Some e
    /\ (DOM.ariaSelected e = Some "true" <-> Z.of_nat j = P.currentIndex s')
    /\ (DOM.ariaSelected e = None <-> Z.of_nat j <> P.currentIndex s')
    /\ (DOM.hasClass "keyboard-focus" e = true <-> Z.of_nat j = P.currentIndex s').
Proof.
  intros Hnd Hnav Hj s'.
  assert (Hne : P.allResultsItems s <> [])
    by (intros E; rewrite E, lookup_nil in Hj; discriminate).
  assert (Hlen : (j < length (P.allResultsItems s))%nat)
    by (eapply lookup_lt_Some; eauto).
  pose proof (PF.currentIndex_range s) as Hr.
  set (s1 := P.set_isKeyboardNavigation true s).
  assert (E : exists i, 0 <= i < Z.of_nat (length (P.allResultsItems s))
                        /\ s' = P.set_currentIndex i s1).
  { subst s'. destruct d.
    - rewrite (PF.onSearchKeyDown_forward key shiftKey s)
        by auto using navigation_forward.
      eexists. split; [| reflexivity].
      destruct (Z.ltb_spec (P.currentIndex s)
                  (Z.of_nat (length (P.allResultsItems s)) - 1)); lia.
    - rewrite (PF.onSearchKeyDown_backward key shiftKey s)
        by auto using navigation_backward.
      eexists. split; [| reflexivity].
      destruct (Z.gtb_spec (P.currentIndex s) 0); lia. }
  destruct E as (i & Hi & Es'). rewrite Es'. clear Es'. clearbody s'.
  assert (Hitems : P.allResultsItems s1 = P.allResultsItems s) by reflexivity.
  assert (Hidx : P.currentIndex (P.set_currentIndex i s1) = i).
  { rewrite PF.currentIndex_set_currentIndex by (rewrite Hitems; auto).
    rewrite Hitems.
    destruct (Z.leb_spec 0 i), (Z.ltb_spec i (Z.of_nat (length (P.allResultsItems s))));
      simpl; lia. }
  destruct (SF.set_currentIndex_item i s1 j h) as (e & _ & He);
    [rewrite Hitems; exact Hnd | rewrite Hitems; exact Hj |].
  rewrite He, Hidx. eexists. split; [reflexivity |].
  unfold P.markItem.
  change (P.isKeyboardNavigation s1) with true. cbv iota.
  destruct (Z.eqb_spec (Z.of_nat j) i) as [Heq | Hneq].
  - rewrite SF.hasClass_added, SF.ariaSelected_addClass.
    change (DOM.ariaSelected (DOM.setAriaSelected (Some "true")
              (DOM.removeClass "keyboard-focus" e))) with (Some "true").
    intuition congruence.
  - change (DOM.hasClass "keyboard-focus"
              (DOM.setAriaSelected None (DOM.removeClass "keyboard-focus" e)))
      with (DOM.hasClass "keyboard-focus" (DOM.removeClass "keyboard-focus" e)).
    rewrite SF.hasClass_removed.
    change (DOM.ariaSelected (DOM.setAriaSelected None
              (DOM.removeClass "keyboard-focus" e))) with (@None string).
    intuition congruence.
Qed.

Lemma selection_marks_one_witness :
  let s := P.connectedCallback (Scenario.withResults Scenario.twoResults Scenario.page) in
  exists h e,
    P.allResultsItems s !! 0%nat = Some h
    /\ P.results (P.onSearchKeyDown "ArrowDown" false s) !! h = Some e
    /\ DOM.hasClass "keyboard-focus" e = true.
Proof.
  intros s.
  assert (Hnd : List.NoDup (P.allResultsItems s))
    by (vm_compute; repeat constructor; simpl; intuition discriminate).
  destruct (P.allResultsItems s !! 0%nat) as [h |] eqn:Eh; [| discriminate].
  destruct (selection_marks_one s "ArrowDown" false P.Forward 0 h Hnd eq_refl Eh)
    as (e & G1 & _ & _ & G4).
  exists h, e. split; [reflexivity |]. split; [exact G1 |].
  apply G4. vm_compute. reflexivity.
Defined.

(** ** Reduced motion *)

Module ReducedMotionFacts.
Import PredictiveSearch PredictiveSearchFacts.

Lemma stillShows_ext (s s' : State) :
  stillOf s' = stillOf s -> forall v, stillShows v s -> stillShows v s'.
Proof. unfold stillShows. congruence. Qed.

Lemma stillShows_fields (v : string) (s : State) :
  stillShows v s ->
  reducedMotion s = true /\ placeholderListeners s = false
  /\ placeholderTimeout s = None /\ timers s = noTimers
  /\ inputPlaceholder s = v.
Proof. unfold stillShows, stillOf. intros E. injection E; auto. Qed.

Lemma stillShows_resume v s :
  stillShows v s -> stillShows v (resumePlaceholderAnimation s).
Proof.
  intros H. destruct (stillShows_fields v s H) as (Hr & _).
  unfold resumePlaceholderAnimation. rewrite Hr. exact H.
Qed.

Lemma stillShows_stop v s :
  stillShows v s -> stillShows v (stopPlaceholderAnimation s).
Proof.
  intros H. destruct (stillShows_fields v s H) as (_ & _ & Ht & _).
  unfold stopPlaceholderAnimation. rewrite Ht. exact H.
Qed.

Lemma stillShows_onFocus v s : stillShows v s -> stillShows v (onFocus s).
Proof.
  intros H. destruct (stillShows_fields v s H) as (_ & Hp & _).
  unfold onFocus. destruct (listenersActive s); [| exact H].
  cbv zeta. change (placeholderListeners (openDropdown s)) with (placeholderListeners s).
  rewrite Hp. revert H. apply (stillShows_ext s). reflexivity.
Qed.

Lemma stillShows_onBlur v b s : stillShows v s -> stillShows v (onBlur b s).
Proof.
  intros H. destruct (stillShows_fields v s H) as (_ & Hp & _).
  unfold onBlur. destruct (listenersActive s); [| exact H].
  cbv zeta. rewrite Hp. unfold handleFocusOut.
  destruct b; [exact H |]. revert H. apply (stillShows_ext s). reflexivity.
Qed.

Ltac still_known h :=
  lazymatch h with
  | resumePlaceholderAnimation => apply stillShows_resume
  | stopPlaceholderAnimation => apply stillShows_stop
  | onFocus => apply stillShows_onFocus
  | onBlur => apply stillShows_onBlur
  end.

Ltac still := intros; repeat preserve_step stillShows_ext still_known.

Lemma stillShows_focusInput v s : stillShows v s -> stillShows v (focusInput s).
Proof. still. Qed.

Lemma stillShows_blurInput v s : stillShows v s -> stillShows v (blurInput s).
Proof. still. Qed.

Lemma stillShows_set_currentIndex v i s :
  stillShows v s -> stillShows v (set_currentIndex i s).
Proof.
  intros H. unfold set_currentIndex. destruct (allResultsItems s); auto.
  apply stillShows_focusInput. revert H. apply (stillShows_ext s). reflexivity.
Qed.

Ltac still_known h ::=
  lazymatch h with
  | resumePlaceholderAnimation => apply stillShows_resume
  | stopPlaceholderAnimation => apply stillShows_stop
  | onFocus => apply stillShows_onFocus
  | onBlur => apply stillShows_onBlur
  | focusInput => apply stillShows_focusInput
  | blurInput => apply stillShows_blurInput
  | set_currentIndex => apply stillShows_set_currentIndex
  end.

Lemma stillShows_resetSearchBegin v s :
  stillShows v s -> stillShows v (resetSearchBegin s).
Proof. still. Qed.

Lemma stillShows_getSearchResults v t s :
  stillShows v s -> stillShows v (getSearchResults t s).
Proof. still. Qed.

Ltac still_known h ::=
  lazymatch h with
  | resumePlaceholderAnimation => apply stillShows_resume
  | stopPlaceholderAnimation => apply stillShows_stop
  | onFocus => apply stillShows_onFocus
  | onBlur => apply stillShows_onBlur
  | focusInput => apply stillShows_focusInput
  | blurInput => apply stillShows_blurInput
  | set_currentIndex => apply stillShows_set_currentIndex
  | resetSearchBegin => apply stillShows_resetSearchBegin
  | getSearchResults => apply stillShows_getSearchResults
  end.

Lemma stillShows_resume_k v k r s :
  stillShows v s -> stillShows v (settle (resume k r s)).
Proof.
  intros H. destruct k, r; simpl.
  all: unfold resultsFailed, emptySectionArrived; split_ifs; simpl.
  all: solve [still].
Qed.

Lemma stillShows_handle v e s :
  keepsReducedMotion e = true -> stillShows v s -> stillShows v (handle e s).
Proof.
  intros He H. destruct (stillShows_fields v s H) as (Hr & Hp & Ht & Htm & Hv).
  destruct e; unfold handle.
  3: { cbv zeta. destruct (listenersActive _); [| revert H; apply (stillShows_ext s); reflexivity].
       change (placeholderListeners (openDropdown (set_inputValue value s)))
         with (placeholderListeners s).
       rewrite Hp. revert H. apply (stillShows_ext s). reflexivity. }
  all: try (solve [still]).
  - destruct (awaiting s !! k); auto. apply stillShows_resume_k. exact H.
  - rewrite Htm. exact H.
  - simpl in He. subst reduced. revert H. unfold stillShows, stillOf. simpl.
    rewrite Hr. auto.
Qed.

Lemma stillShows_run v es s :
  forallb keepsReducedMotion es = true ->
  stillShows v s -> stillShows v (run es s).
Proof.
  revert s. induction es as [| e es IH]; simpl; intros s He H; auto.
  apply andb_prop in He. destruct He as (He1 & He2).
  apply IH; auto. apply stillShows_handle; auto.
Qed.

Lemma stillShows_connected c :
  cfgReducedMotion c = true ->
  stillShows
    (match getPlaceholderCategories c with
     | [] => default "" (cfgPlaceholder c)
     | first :: _ => buildPlaceholder (connectedCallback c) first
     end)
    (connectedCallback c).
Proof.
  intros Hr. unfold connectedCallback, setupPlaceholderAnimation. cbv zeta.
  match goal with
  | |- context [if (length (placeholderCategories ?y) =? 0)%nat then _ else _] =>
      set (x := y)
  end.
  assert (Hcat : placeholderCategories x = getPlaceholderCategories c)
    by reflexivity.
  assert (Hx : stillShows (default "" (cfgPlaceholder c)) x).
  { subst x. unfold stillShows, stillOf. split_ifs; simpl; rewrite ?Hr; reflexivity. }
  destruct (stillShows_fields _ _ Hx) as (Hrm & Hp & Ht & Htm & _).
  clearbody x. rewrite Hcat.
  destruct (getPlaceholderCategories c) as [| first rest].
  - exact Hx.
  - change ((length (first :: rest) =? 0)%nat) with false. cbv iota.
    rewrite Hrm. change (true || (length (first :: rest) =? 1)%nat) with true.
    cbv iota. rewrite JSMore.or_else_empty, JSMore.at_or_empty_0.
    unfold stillShows, stillOf. simpl. rewrite Hrm, Hp, Ht, Htm. reflexivity.
Qed.

End ReducedMotionFacts.

Module RF := ReducedMotionFacts.

(** X19. Reduced motion: when reduced motion is preferred as the
    component connects and stays preferred, the predictive search never
    asks for a timer and its placeholder stays what [connectedCallback]
    made it, whatever happens: the prefix with the first category, or the
    placeholder of the input when there is no category. *)
Theorem reduced_motion_still (c : P.Config) (es : list P.Event) :
  P.cfgReducedMotion c = true ->
  forallb P.keepsReducedMotion es = true ->
  let s := P.run es (P.connectedCallback c) in
  P.timers s = noTimers /\ P.placeholderTimeout s = None
  /\ P.inputPlaceholder s
     = match P.getPlaceholderCategories c with
       | [] => default "" (P.cfgPlaceholder c)
       | first :: _ => P.buildPlaceholder (P.connectedCallback c) first
       end.
Proof.
  intros Hr Hes s.
  destruct (RF.stillShows_fields _ s
              (RF.stillShows_run _ es _ Hes (RF.stillShows_connected c Hr)))
    as (_ & _ & H1 & H2 & H3).
  auto.
Qed.

Lemma reduced_motion_still_witness :
  let c := {| P.cfgValue := ""; P.cfgFocused := false; P.cfgFocusable := true;
              P.cfgPlaceholder := Some "Search";
              P.cfgResetHidden := true; P.cfgResults := [];
              P.cfgPlaceholderPrefix := Some "Search for";
              P.cfgPlaceholderCategories := AttrArray ["shoes"; "bags"];
              P.cfgCategoryLinks := []; P.cfgSectionId := Some "predictive-search";
              P.cfgReducedMotion := true; P.cfgViewedProducts := [] |} in
  let s := P.run Scenario.oneCategoryFocused (P.connectedCallback c) in
  P.timers s = noTimers /\ P.inputPlaceholder s = "Search for shoes".
Proof.
  intros c s.
  destruct (reduced_motion_still c Scenario.oneCategoryFocused eq_refl eq_refl)
    as (G1 & _ & G3).
  exact (conj G1 G3).
Defined.
